(** * Koopa Engine: physics, collision resolution and encounter rules

    A shallow embedding of the game logic of the two source files

      - [koopahdr.py]                  (module [Koopahdr])
      - [KoopaHDR1.07.31.251.0X.py]    (module [KoopaHDR1_07])

    Modelling conventions.

    - [pygame.Rect] holds four integers; they are modelled as [Z].
      Assigning a float to a Rect coordinate rounds it to the nearest
      integer, a half going away from zero ([round_coord]).
    - [pygame.math.Vector2] holds two floats.  Velocities are modelled as
      exact rationals [Q]; every comparison the code performs on them is a
      comparison with a constant, and the constants are kept as written
      ([0.5] is [1#2], [1.2] is [12#10], ...).
    - Sounds and sprite images have no influence on the simulated state and
      are left out.
    - A method that mutates [self] becomes a function returning the new
      object; a [for] loop over a list becomes a fold over that list. *)

From Stdlib Require Import ZArith QArith Qround Qminmax Bool List String Ascii Lia.
Import ListNotations.

Local Open Scope Z_scope.

(** ** Floats and the conversion to Rect coordinates *)

Definition Qltb (a b : Q) : bool := negb (Qle_bool b a).
Definition Qgtb (a b : Q) : bool := Qltb b a.

(** The integer a Rect coordinate takes when a float is assigned to it:
    the nearest integer, a half going away from zero. *)
Definition round_coord (q : Q) : Z :=
  if Qle_bool 0 q then Qfloor (q + (1 # 2)) else Qceiling (q - (1 # 2)).

(** ** pygame.Rect and pygame.math.Vector2 *)

Module Pygame.

Record Rect : Type := mkRect { x : Z; y : Z; width : Z; height : Z }.

Definition left (r : Rect) : Z := x r.
Definition top (r : Rect) : Z := y r.
Definition right (r : Rect) : Z := x r + width r.
Definition bottom (r : Rect) : Z := y r + height r.
Definition centery (r : Rect) : Z := y r + height r / 2.

Definition set_x (r : Rect) (v : Z) : Rect := mkRect v (y r) (width r) (height r).
Definition set_y (r : Rect) (v : Z) : Rect := mkRect (x r) v (width r) (height r).
Definition set_left (r : Rect) (v : Z) : Rect := set_x r v.
Definition set_top (r : Rect) (v : Z) : Rect := set_y r v.
Definition set_right (r : Rect) (v : Z) : Rect := set_x r (v - width r).
Definition set_bottom (r : Rect) (v : Z) : Rect := set_y r (v - height r).
Definition set_height (r : Rect) (v : Z) : Rect := mkRect (x r) (y r) (width r) v.
Definition set_topleft (r : Rect) (p : Z * Z) : Rect :=
  mkRect (fst p) (snd p) (width r) (height r).

(** [rect.x += v] with [v] a float. *)
Definition add_x (r : Rect) (v : Q) : Rect := set_x r (round_coord (inject_Z (x r) + v)).
Definition add_y (r : Rect) (v : Q) : Rect := set_y r (round_coord (inject_Z (y r) + v)).

(** [Rect.colliderect]: rectangles of zero size collide with nothing;
    touching edges do not collide. *)
Definition colliderect (a b : Rect) : bool :=
  if (width a =? 0) || (height a =? 0) || (width b =? 0) || (height b =? 0)
  then false
  else (Z.min (x a) (x a + width a) <? Z.max (x b) (x b + width b))
    && (Z.min (y a) (y a + height a) <? Z.max (y b) (y b + height b))
    && (Z.max (x a) (x a + width a) >? Z.min (x b) (x b + width b))
    && (Z.max (y a) (y a + height a) >? Z.min (y b) (y b + height b)).

Record Vector2 : Type := mkVec { vx : Q; vy : Q }.

Definition set_vx (v : Vector2) (q : Q) : Vector2 := mkVec q (vy v).
Definition set_vy (v : Vector2) (q : Q) : Vector2 := mkVec (vx v) q.

End Pygame.
Import Pygame.

(** ** Exceptions and the outcome of a frame *)

Inductive exn : Type := IndexError | AttributeError.

Inductive result (A : Type) : Type :=
| Ok (a : A)
| Raise (e : exn).
Arguments Ok {A} a.
Arguments Raise {A} e.

(** What [GameManager.update] hands back to the main loop. *)
Inductive outcome : Type :=
| Continue          (* return True *)
| Stop              (* return False *)
| Raised (e : exn). (* an exception leaves [update] *)

(** ** The tile vocabulary *)

Definition TILE_SIZE : Z := 32.

Definition chr_hash : ascii := "#"%char.
Definition chr_C : ascii := "C"%char.
Definition chr_K : ascii := "K"%char.

(** [enumerate(row)] over the characters of a string. *)
Fixpoint enumerate_string (i : Z) (s : string) : list (Z * ascii) :=
  match s with
  | EmptyString => []
  | String c s' => (i, c) :: enumerate_string (i + 1) s'
  end.

Fixpoint enumerate {A : Type} (i : Z) (l : list A) : list (Z * A) :=
  match l with
  | [] => []
  | a :: l' => (i, a) :: enumerate (i + 1) l'
  end.

(** Python indexing [l[i]]: negative indices count from the end, anything
    else out of range raises [IndexError]. *)
Definition py_index {A : Type} (l : list A) (i : Z) : result A :=
  let n := Z.of_nat (List.length l) in
  let j := if i <? 0 then i + n else i in
  if (0 <=? j) && (j <? n)
  then match nth_error l (Z.to_nat j) with
       | Some a => Ok a
       | None => Raise IndexError
       end
  else Raise IndexError.

Definition len {A : Type} (l : list A) : Z := Z.of_nat (List.length l).
Definition strlen (s : string) : Z := Z.of_nat (String.length s).

(** * KoopaHDR1.07.31.251.0X.py *)

Module KoopaHDR1_07.

(** ** Constants *)
Definition SCREEN_WIDTH : Z := 800.
Definition GRAVITY : Q := 1 # 2.
Definition JUMP_STRENGTH : Z := -12.
Definition PLAYER_SPEED : Z := 6.
Definition KOOPA_SPEED : Z := 2.
Definition KOOPA_SHELL_SPEED : Z := 10.

(** ** Worlds and levels, as they are written in the source *)
Definition LEVEL_1_1 : list string :=
  [ "................................................................................"
  ; "................................................................................"
  ; "..................###..............................................K............"
  ; "..............................................###..............................."
  ; ".............................###..................C............................."
  ; "................................................................................"
  ; "........K......................................................................."
  ; "################################################################################" ]%string.

Definition LEVEL_1_2 : list string :=
  [ "................................................................................"
  ; "...................................###.........................................."
  ; "................K.................#...#........................................"
  ; "..................................#...#................C......................."
  ; "..................................#...#........................................."
  ; "...................................###..................K......................"
  ; "................................................................................"
  ; "################################################################################" ]%string.

Definition LEVEL_1_3 : list string :=
  [ "................................................................................"
  ; ".................###............................................................"
  ; "........K.......#...#..............................###.........................."
  ; "................#...#.............................#...#........C................"
  ; "................#...#.............................#...#........................."
  ; ".................###..............................#...#........K................"
  ; "................................................................................"
  ; "################################################################################" ]%string.

Definition LEVEL_2_1 : list string :=
  [ "................................................................................"
  ; "..............................#................................................."
  ; ".............................#.#......................K........................."
  ; "............................#...#....................###........................"
  ; "........C..................#...#...................#...#......................"
  ; "............................#...#...................#...#........K............."
  ; ".............................#.#....................#...#......................"
  ; "..............................#......................###......................."
  ; "................................................................................"
  ; "################################################################################" ]%string.

Definition LEVEL_2_2 : list string :=
  [ "................................................................................"
  ; "................#..............................................................."
  ; "...............#.#........................................C....................."
  ; "..............#...#..............................K.............................."
  ; ".............#.....#............................................................"
  ; "............#.......#...........................###.............................."
  ; "...........#.........#.........................#...#........K.................."
  ; "..........#...........#........................#...#............................"
  ; ".........#.............#.......................#...#..........................."
  ; "........#...............#......................###............................."
  ; "................................................................................"
  ; "################################################################################" ]%string.

Definition LEVEL_2_3 : list string :=
  [ "................................................................................"
  ; "................................................................................"
  ; "...............###..............................................K..............."
  ; "..............#...#....................................C........................"
  ; ".............#.....#............................................................"
  ; "............#.......#..........................K................................."
  ; "...........#.........#.........................................................."
  ; "..........#...........#........................................................."
  ; ".........#.............#........................................................"
  ; "........#...............#......................................................"
  ; ".......#.................#....................................................."
  ; "......#...................#...................................................."
  ; ".....#.....................#..................................................."
  ; "....#.......................#.................................................."
  ; "...#.........................#................................................."
  ; "................................................................................"
  ; "################################################################################" ]%string.

Definition LEVEL_3_1 : list string :=
  [ "................................................................................"
  ; "................................................................................"
  ; "................................................................................"
  ; ".................K.........................................###.................."
  ; "..........................................................#...#........C........"
  ; "..........................................................#...#................."
  ; "..........................................................#...#........K........"
  ; "...........................................................###.................."
  ; "................................................................................"
  ; "################################################################################" ]%string.

Definition LEVEL_3_2 : list string :=
  [ "................................................................................"
  ; "...............#................................................................"
  ; "..............#.#........................................K......................"
  ; ".............#...#.....................................###....................."
  ; "............#.....#...................................#...#........C..........."
  ; "...........#.......#..................................#...#...................."
  ; "..........#.........#........................K........#...#...................."
  ; ".........#...........#...............................#...#....................."
  ; "........#.............#..............................###......................."
  ; "................................................................................"
  ; "################################################################################" ]%string.

Definition LEVEL_3_3 : list string :=
  [ "................................................................................"
  ; "................................................................................"
  ; "..............###...............................................K..............."
  ; ".............#...#.....................................C........................"
  ; "............#.....#............................................................."
  ; "...........#.......#...................................###......................"
  ; "..........#.........#........................K.........#...#...................."
  ; ".........#...........#................................#...#...................."
  ; "........#.............#...............................#...#....................."
  ; ".......#...............#..............................###......................."
  ; "................................................................................"
  ; "################################################################################" ]%string.

Definition WORLDS : list (list (list string)) :=
  [ [ LEVEL_1_1; LEVEL_1_2; LEVEL_1_3 ]
  ; [ LEVEL_2_1; LEVEL_2_2; LEVEL_2_3 ]
  ; [ LEVEL_3_1; LEVEL_3_2; LEVEL_3_3 ] ].

(** The module-level variables. *)
Record Globals : Type := mkGlobals
  { current_world : Z; current_level : Z; camera_x : Z }.

Definition fallback_level : list string :=
  repeat (string_of_list_ascii (repeat "."%char 80)) 16.

Definition get_level (g : Globals) : list string :=
  if (0 <=? current_world g) && (current_world g <? len WORLDS) then
    let world := nth (Z.to_nat (current_world g)) WORLDS [] in
    if (0 <=? current_level g) && (current_level g <? len world)
    then nth (Z.to_nat (current_level g)) world []
    else fallback_level
  else fallback_level.

Definition load_level (g : Globals) (world level : Z) : Globals :=
  let cw := Z.max 0 (Z.min world (len WORLDS - 1)) in
  let cl := Z.max 0 (Z.min level (len (nth (Z.to_nat cw) WORLDS []) - 1)) in
  mkGlobals cw cl (camera_x g).

(** ** TileMap *)

Record TileMap : Type := mkTileMap
  { data : list string;
    tile_size : Z;
    tm_width : Z;
    tm_height : Z;
    tiles : list Rect;
    coin_positions : list (Z * Z);
    koopa_positions : list (Z * Z) }.

(** [TileMap.__init__]: [len(data[0])] raises [IndexError] on an empty
    list; nothing else is checked. *)
Definition TileMap_init (d : list string) : result TileMap :=
  match d with
  | [] => Raise IndexError
  | row0 :: _ => Ok (mkTileMap d TILE_SIZE (strlen row0) (len d) [] [] [])
  end.

(** The body of the inner loop of [load_tiles], for the cell at column
    [cx] of row [cy]. *)
Definition load_cell (ts : Z) (cy : Z)
    (acc : list Rect * list (Z * Z) * list (Z * Z)) (cell : Z * ascii)
    : list Rect * list (Z * Z) * list (Z * Z) :=
  let '(tl, cl, kl) := acc in
  let '(cx, tile_char) := cell in
  if Ascii.eqb tile_char chr_hash then
    (tl ++ [mkRect (cx * ts) (cy * ts) ts ts], cl, kl)
  else if Ascii.eqb tile_char chr_C then
    (tl, cl ++ [(cx * ts + ts / 2 - 10, cy * ts + ts / 2 - 10)], kl)
  else if Ascii.eqb tile_char chr_K then
    (tl, cl, kl ++ [(cx * ts, cy * ts)])
  else acc.

Definition load_row (ts : Z)
    (acc : list Rect * list (Z * Z) * list (Z * Z)) (r : Z * string) :=
  fold_left (load_cell ts (fst r)) (enumerate_string 0 (snd r)) acc.

Definition load_tiles (tm : TileMap) : TileMap :=
  let '(tl, cl, kl) :=
    fold_left (load_row (tile_size tm)) (enumerate 0 (data tm)) ([], [], []) in
  mkTileMap (data tm) (tile_size tm) (tm_width tm) (tm_height tm) tl cl kl.

(** ** Entity *)

Record Entity : Type := mkEntity
  { rect : Rect; vel : Vector2; on_ground : bool }.

(** [Entity.__init__(x, y, image)] for an image of size [w] by [h]. *)
Definition Entity_init (px py w h : Z) : Entity :=
  mkEntity (mkRect px py w h) (mkVec 0 0) false.

Definition set_rect (e : Entity) (r : Rect) : Entity :=
  mkEntity r (vel e) (on_ground e).
Definition set_vel (e : Entity) (v : Vector2) : Entity :=
  mkEntity (rect e) v (on_ground e).
Definition set_on_ground (e : Entity) (b : bool) : Entity :=
  mkEntity (rect e) (vel e) b.

Definition apply_gravity (e : Entity) : Entity :=
  let e1 := set_vel e (set_vy (vel e) (vy (vel e) + GRAVITY)) in
  if Qgtb (vy (vel e1)) 10 then set_vel e1 (set_vy (vel e1) 10) else e1.

(** One iteration of the loop of [check_collisions_x]. *)
Definition check_collisions_x_step (e : Entity) (tile : Rect) : Entity :=
  if colliderect (rect e) tile then
    let e1 :=
      if Qgtb (vx (vel e)) 0 then set_rect e (set_right (rect e) (left tile))
      else if Qltb (vx (vel e)) 0 then set_rect e (set_left (rect e) (right tile))
      else e in
    set_vel e1 (set_vx (vel e1) 0)
  else e.

Definition check_collisions_x (tl : list Rect) (e : Entity) : Entity :=
  fold_left check_collisions_x_step tl e.

Definition check_collisions_y_step (e : Entity) (tile : Rect) : Entity :=
  if colliderect (rect e) tile then
    if Qgtb (vy (vel e)) 0 then
      set_on_ground
        (set_vel (set_rect e (set_bottom (rect e) (top tile)))
                 (set_vy (vel e) 0)) true
    else if Qltb (vy (vel e)) 0 then
      set_vel (set_rect e (set_top (rect e) (bottom tile))) (set_vy (vel e) 0)
    else e
  else e.

Definition check_collisions_y (tl : list Rect) (e : Entity) : Entity :=
  fold_left check_collisions_y_step tl (set_on_ground e false).

(** The two statements that close both [Player.update] and the movement
    part of [Koopa.update]:
    [self.rect.y += self.vel.y; self.check_collisions_y(tiles)]. *)
Definition vertical_sweep (tl : list Rect) (e : Entity) : Entity :=
  check_collisions_y tl (set_rect e (add_y (rect e) (vy (vel e)))).

(** ** Player *)

(** The keys read by [Player.update]. *)
Record Keys : Type := mkKeys
  { K_LEFT : bool; K_a : bool; K_RIGHT : bool; K_d : bool;
    K_SPACE : bool; K_w : bool; K_x : bool }.

Record Player : Type := mkPlayer
  { p_ent : Entity;
    shell_state : bool;
    shell_timer : Z;
    dash_speed : Z }.

Definition Player_init (px py : Z) : Player :=
  mkPlayer (Entity_init px py 32 32) false 0 0.

Definition p_set_ent (p : Player) (e : Entity) : Player :=
  mkPlayer e (shell_state p) (shell_timer p) (dash_speed p).
Definition p_set_vx (p : Player) (q : Q) : Player :=
  p_set_ent p (set_vel (p_ent p) (set_vx (vel (p_ent p)) q)).
Definition p_set_vy (p : Player) (q : Q) : Player :=
  p_set_ent p (set_vel (p_ent p) (set_vy (vel (p_ent p)) q)).
Definition p_set_rect (p : Player) (r : Rect) : Player :=
  p_set_ent p (set_rect (p_ent p) r).
Definition p_rect (p : Player) : Rect := rect (p_ent p).
Definition p_vx (p : Player) : Q := vx (vel (p_ent p)).
Definition p_vy (p : Player) : Q := vy (vel (p_ent p)).

(** [1 if vx > 0 else -1 if vx < 0 else 0] *)
Definition sign3 (q : Q) : Z :=
  if Qgtb q 0 then 1 else if Qltb q 0 then -1 else 0.

Definition Player_movement (p : Player) (keys : Keys) : Player :=
  let p1 := p_set_vx p 0 in
  let p2 := if K_LEFT keys || K_a keys
            then p_set_vx p1 (inject_Z (- PLAYER_SPEED)) else p1 in
  if K_RIGHT keys || K_d keys
  then p_set_vx p2 (p_vx p2 + inject_Z PLAYER_SPEED) else p2.

Definition Player_jump (p : Player) (keys : Keys) : Player :=
  if (K_SPACE keys || K_w keys) && on_ground (p_ent p)
  then p_set_vy p (inject_Z JUMP_STRENGTH) else p.

Definition Player_enter_shell (p : Player) (keys : Keys) : Player :=
  if K_x keys && negb (shell_state p) then
    let r1 := set_height (p_rect p) 24 in
    let r2 := set_y r1 (y r1 + 8) in
    mkPlayer (set_rect (p_ent p) r2) true 300 (PLAYER_SPEED * 2)
  else p.

Definition Player_shell_tick (p : Player) : Player :=
  if shell_state p then
    let p1 := p_set_vx p (p_vx p * (12 # 10)) in
    let p2 := mkPlayer (p_ent p1) (shell_state p1) (shell_timer p1 - 1)
                       (dash_speed p1) in
    if shell_timer p2 <=? 0 then
      let r1 := set_height (p_rect p2) 32 in
      let r2 := set_y r1 (y r1 - 8) in
      mkPlayer (set_rect (p_ent p2) r2) false (shell_timer p2) 0
    else p2
  else p.

(** [self.rect.x += self.vel.x + self.dash_speed * (...)] followed by
    [self.check_collisions_x(tile_map.tiles)]. *)
Definition Player_horizontal_sweep (tl : list Rect) (p : Player) : Player :=
  let d := (p_vx p + inject_Z (dash_speed p * sign3 (p_vx p)))%Q in
  p_set_ent p (check_collisions_x tl (set_rect (p_ent p) (add_x (p_rect p) d))).

Definition Player_update (tm : TileMap) (keys : Keys) (p : Player) : Player :=
  let p1 := p_set_ent p (apply_gravity (p_ent p)) in
  let p2 := Player_movement p1 keys in
  let p3 := Player_jump p2 keys in
  let p4 := Player_enter_shell p3 keys in
  let p5 := Player_shell_tick p4 in
  let p6 := Player_horizontal_sweep (tiles tm) p5 in
  p_set_ent p6 (vertical_sweep (tiles tm) (p_ent p6)).

(** ** Coin *)

Definition Coin : Type := Entity.
Definition Coin_init (pos : Z * Z) : Coin := Entity_init (fst pos) (snd pos) 20 20.

(** ** Koopa *)

Record Koopa : Type := mkKoopa
  { k_ent : Entity;
    direction : Z;
    shell : bool;
    k_shell_timer : Z }.

Definition Koopa_init (pos : Z * Z) : Koopa :=
  mkKoopa (Entity_init (fst pos) (snd pos) 32 32) 1 false 0.

Definition k_set_ent (k : Koopa) (e : Entity) : Koopa :=
  mkKoopa e (direction k) (shell k) (k_shell_timer k).
Definition k_set_vx (k : Koopa) (q : Q) : Koopa :=
  k_set_ent k (set_vel (k_ent k) (set_vx (vel (k_ent k)) q)).
Definition k_set_vy (k : Koopa) (q : Q) : Koopa :=
  k_set_ent k (set_vel (k_ent k) (set_vy (vel (k_ent k)) q)).
Definition k_set_direction (k : Koopa) (d : Z) : Koopa :=
  mkKoopa (k_ent k) d (shell k) (k_shell_timer k).
Definition k_rect (k : Koopa) : Rect := rect (k_ent k).
Definition k_vx (k : Koopa) : Q := vx (vel (k_ent k)).
Definition k_vy (k : Koopa) : Q := vy (vel (k_ent k)).

(** [self.vel.x = KOOPA_SPEED * self.direction] or, in the shell,
    [KOOPA_SHELL_SPEED * self.direction]. *)
Definition Koopa_set_speed (k : Koopa) : Koopa :=
  if negb (shell k)
  then k_set_vx k (inject_Z (KOOPA_SPEED * direction k))
  else k_set_vx k (inject_Z (KOOPA_SHELL_SPEED * direction k)).

(** The loop [for tile in tile_map.tiles: ... break]: the first tile that
    collides with the moved rectangle stops the search. *)
Fixpoint Koopa_wall_loop (tl : list Rect) (k : Koopa) : Koopa * bool :=
  match tl with
  | [] => (k, false)
  | tile :: tl' =>
      if colliderect (k_rect k) tile then
        (if Qgtb (k_vx k) 0
         then k_set_ent k (set_rect (k_ent k) (set_right (k_rect k) (left tile)))
         else k_set_ent k (set_rect (k_ent k) (set_left (k_rect k) (right tile))),
         true)
      else Koopa_wall_loop tl' k
  end.

(** [self.rect.x += self.vel.x], the wall loop and the flip on a hit. *)
Definition Koopa_horizontal (tl : list Rect) (k : Koopa) : Koopa * bool :=
  let k1 := k_set_ent k (set_rect (k_ent k) (add_x (k_rect k) (k_vx k))) in
  let '(k2, hit_wall) := Koopa_wall_loop tl k1 in
  (if hit_wall then k_set_direction k2 (direction k2 * -1) else k2, hit_wall).

Definition edge_check (k : Koopa) : Rect :=
  mkRect (round_coord (inject_Z (x (k_rect k)) + k_vx k)) (bottom (k_rect k))
         (width (k_rect k)) 2.

Definition Koopa_edge (tl : list Rect) (k : Koopa) : Koopa :=
  if on_ground (k_ent k) then
    if negb (existsb (fun tile => colliderect (edge_check k) tile) tl)
    then k_set_direction k (direction k * -1) else k
  else k.

Definition Koopa_shell_tick (k : Koopa) : Koopa :=
  if shell k then
    let k1 := mkKoopa (k_ent k) (direction k) (shell k) (k_shell_timer k - 1) in
    if k_shell_timer k1 <=? 0
    then mkKoopa (k_ent k1) (direction k1) false (k_shell_timer k1)
    else k1
  else k.

Definition Koopa_update (tm : TileMap) (k : Koopa) : Koopa :=
  let k1 := k_set_ent k (apply_gravity (k_ent k)) in
  let k2 := Koopa_set_speed k1 in
  let k3 := fst (Koopa_horizontal (tiles tm) k2) in
  let k4 := Koopa_edge (tiles tm) k3 in
  let k5 := k_set_ent k4 (vertical_sweep (tiles tm) (k_ent k4)) in
  Koopa_shell_tick k5.

Definition stomp (k : Koopa) : Koopa :=
  k_set_vx (mkKoopa (k_ent k) (direction k) true 180) 0.

Definition kick (k : Koopa) (d : Z) : Koopa :=
  let k1 := mkKoopa (k_ent k) d true 300 in
  let k2 := k_set_vx k1 (inject_Z (KOOPA_SHELL_SPEED * direction k1)) in
  k_set_vy k2 (inject_Z (-5)).

(** ** GameManager *)

(** The attributes of a [GameManager] object.  [__init__] and
    [load_level] assign [player], [coins], [koopas], [tile_map], [score]
    and [lives]; the attributes [current_level] and [current_world], read
    by the level-complete branch of [update], are assigned nowhere before
    that read, so they are optional here ([None]: the object has no such
    attribute). *)
Record GameManager : Type := mkGameManager
  { player : Player;
    coins : list Coin;
    koopas : list Koopa;
    tile_map : TileMap;
    score : Z;
    lives : Z;
    attr_current_level : option Z;
    attr_current_world : option Z }.

(** [GameManager.load_level(world, level)], given the objects that
    survive it: the player, the score, the lives and the two optional
    attributes. *)
Definition GameManager_load_level (g : Globals) (p : Player) (sc lv : Z)
    (acl acw : option Z) (world level : Z) : result (Globals * GameManager) :=
  let g1 := load_level g world level in
  match TileMap_init (get_level g1) with
  | Raise e => Raise e
  | Ok tm0 =>
      let tm := load_tiles tm0 in
      let p1 := p_set_rect p (set_topleft (p_rect p) (100, 100)) in
      let p2 := p_set_ent p1 (set_vel (p_ent p1) (mkVec 0 0)) in
      Ok (g1, mkGameManager p2 (map Coin_init (coin_positions tm))
                (map Koopa_init (koopa_positions tm)) tm sc lv acl acw)
  end.

Definition initial_globals : Globals := mkGlobals 0 0 0.

(** [GameManager.__init__].  [score] and [lives] are assigned after
    [load_level]. *)
Definition GameManager_init (g : Globals) : result (Globals * GameManager) :=
  match GameManager_load_level g (Player_init 100 100) 0 0 None None 0 0 with
  | Raise e => Raise e
  | Ok (g1, gm) =>
      Ok (mkGlobals (current_world g1) (current_level g1) 0,
          mkGameManager (player gm) (coins gm) (koopas gm) (tile_map gm)
                        0 3 None None)
  end.

(** The part of the session the enemy loop changes besides the enemies. *)
Record Enc : Type := mkEnc { e_player : Player; e_score : Z; e_lives : Z }.

Definition stomp_test (p : Player) (k : Koopa) : bool :=
  Qgtb (p_vy p) 0 && (bottom (p_rect p) <? centery (k_rect k)).

(** [direction = 1 if self.player.vel.x > 0 else -1] *)
Definition kick_direction (p : Player) : Z :=
  if Qgtb (p_vx p) 0 then 1 else -1.

Definition respawn (p : Player) : Player :=
  let p1 := p_set_rect p (set_topleft (p_rect p) (100, 100)) in
  p_set_ent p1 (set_vel (p_ent p1) (mkVec 0 0)).

(** The body of [for koopa in spritecollide(...)]; the boolean says that
    [update] returned [False] from inside the loop. *)
Definition encounter (k : Koopa) (s : Enc) : Koopa * Enc * bool :=
  if stomp_test (e_player s) k then
    (stomp k,
     mkEnc (p_set_vy (e_player s) (inject_Z JUMP_STRENGTH * (7 # 10)))
           (e_score s + 100) (e_lives s),
     false)
  else if shell_state (e_player s) then
    (kick k (kick_direction (e_player s)),
     mkEnc (e_player s) (e_score s + 200) (e_lives s),
     false)
  else
    let lives' := e_lives s - 1 in
    if lives' <=? 0 then (k, mkEnc (e_player s) (e_score s) lives', true)
    else (k, mkEnc (respawn (e_player s)) (e_score s) lives', false).

(** [pygame.sprite.spritecollide(self.player, self.koopas, False)] is
    computed before the loop starts, with the rectangle [pr0] the player
    has at that moment; the loop then visits the colliding koopas in the
    order of the group. *)
Fixpoint enemy_loop (pr0 : Rect) (ks : list Koopa) (s : Enc)
    : list Koopa * Enc * bool :=
  match ks with
  | [] => ([], s, false)
  | k :: ks' =>
      if colliderect pr0 (k_rect k) then
        let '(k1, s1, stop) := encounter k s in
        if stop then (k1 :: ks', s1, true)
        else let '(ks2, s2, stop2) := enemy_loop pr0 ks' s1 in
             (k1 :: ks2, s2, stop2)
      else let '(ks2, s2, stop2) := enemy_loop pr0 ks' s in
           (k :: ks2, s2, stop2)
  end.

(** [spritecollide(self.player, self.coins, True)]: the colliding coins
    leave the group, each is worth 50. *)
Definition collect_coins (p : Player) (cs : list Coin) (sc : Z) : list Coin * Z :=
  let collected := filter (fun c => colliderect (p_rect p) (rect c)) cs in
  (filter (fun c => negb (colliderect (p_rect p) (rect c))) cs,
   fold_left (fun acc _ => acc + 50) collected sc).

(** The level-complete check that closes [update]. *)
Definition level_complete (g : Globals) (gm : GameManager)
    : Globals * GameManager * outcome :=
  if x (p_rect (player gm)) >? tm_width (tile_map gm) * TILE_SIZE - 100 then
    (* self.current_level += 1 *)
    match attr_current_level gm with
    | None => (g, gm, Raised AttributeError)
    | Some cl =>
        let gm1 := mkGameManager (player gm) (coins gm) (koopas gm)
                     (tile_map gm) (score gm) (lives gm)
                     (Some (cl + 1)) (attr_current_world gm) in
        (* if self.current_level >= len(WORLDS[self.current_world]) *)
        match attr_current_world gm1 with
        | None => (g, gm1, Raised AttributeError)
        | Some cw =>
            match py_index WORLDS cw with
            | Raise e => (g, gm1, Raised e)
            | Ok world =>
                let '(cw2, cl2) :=
                  if cl + 1 >=? len world then (cw + 1, 0) else (cw, cl + 1) in
                let gm2 := mkGameManager (player gm) (coins gm) (koopas gm)
                             (tile_map gm) (score gm) (lives gm)
                             (Some cl2) (Some cw2) in
                if cw2 >=? len WORLDS then (g, gm2, Stop)
                else
                  match GameManager_load_level g (player gm2) (score gm2)
                          (lives gm2) (Some cl2) (Some cw2) cw2 cl2 with
                  | Raise e => (g, gm2, Raised e)
                  | Ok (g3, gm3) => (g3, gm3, Continue)
                  end
            end
        end
    end
  else (g, gm, Continue).

(** [GameManager.update]; [keys] is what [pg.key.get_pressed()] returns.
    The objects are mutated in place, so the state is returned whatever
    the outcome. *)
Definition update (g : Globals) (gm : GameManager) (keys : Keys)
    : Globals * GameManager * outcome :=
  let p1 := Player_update (tile_map gm) keys (player gm) in
  let ks1 := map (Koopa_update (tile_map gm)) (koopas gm) in
  let g1 := mkGlobals (current_world g) (current_level g)
                      (x (p_rect p1) - SCREEN_WIDTH / 2) in
  let '(cs2, sc2) := collect_coins p1 (coins gm) (score gm) in
  let '(ks3, s3, stop) := enemy_loop (p_rect p1) ks1 (mkEnc p1 sc2 (lives gm)) in
  let gm3 := mkGameManager (e_player s3) cs2 ks3 (tile_map gm)
               (e_score s3) (e_lives s3)
               (attr_current_level gm) (attr_current_world gm) in
  if stop then (g1, gm3, Stop) else level_complete g1 gm3.

End KoopaHDR1_07.

(** * koopahdr.py *)

Module Koopahdr.

(** ** Constants *)
Definition GRAVITY : Q := 1 # 2.
Definition JUMP_STRENGTH : Z := -10.
Definition PLAYER_SPEED : Z := 5.
Definition KOOPA_SPEED : Z := 1.
Definition KOOPA_SHELL_SPEED : Z := 8.

(** ** TileMap *)

Record TileMap : Type := mkTileMap
  { data : list string;
    tile_size : Z;
    tm_width : Z;
    tm_height : Z;
    tiles : list Rect;
    tm_coins : list (Z * Z);
    tm_koopas : list (Z * Z) }.

(** [self.width = len(data[0]) # Assuming rectangular map] *)
Definition TileMap_init (d : list string) : result TileMap :=
  match d with
  | [] => Raise IndexError
  | row0 :: _ => Ok (mkTileMap d TILE_SIZE (strlen row0) (len d) [] [] [])
  end.

Definition load_cell (ts : Z) (cy : Z)
    (acc : list Rect * list (Z * Z) * list (Z * Z)) (cell : Z * ascii)
    : list Rect * list (Z * Z) * list (Z * Z) :=
  let '(tl, cl, kl) := acc in
  let '(cx, tile_char) := cell in
  if Ascii.eqb tile_char chr_hash then
    (tl ++ [mkRect (cx * ts) (cy * ts) ts ts], cl, kl)
  else if Ascii.eqb tile_char chr_C then
    (tl, cl ++ [(cx * ts + ts / 2, cy * ts + ts / 2)], kl)
  else if Ascii.eqb tile_char chr_K then
    (tl, cl, kl ++ [(cx * ts, cy * ts)])
  else acc.

Definition load_row (ts : Z)
    (acc : list Rect * list (Z * Z) * list (Z * Z)) (r : Z * string) :=
  fold_left (load_cell ts (fst r)) (enumerate_string 0 (snd r)) acc.

Definition load_tiles (tm : TileMap) : TileMap :=
  let '(tl, cl, kl) :=
    fold_left (load_row (tile_size tm)) (enumerate 0 (data tm)) ([], [], []) in
  mkTileMap (data tm) (tile_size tm) (tm_width tm) (tm_height tm) tl cl kl.

(** ** Player *)

(** The keys read by [Player.update]. *)
Record Keys : Type := mkKeys { K_LEFT : bool; K_RIGHT : bool; K_SPACE : bool }.

Record Player : Type := mkPlayer
  { p_rect : Rect;
    p_vel : Vector2;
    on_ground : bool;
    jumping : bool;
    shell_state : bool;
    shell_timer : Z }.

Definition Player_init (px py : Z) : Player :=
  mkPlayer (mkRect px py 32 32) (mkVec 0 0) false false false 0.

Definition p_set_rect (p : Player) (r : Rect) : Player :=
  mkPlayer r (p_vel p) (on_ground p) (jumping p) (shell_state p) (shell_timer p).
Definition p_set_vel (p : Player) (v : Vector2) : Player :=
  mkPlayer (p_rect p) v (on_ground p) (jumping p) (shell_state p) (shell_timer p).
Definition p_vx (p : Player) : Q := vx (p_vel p).
Definition p_vy (p : Player) : Q := vy (p_vel p).

Inductive Direction : Type := horizontal | vertical.

(** One iteration of the loop of [Player.check_collisions]. *)
Definition check_collisions_step (d : Direction) (p : Player) (tile_rect : Rect)
    : Player :=
  if colliderect (p_rect p) tile_rect then
    match d with
    | horizontal =>
        if Qgtb (p_vx p) 0
        then p_set_rect p (set_right (p_rect p) (left tile_rect))
        else if Qltb (p_vx p) 0
        then p_set_rect p (set_left (p_rect p) (right tile_rect))
        else p
    | vertical =>
        if Qgtb (p_vy p) 0 then
          mkPlayer (set_bottom (p_rect p) (top tile_rect))
                   (set_vy (p_vel p) 0) true false
                   (shell_state p) (shell_timer p)
        else if Qltb (p_vy p) 0 then
          mkPlayer (set_top (p_rect p) (bottom tile_rect))
                   (set_vy (p_vel p) 0) (on_ground p) (jumping p)
                   (shell_state p) (shell_timer p)
        else p
    end
  else p.

Definition check_collisions (tm : TileMap) (d : Direction) (p : Player) : Player :=
  fold_left (check_collisions_step d) (tiles tm) p.

Definition Player_gravity (p : Player) : Player :=
  let p1 := p_set_vel p (set_vy (p_vel p) (p_vy p + GRAVITY)) in
  if Qgtb (p_vy p1) 5 then p_set_vel p1 (set_vy (p_vel p1) 5) else p1.

Definition Player_movement (p : Player) (keys : Keys) : Player :=
  if K_LEFT keys then p_set_vel p (set_vx (p_vel p) (inject_Z (- PLAYER_SPEED)))
  else if K_RIGHT keys then p_set_vel p (set_vx (p_vel p) (inject_Z PLAYER_SPEED))
  else p_set_vel p (set_vx (p_vel p) 0).

Definition Player_jump (p : Player) (keys : Keys) : Player :=
  if K_SPACE keys && on_ground p then
    mkPlayer (p_rect p) (set_vy (p_vel p) (inject_Z JUMP_STRENGTH)) false true
             (shell_state p) (shell_timer p)
  else p.

(** [self.rect.x += self.vel.x; self.check_collisions(tile_map, 'horizontal')] *)
Definition Player_horizontal_sweep (tm : TileMap) (p : Player) : Player :=
  check_collisions tm horizontal (p_set_rect p (add_x (p_rect p) (p_vx p))).

(** [self.rect.y += self.vel.y; self.check_collisions(tile_map, 'vertical')] *)
Definition Player_vertical_sweep (tm : TileMap) (p : Player) : Player :=
  check_collisions tm vertical (p_set_rect p (add_y (p_rect p) (p_vy p))).

Definition Player_shell_tick (p : Player) : Player :=
  if shell_state p then
    let p1 := mkPlayer (p_rect p) (p_vel p) (on_ground p) (jumping p)
                       (shell_state p) (shell_timer p - 1) in
    if shell_timer p1 <=? 0
    then mkPlayer (p_rect p1) (p_vel p1) (on_ground p1) (jumping p1)
                  false (shell_timer p1)
    else p1
  else p.

Definition Player_update (tm : TileMap) (keys : Keys) (p : Player) : Player :=
  let p1 := Player_gravity p in
  let p2 := Player_movement p1 keys in
  let p3 := Player_jump p2 keys in
  let p4 := Player_horizontal_sweep tm p3 in
  let p5 := Player_vertical_sweep tm p4 in
  Player_shell_tick p5.

(** ** Koopa *)

Record Koopa : Type := mkKoopa
  { k_rect : Rect;
    k_vel : Vector2;
    direction : Z;
    walk_speed : Z;
    shell : bool;
    k_shell_timer : Z }.

Definition Koopa_init (pos : Z * Z) : Koopa :=
  mkKoopa (mkRect (fst pos) (snd pos) 32 32) (mkVec 0 0) 1 KOOPA_SPEED false 0.

Definition k_set_rect (k : Koopa) (r : Rect) : Koopa :=
  mkKoopa r (k_vel k) (direction k) (walk_speed k) (shell k) (k_shell_timer k).
Definition k_set_vel (k : Koopa) (v : Vector2) : Koopa :=
  mkKoopa (k_rect k) v (direction k) (walk_speed k) (shell k) (k_shell_timer k).
Definition k_set_direction (k : Koopa) (d : Z) : Koopa :=
  mkKoopa (k_rect k) (k_vel k) d (walk_speed k) (shell k) (k_shell_timer k).
Definition k_vx (k : Koopa) : Q := vx (k_vel k).
Definition k_vy (k : Koopa) : Q := vy (k_vel k).

(** The search loop of [Koopa.update]; it stops at the first collision. *)
Fixpoint Koopa_wall_loop (tl : list Rect) (k : Koopa) : Koopa * bool :=
  match tl with
  | [] => (k, false)
  | tile_rect :: tl' =>
      if colliderect (k_rect k) tile_rect then
        let k1 := if direction k =? 1
                  then k_set_rect k (set_right (k_rect k) (left tile_rect))
                  else k_set_rect k (set_left (k_rect k) (right tile_rect)) in
        (k_set_direction k1 (direction k1 * -1), true)
      else Koopa_wall_loop tl' k
  end.

(** From [self.vel.x = ...] to [if not collision: self.rect.x = old_x]. *)
Definition Koopa_horizontal (tm : TileMap) (k : Koopa) : Koopa * bool :=
  let k1 := k_set_vel k (set_vx (k_vel k) (inject_Z (walk_speed k * direction k))) in
  let old_x := x (k_rect k1) in
  let k2 := k_set_rect k1 (add_x (k_rect k1) (k_vx k1)) in
  let '(k3, collision) := Koopa_wall_loop (tiles tm) k2 in
  (if negb collision then k_set_rect k3 (set_x (k_rect k3) old_x) else k3,
   collision).

Definition Koopa_gravity (k : Koopa) : Koopa :=
  let k1 := k_set_vel k (set_vy (k_vel k) (k_vy k + GRAVITY)) in
  if Qgtb (k_vy k1) 5 then k_set_vel k1 (set_vy (k_vel k1) 5) else k1.

(** One iteration of the loop of [Koopa.check_collisions]. *)
Definition Koopa_check_collisions_step (k : Koopa) (tile_rect : Rect) : Koopa :=
  if colliderect (k_rect k) tile_rect then
    if Qgtb (k_vy k) 0
    then k_set_vel (k_set_rect k (set_bottom (k_rect k) (top tile_rect)))
                   (set_vy (k_vel k) 0)
    else k
  else k.

Definition Koopa_check_collisions (tm : TileMap) (k : Koopa) : Koopa :=
  fold_left Koopa_check_collisions_step (tiles tm) k.

(** [self.rect.y += self.vel.y; self.check_collisions(tile_map)] *)
Definition Koopa_vertical_sweep (tm : TileMap) (k : Koopa) : Koopa :=
  Koopa_check_collisions tm (k_set_rect k (add_y (k_rect k) (k_vy k))).

Definition Koopa_shell_tick (k : Koopa) : Koopa :=
  if shell k then
    let k1 := mkKoopa (k_rect k) (k_vel k) (direction k) (walk_speed k)
                      (shell k) (k_shell_timer k - 1) in
    if k_shell_timer k1 <=? 0
    then mkKoopa (k_rect k1) (k_vel k1) (direction k1) (walk_speed k1)
                 false (k_shell_timer k1)
    else k1
  else k.

Definition Koopa_update (tm : TileMap) (k : Koopa) : Koopa :=
  let k1 := fst (Koopa_horizontal tm k) in
  let k2 := Koopa_gravity k1 in
  let k3 := Koopa_vertical_sweep tm k2 in
  Koopa_shell_tick k3.

(** [Koopa.kick(self)]: no direction is passed in. *)
Definition kick (k : Koopa) : Koopa :=
  let d := if Qltb (k_vx k) 0 then 1 else -1 in
  mkKoopa (k_rect k)
          (mkVec (inject_Z (d * KOOPA_SHELL_SPEED)) (inject_Z (-5)))
          d (walk_speed k) true 180.

(** ** GameManager *)

(** A Koopa object together with its membership in the groups [koopas]
    and [enemies].  Every Koopa that was ever spawned and not killed is
    in [all_sprites]; [load_level] empties [koopas] and [enemies] only. *)
Record Sprite : Type := mkSprite
  { obj : Koopa; in_koopas : bool; in_enemies : bool }.

Record GameManager : Type := mkGameManager
  { player : Player;
    all_sprites : list Sprite;   (* the Koopas of [all_sprites], in order *)
    tile_map : TileMap;
    score : Z;
    lives : Z }.

Definition sprite_update (tm : TileMap) (s : Sprite) : Sprite :=
  mkSprite (Koopa_update tm (obj s)) (in_koopas s) (in_enemies s).

Definition koopas_update (tm : TileMap) (s : Sprite) : Sprite :=
  if in_koopas s then sprite_update tm s else s.

Definition player_feet (p : Player) : Rect :=
  mkRect (x (p_rect p)) (bottom (p_rect p) - 5) (width (p_rect p)) 10.

Record Enc : Type := mkEnc { e_player : Player; e_score : Z; e_lives : Z }.

Inductive Fate : Type :=
| Killed                   (* enemy.kill(): gone from every group *)
| Kept (k : Koopa)
| Returned (k : Koopa).    (* [update] returned False here *)

Definition respawn (p : Player) : Player :=
  let p1 := p_set_rect p (set_topleft (p_rect p) (200, 64)) in
  p_set_vel p1 (set_vy (p_vel p1) 0).

(** The body of [for enemy in self.enemies]; [feet] is computed once
    before the loop. *)
Definition encounter (feet : Rect) (k : Koopa) (s : Enc) : Fate * Enc :=
  if colliderect (k_rect k) feet && Qgtb (p_vy (e_player s)) 0 then
    (Killed,
     mkEnc (p_set_vel (e_player s)
              (set_vy (p_vel (e_player s)) (inject_Z JUMP_STRENGTH * (8 # 10))))
           (e_score s + 100) (e_lives s))
  else if colliderect (p_rect (e_player s)) (k_rect k) then
    if shell_state (e_player s) then
      (Kept (kick k), mkEnc (e_player s) (e_score s + 50) (e_lives s))
    else
      let lives' := e_lives s - 1 in
      if lives' <=? 0 then (Returned k, mkEnc (e_player s) (e_score s) lives')
      else (Kept k, mkEnc (respawn (e_player s)) (e_score s) lives')
  else (Kept k, s).

Fixpoint enemy_loop (feet : Rect) (l : list Sprite) (s : Enc)
    : list Sprite * Enc * bool :=
  match l with
  | [] => ([], s, false)
  | sp :: l' =>
      if in_enemies sp then
        match encounter feet (obj sp) s with
        | (Killed, s1) => enemy_loop feet l' s1
        | (Kept k, s1) =>
            let '(l2, s2, stop) := enemy_loop feet l' s1 in
            (mkSprite k (in_koopas sp) (in_enemies sp) :: l2, s2, stop)
        | (Returned k, s1) =>
            (mkSprite k (in_koopas sp) (in_enemies sp) :: l', s1, true)
        end
      else let '(l2, s2, stop) := enemy_loop feet l' s in (sp :: l2, s2, stop)
  end.

(** [GameManager.update]; [keys] is what [pg.key.get_pressed()] returns
    inside [Player.update]. *)
Definition update (gm : GameManager) (keys : Keys) : GameManager * outcome :=
  (* self.all_sprites.update(self.tile_map) *)
  let p1 := Player_update (tile_map gm) keys (player gm) in
  let l1 := map (sprite_update (tile_map gm)) (all_sprites gm) in
  (* self.koopas.update(self.tile_map) *)
  let l2 := map (koopas_update (tile_map gm)) l1 in
  let feet := player_feet p1 in
  let '(l3, s3, stop) := enemy_loop feet l2 (mkEnc p1 (score gm) (lives gm)) in
  (mkGameManager (e_player s3) l3 (tile_map gm) (e_score s3) (e_lives s3),
   if stop then Stop else Continue).

End Koopahdr.

(** * The vertical sweep as the specification words it *)

Module Spec.

Record Body : Type := mkBody
  { position : Rect; velocity : Vector2; grounded : bool }.

(** "for every solid rectangle overlapping the new bounding box: if
    falling snap bottom edge to tile top, zero velocity.y, set grounded;
    if rising snap top edge to tile bottom, zero velocity.y". *)
Definition vertical_resolve (box : Rect) (b : Body) (solid : Rect) : Body :=
  if colliderect box solid then
    if Qgtb (vy (velocity b)) 0 then
      mkBody (set_bottom (position b) (top solid)) (set_vy (velocity b) 0) true
    else if Qltb (vy (velocity b)) 0 then
      mkBody (set_top (position b) (bottom solid)) (set_vy (velocity b) 0)
             (grounded b)
    else b
  else b.

(** "position.y += velocity.y; grounded := false; for every solid ...". *)
Definition vertical_sweep (solids : list Rect) (b : Body) : Body :=
  let moved := mkBody (add_y (position b) (vy (velocity b))) (velocity b) false in
  fold_left (vertical_resolve (position moved)) solids moved.

End Spec.

(** The bodies of the two programs, seen as specification bodies. *)
Definition body_of_entity (e : KoopaHDR1_07.Entity) : Spec.Body :=
  Spec.mkBody (KoopaHDR1_07.rect e) (KoopaHDR1_07.vel e) (KoopaHDR1_07.on_ground e).

Definition body_of_player (p : Koopahdr.Player) : Spec.Body :=
  Spec.mkBody (Koopahdr.p_rect p) (Koopahdr.p_vel p) (Koopahdr.on_ground p).

(** The enemy of [koopahdr.py] has no grounded flag. *)
Definition body_of_koopa (k : Koopahdr.Koopa) (g : bool) : Spec.Body :=
  Spec.mkBody (Koopahdr.k_rect k) (Koopahdr.k_vel k) g.

(** Tile maps for the examples: the rows are loaded by the program's own
    [load_tiles]. *)
Definition tile_map_of (rows : list string) : Koopahdr.TileMap :=
  match Koopahdr.TileMap_init rows with
  | Ok tm => Koopahdr.load_tiles tm
  | Raise _ => Koopahdr.mkTileMap rows TILE_SIZE 0 0 [] [] []
  end.

(** The player of [koopahdr.py] against a specification body: rectangle
    and velocity coincide, and a grounded body means [on_ground]. *)
Definition player_agrees (p : Koopahdr.Player) (b : Spec.Body) : Prop :=
  Koopahdr.p_rect p = Spec.position b /\ Koopahdr.p_vel p = Spec.velocity b
  /\ implb (Spec.grounded b) (Koopahdr.on_ground p) = true.

(** The enemy of [koopahdr.py] against a specification body. *)
Definition koopa_agrees (k : Koopahdr.Koopa) (b : Spec.Body) : Prop :=
  Koopahdr.k_rect k = Spec.position b /\ Koopahdr.k_vel k = Spec.velocity b.

(** ** Concrete situations used in the examples *)


(** A player of [koopahdr.py] that landed earlier and is now in the air
    of a map without tiles. *)
Definition airborne_player : Koopahdr.Player :=
  Koopahdr.mkPlayer (mkRect 0 0 32 32) (mkVec 0 (1 # 2)) true false false 0.

(** A player of [koopahdr.py] walking right at [PLAYER_SPEED], two pixels
    left of the tile of the map ["..#"]. *)
Definition walking_player : Koopahdr.Player :=
  Koopahdr.mkPlayer (mkRect 30 0 32 32) (mkVec (inject_Z 5) 0) false false false 0.

(** ** Overlap-freedom and the tile lattice *)

(** The box [r] overlaps none of the solids. *)
Definition overlaps_none (r : Rect) (solids : list Rect) : bool :=
  forallb (fun t => negb (colliderect r t)) solids.

(** A tile as [load_tiles] makes them: a square of side [TILE_SIZE] whose
    corner is on the lattice of that step. *)
Definition grid_tile (t : Rect) : bool :=
  (width t =? TILE_SIZE) && (height t =? TILE_SIZE)
  && (x t mod TILE_SIZE =? 0) && (y t mod TILE_SIZE =? 0).

(** The tiles accumulated so far by [load_tiles] are lattice tiles. *)
Definition grid_acc (acc : list Rect * list (Z * Z) * list (Z * Z)) : Prop :=
  Forall (fun t => grid_tile t = true) (fst (fst acc)).

(** The tile map [KoopaHDR1.07.31.251.0X.py] builds from level rows. *)
Definition hdr_tile_map_of (rows : list string) : KoopaHDR1_07.TileMap :=
  match KoopaHDR1_07.TileMap_init rows with
  | Ok tm => KoopaHDR1_07.load_tiles tm
  | Raise _ => KoopaHDR1_07.mkTileMap rows TILE_SIZE 0 0 [] [] []
  end.

Definition hdr_no_keys : KoopaHDR1_07.Keys :=
  KoopaHDR1_07.mkKeys false false false false false false false.

Definition old_no_keys : Koopahdr.Keys := Koopahdr.mkKeys false false false.

(** A level with a block of four solids over the place where
    [GameManager.load_level] of [KoopaHDR1.07.31.251.0X.py] puts the
    player, [(100, 100)]. *)
Definition blocked_spawn_level : list string :=
  [ "....."; "....."; "...##"; "...##" ]%string.

(** The level of the placeholder worlds of [koopahdr.py]:
    [["####...####"] * 8], eight rows of eighty solids.  [load_level] puts
    the player at [(200, 64)], inside it. *)
Definition placeholder_level : list string :=
  repeat (string_of_list_ascii (repeat "#"%char 80)) 8.

(** ** Encounter situations *)

(** The stomp scenario of the specification: the player falls at
    [velocity.y = 3], its bottom edge (192) above the centre (196) of the
    enemies it overlaps.  Here it overlaps two enemies at once. *)
Definition stomping_player : KoopaHDR1_07.Player :=
  KoopaHDR1_07.mkPlayer
    (KoopaHDR1_07.mkEntity (mkRect 100 160 32 32) (mkVec 0 (inject_Z 3)) false)
    false 0 0.

Definition koopa_at (px py : Z) : KoopaHDR1_07.Koopa :=
  KoopaHDR1_07.mkKoopa
    (KoopaHDR1_07.mkEntity (mkRect px py 32 32) (mkVec (inject_Z 2) 0) true)
    1 false 0.

Definition old_stomping_player : Koopahdr.Player :=
  Koopahdr.mkPlayer (mkRect 100 160 32 32) (mkVec 0 (inject_Z 3)) false false false 0.

Definition old_koopa_at (px py : Z) : Koopahdr.Koopa :=
  Koopahdr.mkKoopa (mkRect px py 32 32) (mkVec (inject_Z 1) 0) 1 1 false 0.

(** ** The end of the first level *)

(** The session [GameManager.__init__] builds (world 1, level 1, eighty
    columns: 2560 pixels), with the player standing on the floor at
    [x = 2461], one pixel past [2560 - 100]. *)
Definition at_goal (px : Z) : KoopaHDR1_07.Globals * KoopaHDR1_07.GameManager :=
  match KoopaHDR1_07.GameManager_init KoopaHDR1_07.initial_globals with
  | Ok (g, gm) =>
      (g, KoopaHDR1_07.mkGameManager
            (KoopaHDR1_07.p_set_rect (KoopaHDR1_07.player gm) (mkRect px 192 32 32))
            (KoopaHDR1_07.coins gm) (KoopaHDR1_07.koopas gm)
            (KoopaHDR1_07.tile_map gm) (KoopaHDR1_07.score gm)
            (KoopaHDR1_07.lives gm)
            (KoopaHDR1_07.attr_current_level gm)
            (KoopaHDR1_07.attr_current_world gm))
  | Raise _ =>
      (KoopaHDR1_07.initial_globals,
       KoopaHDR1_07.mkGameManager (KoopaHDR1_07.Player_init px 192) [] []
         (hdr_tile_map_of []) 0 3 None None)
  end.

(** ** Patrol and kick situations *)

(** A floor of four tiles under an empty row. *)
Definition floor_level : list string := [ "...."; "####" ]%string.

(** A player of [KoopaHDR1.07.31.251.0X.py] in shell mode that stands
    still, touched by an enemy walking on the same floor. *)
Definition resting_shell_player : KoopaHDR1_07.Player :=
  KoopaHDR1_07.mkPlayer
    (KoopaHDR1_07.mkEntity (mkRect 100 200 32 24) (mkVec 0 0) true)
    true 200 12.

(** ** Running the main loop *)

(** [while running: if not game_manager.update(): running = False], for
    the keys held in the successive frames; an exception ends the run. *)
Fixpoint hdr_run (g : KoopaHDR1_07.Globals) (gm : KoopaHDR1_07.GameManager)
    (inputs : list KoopaHDR1_07.Keys)
    : KoopaHDR1_07.Globals * KoopaHDR1_07.GameManager * outcome :=
  match inputs with
  | [] => (g, gm, Continue)
  | keys :: rest =>
      match KoopaHDR1_07.update g gm keys with
      | (g1, gm1, Continue) => hdr_run g1 gm1 rest
      | r => r
      end
  end.

Fixpoint old_run (gm : Koopahdr.GameManager) (inputs : list Koopahdr.Keys)
    : Koopahdr.GameManager * outcome :=
  match inputs with
  | [] => (gm, Continue)
  | keys :: rest =>
      match Koopahdr.update gm keys with
      | (gm1, Continue) => old_run gm1 rest
      | r => r
      end
  end.

(** The session [GameManager()] starts with. *)
Definition hdr_start : KoopaHDR1_07.Globals * KoopaHDR1_07.GameManager :=
  match KoopaHDR1_07.GameManager_init KoopaHDR1_07.initial_globals with
  | Ok r => r
  | Raise _ =>
      (KoopaHDR1_07.initial_globals,
       KoopaHDR1_07.mkGameManager (KoopaHDR1_07.Player_init 100 100) [] []
         (hdr_tile_map_of []) 0 3 None None)
  end.

(** ** Runs of single objects *)

(** Successive calls of [Player.update], one per frame, with the keys held
    in each frame. *)
Definition hdr_player_run (tm : KoopaHDR1_07.TileMap)
    (inputs : list KoopaHDR1_07.Keys) (p : KoopaHDR1_07.Player)
    : KoopaHDR1_07.Player :=
  fold_left (fun q keys => KoopaHDR1_07.Player_update tm keys q) inputs p.

(** [n] successive calls of [Koopa.update]. *)
Definition hdr_koopa_run (tm : KoopaHDR1_07.TileMap) (n : nat)
    (k : KoopaHDR1_07.Koopa) : KoopaHDR1_07.Koopa :=
  Nat.iter n (KoopaHDR1_07.Koopa_update tm) k.

(** The keys of a frame with the jump keys released. *)
Definition release_jump (keys : KoopaHDR1_07.Keys) : KoopaHDR1_07.Keys :=
  KoopaHDR1_07.mkKeys (KoopaHDR1_07.K_LEFT keys) (KoopaHDR1_07.K_a keys)
    (KoopaHDR1_07.K_RIGHT keys) (KoopaHDR1_07.K_d keys) false false
    (KoopaHDR1_07.K_x keys).

(** The horizontal intent of a frame: +1 for right, -1 for left, both or
    none is 0. *)
Definition axis (keys : KoopaHDR1_07.Keys) : Z :=
  (if KoopaHDR1_07.K_RIGHT keys || KoopaHDR1_07.K_d keys then 1 else 0)
  - (if KoopaHDR1_07.K_LEFT keys || KoopaHDR1_07.K_a keys then 1 else 0).

(** The mode of the player: shell flag, shell timer and dash speed. *)
Definition p_mode (p : KoopaHDR1_07.Player) : bool * Z * Z :=
  (KoopaHDR1_07.shell_state p, KoopaHDR1_07.shell_timer p, KoopaHDR1_07.dash_speed p).

(** The silhouette goes with the mode: 32 by 24 with dash speed 12 and a
    running timer in shell mode, 32 by 32 without dash otherwise. *)
Definition player_shape (p : KoopaHDR1_07.Player) : Prop :=
  width (KoopaHDR1_07.p_rect p) = 32
  /\ ((KoopaHDR1_07.shell_state p = true
       /\ height (KoopaHDR1_07.p_rect p) = 24
       /\ KoopaHDR1_07.dash_speed p = 12
       /\ 1 <= KoopaHDR1_07.shell_timer p)
      \/ (KoopaHDR1_07.shell_state p = false
          /\ height (KoopaHDR1_07.p_rect p) = 32
          /\ KoopaHDR1_07.dash_speed p = 0)).


(** A session in which an enemy walks into a player that stands on the
    floor of [floor_level] with one life left. *)
Definition last_life : KoopaHDR1_07.GameManager :=
  KoopaHDR1_07.mkGameManager
    (KoopaHDR1_07.mkPlayer
       (KoopaHDR1_07.mkEntity (mkRect 40 0 32 32) (mkVec 0 0) true) false 0 0)
    [] [koopa_at 40 0] (hdr_tile_map_of floor_level) 0 1 None None.

(** ** Counting the characters of a level *)




(** The same for the tiles of [koopahdr.py]. *)
Definition old_grid_acc (acc : list Rect * list (Z * Z) * list (Z * Z)) : Prop :=
  Forall (fun t => grid_tile t = true) (fst (fst acc)).

(** ** A well-placed enemy *)

(** The enemy's box has positive size and overlaps no solid, its direction
    is +1 or -1 and its velocity.y is between -32 and 10. *)
Definition koopa_ok (tl : list Rect) (k : KoopaHDR1_07.Koopa) : Prop :=
  0 < width (KoopaHDR1_07.k_rect k) /\ 0 < height (KoopaHDR1_07.k_rect k)
  /\ (KoopaHDR1_07.direction k = 1 \/ KoopaHDR1_07.direction k = -1)
  /\ (inject_Z (-32) <= KoopaHDR1_07.k_vy k)%Q
  /\ (KoopaHDR1_07.k_vy k <= 10)%Q
  /\ overlaps_none (KoopaHDR1_07.k_rect k) tl = true.

(** * Properties *)

(** ** Rationals *)

Lemma Qgtb_true (a b : Q) : Qgtb a b = true <-> (b < a)%Q.
Proof.
  unfold Qgtb, Qltb. rewrite negb_true_iff.
  split; intro H.
  - apply Qnot_le_lt. intro L. apply Qle_bool_iff in L. congruence.
  - destruct (Qle_bool a b) eqn:E; [|reflexivity].
    apply Qle_bool_iff in E. exfalso. exact (Qlt_not_le _ _ H E).
Qed.

Lemma Qltb_true (a b : Q) : Qltb a b = true <-> (a < b)%Q.
Proof. exact (Qgtb_true b a). Qed.

(** ** C1: the vertical sweep *)

Section VerticalSweep.

Import KoopaHDR1_07.

Lemma check_collisions_y_fold (box : Rect) (tl : list Rect) :
  forall e : Entity,
    rect e = box \/ vy (vel e) = 0%Q ->
    body_of_entity (fold_left check_collisions_y_step tl e)
    = fold_left (Spec.vertical_resolve box) tl (body_of_entity e).
Proof.
  induction tl as [|tile tl IH]; intros e He; simpl; [reflexivity|].
  destruct He as [He|He].
  - rewrite IH.
    + f_equal. unfold check_collisions_y_step, Spec.vertical_resolve.
      rewrite He. simpl.
      destruct (colliderect box tile); [|reflexivity].
      destruct (Qgtb (vy (vel e)) 0); [subst box; reflexivity|].
      destruct (Qltb (vy (vel e)) 0); [subst box; reflexivity|reflexivity].
    + unfold check_collisions_y_step.
      destruct (colliderect (rect e) tile); [|left; assumption].
      destruct (Qgtb (vy (vel e)) 0); [right; reflexivity|].
      destruct (Qltb (vy (vel e)) 0); [right; reflexivity|left; assumption].
  - assert (S1 : check_collisions_y_step e tile = e).
    { unfold check_collisions_y_step. rewrite He.
      destruct (colliderect (rect e) tile); reflexivity. }
    assert (S2 : Spec.vertical_resolve box (body_of_entity e) tile
                 = body_of_entity e).
    { unfold Spec.vertical_resolve. simpl. rewrite He.
      destruct (colliderect box tile); reflexivity. }
    rewrite S1, S2. apply IH. right; assumption.
Qed.

Lemma vertical_sweep_refines (tl : list Rect) (e : Entity) :
  body_of_entity (vertical_sweep tl e) = Spec.vertical_sweep tl (body_of_entity e).
Proof.
  unfold vertical_sweep, check_collisions_y, Spec.vertical_sweep.
  rewrite (check_collisions_y_fold (add_y (rect e) (vy (vel e)))).
  - reflexivity.
  - left. reflexivity.
Qed.

End VerticalSweep.

Section VerticalSweepOld.

Import Koopahdr.

Lemma player_vertical_fold (box : Rect) (tl : list Rect) :
  forall (p : Player) (b : Spec.Body),
    player_agrees p b ->
    p_rect p = box \/ vy (p_vel p) = 0%Q ->
    player_agrees (fold_left (check_collisions_step vertical) tl p)
                  (fold_left (Spec.vertical_resolve box) tl b).
Proof.
  induction tl as [|tile tl IH]; intros p b Hag Hinv; simpl; [assumption|].
  destruct Hag as (Hr & Hv & Hg).
  destruct Hinv as [Hinv|Hinv].
  - unfold check_collisions_step at 2, Spec.vertical_resolve at 2.
    unfold p_vy. rewrite Hinv, <- Hv.
    destruct (colliderect box tile).
    + destruct (Qgtb (vy (p_vel p)) 0).
      * apply IH; [|right; reflexivity].
        repeat split; simpl; congruence.
      * destruct (Qltb (vy (p_vel p)) 0).
        -- apply IH; [|right; reflexivity].
           repeat split; simpl; congruence.
        -- apply IH; [repeat split; assumption|left; assumption].
    + apply IH; [repeat split; assumption|left; assumption].
  - assert (S1 : check_collisions_step vertical p tile = p).
    { unfold check_collisions_step, p_vy. rewrite Hinv.
      destruct (colliderect (p_rect p) tile); reflexivity. }
    assert (S2 : Spec.vertical_resolve box b tile = b).
    { unfold Spec.vertical_resolve. rewrite <- Hv, Hinv.
      destruct (colliderect box tile); reflexivity. }
    rewrite S1, S2. apply IH; [repeat split; assumption|right; assumption].
Qed.

Lemma player_vertical_sweep_agrees (tm : TileMap) (p : Player) :
  player_agrees (Player_vertical_sweep tm p)
                (Spec.vertical_sweep (tiles tm) (body_of_player p)).
Proof.
  unfold Player_vertical_sweep, check_collisions, Spec.vertical_sweep.
  apply player_vertical_fold.
  - repeat split.
  - left. reflexivity.
Qed.

Lemma koopa_vertical_fold (box : Rect) (tl : list Rect) :
  forall (k : Koopa) (b : Spec.Body),
    koopa_agrees k b ->
    Qltb (vy (k_vel k)) 0 = false ->
    k_rect k = box \/ vy (k_vel k) = 0%Q ->
    koopa_agrees (fold_left Koopa_check_collisions_step tl k)
                 (fold_left (Spec.vertical_resolve box) tl b).
Proof.
  induction tl as [|tile tl IH]; intros k b Hag Hnr Hinv; simpl; [assumption|].
  destruct Hag as (Hr & Hv).
  destruct Hinv as [Hinv|Hinv].
  - unfold Koopa_check_collisions_step at 2, Spec.vertical_resolve at 2.
    unfold k_vy. rewrite Hinv, <- Hv, Hnr.
    destruct (colliderect box tile).
    + destruct (Qgtb (vy (k_vel k)) 0).
      * apply IH; [split; simpl; congruence|reflexivity|right; reflexivity].
      * apply IH; [split; assumption|assumption|left; assumption].
    + apply IH; [split; assumption|assumption|left; assumption].
  - assert (S1 : Koopa_check_collisions_step k tile = k).
    { unfold Koopa_check_collisions_step, k_vy. rewrite Hinv.
      destruct (colliderect (k_rect k) tile); reflexivity. }
    assert (S2 : Spec.vertical_resolve box b tile = b).
    { unfold Spec.vertical_resolve. rewrite <- Hv, Hinv.
      destruct (colliderect box tile); reflexivity. }
    rewrite S1, S2. apply IH; [split; assumption|assumption|right; assumption].
Qed.

Lemma koopa_rising_fold (tl : list Rect) :
  forall k : Koopa,
    Qltb (vy (k_vel k)) 0 = true ->
    fold_left Koopa_check_collisions_step tl k = k.
Proof.
  induction tl as [|tile tl IH]; intros k Hr; simpl; [reflexivity|].
  assert (S1 : Koopa_check_collisions_step k tile = k).
  { unfold Koopa_check_collisions_step, k_vy.
    destruct (colliderect (k_rect k) tile); [|reflexivity].
    destruct (Qgtb (vy (k_vel k)) 0) eqn:G; [|reflexivity].
    apply Qgtb_true in G. apply Qltb_true in Hr.
    exfalso. exact (Qlt_irrefl _ (Qlt_trans _ _ _ G Hr)). }
  rewrite S1. apply IH. assumption.
Qed.

End VerticalSweepOld.

Lemma old_koopa_vertical_sweep_cases
    (tm : Koopahdr.TileMap) (k : Koopahdr.Koopa) (g : bool) :
  if Qltb (Koopahdr.k_vy k) 0
  then Koopahdr.Koopa_vertical_sweep tm k
       = Koopahdr.k_set_rect k (add_y (Koopahdr.k_rect k) (Koopahdr.k_vy k))
  else koopa_agrees (Koopahdr.Koopa_vertical_sweep tm k)
         (Spec.vertical_sweep (Koopahdr.tiles tm) (body_of_koopa k g)).
Proof.
  destruct (Qltb (Koopahdr.k_vy k) 0) eqn:E.
  - unfold Koopahdr.Koopa_vertical_sweep, Koopahdr.Koopa_check_collisions.
    apply koopa_rising_fold. exact E.
  - unfold Koopahdr.Koopa_vertical_sweep, Koopahdr.Koopa_check_collisions,
      Spec.vertical_sweep.
    apply koopa_vertical_fold.
    + split; reflexivity.
    + exact E.
    + left. reflexivity.
Qed.



(** ** C3: the horizontal sweep *)

Section HorizontalSweep.

Import KoopaHDR1_07.

Lemma check_collisions_x_stopped (tl : list Rect) :
  forall e : Entity, vx (vel e) = 0%Q -> check_collisions_x tl e = e.
Proof.
  unfold check_collisions_x.
  induction tl as [|tile tl IH]; intros e He; simpl; [reflexivity|].
  assert (S1 : check_collisions_x_step e tile = e).
  { unfold check_collisions_x_step. rewrite He.
    destruct (colliderect (rect e) tile); [|reflexivity].
    destruct e as [r [vx0 vy0] g]. simpl in *. subst vx0. reflexivity. }
  rewrite S1. apply IH. assumption.
Qed.

(** Only the first colliding tile, in the order of the list, matters. *)
Lemma check_collisions_x_first (tl : list Rect) (e : Entity) :
  check_collisions_x tl e
  = match find (fun tile => colliderect (rect e) tile) tl with
    | Some tile => check_collisions_x_step e tile
    | None => e
    end.
Proof.
  induction tl as [|tile tl IH]; simpl; [reflexivity|].
  destruct (colliderect (rect e) tile) eqn:C.
  - change (fold_left check_collisions_x_step tl (check_collisions_x_step e tile))
      with (check_collisions_x tl (check_collisions_x_step e tile)).
    apply check_collisions_x_stopped.
    unfold check_collisions_x_step. rewrite C. reflexivity.
  - unfold check_collisions_x in IH.
    replace (check_collisions_x_step e tile) with e; [exact IH|].
    unfold check_collisions_x_step. rewrite C. reflexivity.
Qed.

Lemma Koopa_wall_loop_vel (tl : list Rect) (k : Koopa) :
  vel (k_ent (fst (Koopa_wall_loop tl k))) = vel (k_ent k).
Proof.
  induction tl as [|tile tl IH]; simpl; [reflexivity|].
  destruct (colliderect (k_rect k) tile); [|exact IH].
  simpl. destruct (Qgtb (k_vx k) 0); reflexivity.
Qed.

End HorizontalSweep.

Lemma old_check_collisions_horizontal_vel (tl : list Rect) :
  forall p : Koopahdr.Player,
    Koopahdr.p_vel (fold_left (Koopahdr.check_collisions_step Koopahdr.horizontal) tl p)
    = Koopahdr.p_vel p.
Proof.
  induction tl as [|tile tl IH]; intros p; simpl; [reflexivity|].
  rewrite IH. unfold Koopahdr.check_collisions_step.
  destruct (colliderect (Koopahdr.p_rect p) tile); [|reflexivity].
  destruct (Qgtb (Koopahdr.p_vx p) 0); [reflexivity|].
  destruct (Qltb (Koopahdr.p_vx p) 0); reflexivity.
Qed.

(** The enemy's wall loop stops at the first colliding tile, in the order
    of the list. *)
Lemma hdr_wall_loop_first (tl : list Rect) (k : KoopaHDR1_07.Koopa) :
  KoopaHDR1_07.Koopa_wall_loop tl k
  = match find (fun t => colliderect (KoopaHDR1_07.k_rect k) t) tl with
    | Some tile =>
        (if Qgtb (KoopaHDR1_07.k_vx k) 0
         then KoopaHDR1_07.k_set_ent k
                (KoopaHDR1_07.set_rect (KoopaHDR1_07.k_ent k)
                   (set_right (KoopaHDR1_07.k_rect k) (left tile)))
         else KoopaHDR1_07.k_set_ent k
                (KoopaHDR1_07.set_rect (KoopaHDR1_07.k_ent k)
                   (set_left (KoopaHDR1_07.k_rect k) (right tile))),
         true)
    | None => (k, false)
    end.
Proof.
  induction tl as [|tile tl IH]; cbn [KoopaHDR1_07.Koopa_wall_loop find];
    [reflexivity|].
  destruct (colliderect (KoopaHDR1_07.k_rect k) tile); [reflexivity|exact IH].
Qed.

(** C3 (as amended).  In [KoopaHDR1.07.31.251.0X.py], when the player's
    horizontal sweep ([Entity.check_collisions_x]) finds a solid overlapping
    the moved box, the first such solid in list order decides: velocity.x
    becomes zero, a body moving right gets its right edge on the tile's left
    edge, a body moving left gets its left edge on the tile's right edge,
    and nothing else changes.  The enemy's own wall loop of that file never
    changes velocity.x; when a solid overlaps the moved box, the first such
    solid decides: the loop reports the hit, an enemy with velocity.x > 0
    gets its right edge on the tile's left edge, any other enemy gets its
    left edge on the tile's right edge, and y, size, direction and shell
    state are unchanged; without an overlapping solid the enemy is
    unchanged and no hit is reported.  In [koopahdr.py] each overlapping
    tile clamps the player the same way and velocity.x is never changed. *)
Theorem C3_horizontal_contact :
  (forall (tl : list Rect) (e : KoopaHDR1_07.Entity) (tile : Rect),
      find (fun t => colliderect (KoopaHDR1_07.rect e) t) tl = Some tile ->
      let e' := KoopaHDR1_07.check_collisions_x tl e in
      vx (KoopaHDR1_07.vel e') = 0%Q
      /\ (Qgtb (vx (KoopaHDR1_07.vel e)) 0 = true ->
          right (KoopaHDR1_07.rect e') = left tile)
      /\ (Qltb (vx (KoopaHDR1_07.vel e)) 0 = true ->
          left (KoopaHDR1_07.rect e') = right tile)
      /\ y (KoopaHDR1_07.rect e') = y (KoopaHDR1_07.rect e)
      /\ width (KoopaHDR1_07.rect e') = width (KoopaHDR1_07.rect e)
      /\ height (KoopaHDR1_07.rect e') = height (KoopaHDR1_07.rect e)
      /\ vy (KoopaHDR1_07.vel e') = vy (KoopaHDR1_07.vel e)
      /\ KoopaHDR1_07.on_ground e' = KoopaHDR1_07.on_ground e)
  /\ (forall (tl : list Rect) (k : KoopaHDR1_07.Koopa),
         KoopaHDR1_07.vel (KoopaHDR1_07.k_ent (fst (KoopaHDR1_07.Koopa_wall_loop tl k)))
         = KoopaHDR1_07.vel (KoopaHDR1_07.k_ent k))
  /\ (forall (tl : list Rect) (k : KoopaHDR1_07.Koopa) (tile : Rect),
         find (fun t => colliderect (KoopaHDR1_07.k_rect k) t) tl = Some tile ->
         let r := KoopaHDR1_07.Koopa_wall_loop tl k in
         snd r = true
         /\ (Qgtb (KoopaHDR1_07.k_vx k) 0 = true ->
             right (KoopaHDR1_07.k_rect (fst r)) = left tile)
         /\ (Qgtb (KoopaHDR1_07.k_vx k) 0 = false ->
             left (KoopaHDR1_07.k_rect (fst r)) = right tile)
         /\ y (KoopaHDR1_07.k_rect (fst r)) = y (KoopaHDR1_07.k_rect k)
         /\ width (KoopaHDR1_07.k_rect (fst r)) = width (KoopaHDR1_07.k_rect k)
         /\ height (KoopaHDR1_07.k_rect (fst r)) = height (KoopaHDR1_07.k_rect k)
         /\ KoopaHDR1_07.direction (fst r) = KoopaHDR1_07.direction k
         /\ KoopaHDR1_07.shell (fst r) = KoopaHDR1_07.shell k
         /\ KoopaHDR1_07.k_shell_timer (fst r) = KoopaHDR1_07.k_shell_timer k)
  /\ (forall (tl : list Rect) (k : KoopaHDR1_07.Koopa),
         find (fun t => colliderect (KoopaHDR1_07.k_rect k) t) tl = None ->
         KoopaHDR1_07.Koopa_wall_loop tl k = (k, false))
  /\ (forall (p : Koopahdr.Player) (tile : Rect),
         colliderect (Koopahdr.p_rect p) tile = true ->
         let p' := Koopahdr.check_collisions_step Koopahdr.horizontal p tile in
         Koopahdr.p_vel p' = Koopahdr.p_vel p
         /\ (Qgtb (Koopahdr.p_vx p) 0 = true ->
             right (Koopahdr.p_rect p') = left tile)
         /\ (Qltb (Koopahdr.p_vx p) 0 = true ->
             left (Koopahdr.p_rect p') = right tile))
  /\ (forall (tm : Koopahdr.TileMap) (p : Koopahdr.Player),
         Koopahdr.p_vel (Koopahdr.Player_horizontal_sweep tm p) = Koopahdr.p_vel p).
Proof.
  repeat apply conj.
  - intros tl e tile Hf e'. subst e'.
    rewrite check_collisions_x_first, Hf.
    apply find_some in Hf. destruct Hf as [_ Hc].
    unfold KoopaHDR1_07.check_collisions_x_step. rewrite Hc.
    destruct (Qgtb (vx (KoopaHDR1_07.vel e)) 0) eqn:G.
    + simpl. unfold right, left. simpl.
      repeat split; try reflexivity; try lia.
      intro L. apply Qltb_true in L. apply Qgtb_true in G.
      exfalso. exact (Qlt_irrefl _ (Qlt_trans _ _ _ G L)).
    + destruct (Qltb (vx (KoopaHDR1_07.vel e)) 0) eqn:L; simpl;
        repeat split; try reflexivity; try discriminate.
  - exact Koopa_wall_loop_vel.
  - intros tl k tile Hf r. subst r.
    rewrite hdr_wall_loop_first, Hf.
    unfold KoopaHDR1_07.k_rect, right, left.
    destruct (Qgtb (KoopaHDR1_07.k_vx k) 0) eqn:G;
      cbn [fst snd KoopaHDR1_07.k_ent KoopaHDR1_07.k_set_ent KoopaHDR1_07.rect
           KoopaHDR1_07.set_rect KoopaHDR1_07.direction KoopaHDR1_07.shell
           KoopaHDR1_07.k_shell_timer];
      unfold set_right, set_left, set_x; cbn [x y width height];
      repeat split; try reflexivity; try discriminate; intros _; lia.
  - intros tl k Hf. rewrite hdr_wall_loop_first, Hf. reflexivity.
  - intros p tile Hc p'. subst p'.
    unfold Koopahdr.check_collisions_step. rewrite Hc.
    destruct (Qgtb (Koopahdr.p_vx p) 0) eqn:G.
    + simpl. unfold right, left. simpl.
      repeat split; try reflexivity; try lia.
      intro L. apply Qltb_true in L. apply Qgtb_true in G.
      exfalso. exact (Qlt_irrefl _ (Qlt_trans _ _ _ G L)).
    + destruct (Qltb (Koopahdr.p_vx p) 0) eqn:L; simpl;
        repeat split; try reflexivity; try discriminate.
  - intros tm p. unfold Koopahdr.Player_horizontal_sweep, Koopahdr.check_collisions.
    rewrite old_check_collisions_horizontal_vel. reflexivity.
Qed.

Lemma C3_horizontal_contact_witness :
  let e := KoopaHDR1_07.mkEntity (mkRect 35 0 32 32) (mkVec (inject_Z 6) 0) false in
  let e' := KoopaHDR1_07.check_collisions_x [mkRect 0 32 32 32; mkRect 64 0 32 32] e in
  vx (KoopaHDR1_07.vel e') = 0%Q /\ right (KoopaHDR1_07.rect e') = 64.
Proof.
  intros e e'.
  destruct (proj1 C3_horizontal_contact
              [mkRect 0 32 32 32; mkRect 64 0 32 32] e (mkRect 64 0 32 32) eq_refl)
    as (H1 & H2 & _).
  split; [exact H1|apply H2; reflexivity].
Defined.

(** C3 fails as stated.  In [koopahdr.py] the player walks right into the
    tile of the map ["..#"], is clamped to the tile's left edge and keeps
    its horizontal velocity.  In [KoopaHDR1.07.31.251.0X.py] an enemy that
    walks into the same tile is clamped and keeps its velocity.x too. *)
Lemma C3_counterexample :
  let tm := tile_map_of ["..#"%string] in
  let moved := add_x (Koopahdr.p_rect walking_player) (Koopahdr.p_vx walking_player) in
  let p' := Koopahdr.Player_horizontal_sweep tm walking_player in
  let r := KoopaHDR1_07.Koopa_horizontal (KoopaHDR1_07.tiles (hdr_tile_map_of ["..#"%string]))
             (KoopaHDR1_07.Koopa_set_speed (koopa_at 35 0)) in
  Koopahdr.tiles tm = [mkRect 64 0 32 32]
  /\ colliderect moved (mkRect 64 0 32 32) = true
  /\ right (Koopahdr.p_rect p') = 64
  /\ Koopahdr.p_vx p' = inject_Z 5
  /\ ~ (Koopahdr.p_vx p' == 0)%Q
  /\ snd r = true
  /\ right (KoopaHDR1_07.k_rect (fst r)) = 64
  /\ KoopaHDR1_07.k_vx (fst r) = inject_Z 2
  /\ ~ (KoopaHDR1_07.k_vx (fst r) == 0)%Q.
Proof. vm_compute. repeat split; intro H; discriminate H. Qed.

(** ** C2: what is left overlapping after a sweep *)

Lemma round_coord_lower (m : Z) (s : Q) :
  (inject_Z m <= s)%Q -> m <= round_coord s.
Proof.
  intro H. unfold round_coord. destruct (Qle_bool 0 s) eqn:E.
  - rewrite <- (Qfloor_Z m). apply Qfloor_resp_le.
    apply Qle_trans with (y := s); [exact H|].
    rewrite <- (Qplus_0_r s) at 1.
    apply Qplus_le_compat; [apply Qle_refl|unfold Qle; cbn; lia].
  - assert (L : (inject_Z (m - 1) < inject_Z (Qceiling (s - (1 # 2))))%Q).
    { apply Qlt_le_trans with (y := (s - (1 # 2))%Q); [|apply Qle_ceiling].
      apply Qlt_le_trans with (y := (inject_Z m - (1 # 2))%Q).
      - unfold Qlt, Qminus, Qplus, Qopp, inject_Z. cbn. lia.
      - apply Qplus_le_compat; [exact H|apply Qle_refl]. }
    rewrite <- Zlt_Qlt in L. lia.
Qed.

Lemma round_coord_upper (m : Z) (s : Q) :
  (s <= inject_Z m)%Q -> round_coord s <= m.
Proof.
  intro H. unfold round_coord. destruct (Qle_bool 0 s) eqn:E.
  - assert (L : (inject_Z (Qfloor (s + (1 # 2))) < inject_Z (m + 1))%Q).
    { apply Qle_lt_trans with (y := (s + (1 # 2))%Q); [apply Qfloor_le|].
      apply Qle_lt_trans with (y := (inject_Z m + (1 # 2))%Q).
      - apply Qplus_le_compat; [exact H|apply Qle_refl].
      - unfold Qlt, Qplus, inject_Z. cbn. lia. }
    rewrite <- Zlt_Qlt in L. lia.
  - rewrite <- (Qceiling_Z m). apply Qceiling_resp_le.
    apply Qle_trans with (y := s); [|exact H].
    rewrite <- (Qplus_0_r s) at 2.
    apply Qplus_le_compat; [apply Qle_refl|unfold Qle; cbn; lia].
Qed.

Lemma round_coord_between (z a b : Z) (q : Q) :
  (inject_Z a <= q)%Q -> (q <= inject_Z b)%Q ->
  z + a <= round_coord (inject_Z z + q) <= z + b.
Proof.
  intros Ha Hb. split.
  - apply round_coord_lower. rewrite inject_Z_plus.
    apply Qplus_le_compat; [apply Qle_refl|exact Ha].
  - apply round_coord_upper. rewrite inject_Z_plus.
    apply Qplus_le_compat; [apply Qle_refl|exact Hb].
Qed.

Lemma Qcmp_cases (q : Q) :
  (Qgtb q 0 = true /\ (0 < q)%Q)
  \/ (Qgtb q 0 = false /\ Qltb q 0 = true /\ (q < 0)%Q)
  \/ (Qgtb q 0 = false /\ Qltb q 0 = false /\ (q == 0)%Q).
Proof.
  destruct (Qgtb q 0) eqn:G.
  - left. split; [reflexivity|]. apply Qgtb_true. exact G.
  - right. destruct (Qltb q 0) eqn:L.
    + left. repeat split. apply Qltb_true. exact L.
    + right. repeat split.
      apply Qle_antisym; apply Qnot_lt_le; intro H.
      * apply Qgtb_true in H. congruence.
      * apply Qltb_true in H. congruence.
Qed.

Lemma colliderect_pos (a b : Rect) :
  0 < width a -> 0 < height a -> 0 < width b -> 0 < height b ->
  (colliderect a b = true <->
   x a < x b + width b /\ y a < y b + height b
   /\ x b < x a + width a /\ y b < y a + height a).
Proof.
  intros Hwa Hha Hwb Hhb. unfold colliderect.
  destruct (Z.eqb_spec (width a) 0); [lia|].
  destruct (Z.eqb_spec (height a) 0); [lia|].
  destruct (Z.eqb_spec (width b) 0); [lia|].
  destruct (Z.eqb_spec (height b) 0); [lia|].
  simpl. rewrite !andb_true_iff, !Z.ltb_lt, !Z.gtb_lt. lia.
Qed.

Lemma grid_tile_spec (t : Rect) :
  grid_tile t = true <->
  width t = 32 /\ height t = 32 /\ x t mod 32 = 0 /\ y t mod 32 = 0.
Proof.
  unfold grid_tile, TILE_SIZE.
  rewrite !andb_true_iff, !Z.eqb_eq. tauto.
Qed.

Lemma colliderect_pos_false (a b : Rect) :
  0 < width a -> 0 < height a -> 0 < width b -> 0 < height b ->
  (colliderect a b = false <->
   ~ (x a < x b + width b /\ y a < y b + height b
      /\ x b < x a + width a /\ y b < y a + height a)).
Proof.
  intros Hwa Hha Hwb Hhb.
  rewrite <- (colliderect_pos a b Hwa Hha Hwb Hhb).
  destruct (colliderect a b); split; intro H; congruence.
Qed.

Ltac rect_simpl :=
  unfold set_bottom, set_top, set_left, set_right, set_x, set_y, top, bottom,
    left, right in *;
  cbn [x y width height] in *.

(** Use the four-inequality reading of [colliderect] everywhere. *)
Ltac overlap_facts :=
  repeat match goal with
  | H : grid_tile _ = true |- _ => apply grid_tile_spec in H
  | H : colliderect _ _ = true |- _ =>
      apply colliderect_pos in H; [|rect_simpl; lia ..]
  | H : colliderect _ _ = false |- _ =>
      apply colliderect_pos_false in H; [|rect_simpl; lia ..]
  end.

Ltac overlap_goal :=
  match goal with
  | |- colliderect _ _ = false =>
      apply colliderect_pos_false; [rect_simpl; lia ..|]
  end.

(** The geometry behind the snaps.  [r0] is the box before the move, it
    overlaps neither [t] nor [t']; the moved box overlaps [t]; the snapped
    box does not overlap [t']. *)
Section SnapGeometry.

Variables r0 t t' : Rect.
Hypothesis Hw : 0 < width r0.
Hypothesis Hh : 0 < height r0.
Hypothesis Ht : grid_tile t = true.
Hypothesis Ht' : grid_tile t' = true.
Hypothesis Hfree : colliderect r0 t = false.
Hypothesis Hfree' : colliderect r0 t' = false.

Local Ltac snap :=
  destruct r0 as [x0 y0 w0 h0], t as [tx ty tw th], t' as [ux uy uw uh];
  rect_simpl; overlap_facts; overlap_goal; rect_simpl;
  destruct Ht as (-> & -> & Htx & Hty), Ht' as (-> & -> & Hux & Huy);
  apply Z.mod_divide in Htx, Hty, Hux, Huy; try lia;
  destruct Htx as [a ->], Hty as [b ->], Hux as [c ->], Huy as [d ->];
  lia.

Lemma snap_bottom_free (y1 : Z) :
  y r0 <= y1 <= y r0 + 32 ->
  colliderect (set_y r0 y1) t = true ->
  colliderect (set_bottom (set_y r0 y1) (top t)) t' = false.
Proof using All. intros Hy Hc. snap. Qed.

Lemma snap_top_free (y1 : Z) :
  y r0 - 32 <= y1 <= y r0 ->
  colliderect (set_y r0 y1) t = true ->
  colliderect (set_top (set_y r0 y1) (bottom t)) t' = false.
Proof using All. intros Hy Hc. snap. Qed.

Lemma snap_right_free (x1 : Z) :
  x r0 <= x1 <= x r0 + 32 ->
  colliderect (set_x r0 x1) t = true ->
  colliderect (set_right (set_x r0 x1) (left t)) t' = false.
Proof using All. intros Hx Hc. snap. Qed.

Lemma snap_left_free (x1 : Z) :
  x r0 - 32 <= x1 <= x r0 ->
  colliderect (set_x r0 x1) t = true ->
  colliderect (set_left (set_x r0 x1) (right t)) t' = false.
Proof using All. intros Hx Hc. snap. Qed.

End SnapGeometry.

Lemma overlaps_none_spec (r : Rect) (tl : list Rect) :
  overlaps_none r tl = true <-> forall t, In t tl -> colliderect r t = false.
Proof.
  unfold overlaps_none. rewrite forallb_forall.
  split; intros H t Ht; specialize (H t Ht).
  - apply negb_true_iff. exact H.
  - apply negb_true_iff. exact H.
Qed.

Section SweepsKeepFree.

Import KoopaHDR1_07.

Lemma check_collisions_y_idle (tl : list Rect) :
  forall e : Entity,
    Qgtb (vy (vel e)) 0 = false -> Qltb (vy (vel e)) 0 = false ->
    fold_left check_collisions_y_step tl e = e.
Proof.
  induction tl as [|tile tl IH]; intros e G L; simpl; [reflexivity|].
  assert (S1 : check_collisions_y_step e tile = e).
  { unfold check_collisions_y_step. rewrite G, L.
    destruct (colliderect (rect e) tile); reflexivity. }
  rewrite S1. apply IH; assumption.
Qed.

(** As for the horizontal check, the first colliding tile decides. *)
Lemma check_collisions_y_first (tl : list Rect) (e : Entity) :
  check_collisions_y tl e
  = match find (fun tile => colliderect (rect e) tile) tl with
    | Some tile => check_collisions_y_step (set_on_ground e false) tile
    | None => set_on_ground e false
    end.
Proof.
  unfold check_collisions_y.
  change (rect e) with (rect (set_on_ground e false)).
  generalize (set_on_ground e false). clear e. intro e.
  induction tl as [|tile tl IH]; simpl; [reflexivity|].
  destruct (colliderect (rect e) tile) eqn:C.
  - apply check_collisions_y_idle;
      unfold check_collisions_y_step; rewrite C;
      destruct (Qgtb (vy (vel e)) 0) eqn:G; try reflexivity;
      destruct (Qltb (vy (vel e)) 0) eqn:L; try reflexivity; assumption.
  - replace (check_collisions_y_step e tile) with e; [exact IH|].
    unfold check_collisions_y_step. rewrite C. reflexivity.
Qed.

Variable tl : list Rect.
Hypothesis Hgrid : forallb grid_tile tl = true.

Lemma grid_in (t : Rect) : In t tl -> grid_tile t = true.
Proof using Hgrid. intro H. rewrite forallb_forall in Hgrid. auto. Qed.

(** A body that overlaps nothing and falls or rises by at most one tile
    overlaps nothing after the vertical sweep. *)
Lemma vertical_sweep_free (e : Entity) :
  0 < width (rect e) -> 0 < height (rect e) ->
  overlaps_none (rect e) tl = true ->
  (inject_Z (-32) <= vy (vel e))%Q -> (vy (vel e) <= inject_Z 32)%Q ->
  overlaps_none (rect (vertical_sweep tl e)) tl = true.
Proof using Hgrid.
  intros Hw Hh Hfree Hlo Hhi.
  rewrite overlaps_none_spec in Hfree.
  unfold vertical_sweep. rewrite check_collisions_y_first.
  cbn [rect set_rect].
  set (y1 := round_coord (inject_Z (y (rect e)) + vy (vel e))).
  change (add_y (rect e) (vy (vel e))) with (set_y (rect e) y1).
  destruct (find (fun tile => colliderect (set_y (rect e) y1) tile) tl)
    as [t|] eqn:F.
  - apply find_some in F. destruct F as [Hin Hc].
    unfold check_collisions_y_step. cbn [rect set_rect set_on_ground vel].
    rewrite Hc.
    destruct (Qcmp_cases (vy (vel e))) as [(G & Hq)|[(G & L & Hq)|(G & L & Hq)]];
      rewrite G; try rewrite L; cbn [rect set_rect set_on_ground set_vel];
      apply overlaps_none_spec; intros t' Hin'.
    + assert (Hy : y (rect e) + 0 <= y1 <= y (rect e) + 32).
      { apply round_coord_between; [apply Qlt_le_weak; exact Hq|assumption]. }
      apply snap_bottom_free; auto using grid_in. lia.
    + assert (Hy : y (rect e) + -32 <= y1 <= y (rect e) + 0).
      { apply round_coord_between; [assumption|apply Qlt_le_weak; exact Hq]. }
      apply snap_top_free; auto using grid_in. lia.
    + assert (Hy : y (rect e) + 0 <= y1 <= y (rect e) + 0).
      { apply round_coord_between; rewrite Hq; apply Qle_refl. }
      assert (E : set_y (rect e) y1 = rect e).
      { destruct (rect e). unfold set_y. cbn in *. f_equal. lia. }
      rewrite E in Hc. rewrite (Hfree t Hin) in Hc. discriminate.
  - cbn [rect set_on_ground]. apply overlaps_none_spec. intros t Hin.
    exact (find_none _ _ F t Hin).
Qed.

(** The same for the horizontal check, for a displacement [d] that goes
    the way of the velocity. *)
Lemma horizontal_check_free (e : Entity) (d : Q) :
  0 < width (rect e) -> 0 < height (rect e) ->
  overlaps_none (rect e) tl = true ->
  (inject_Z (-32) <= d)%Q -> (d <= inject_Z 32)%Q ->
  (Qgtb (vx (vel e)) 0 = true -> (0 <= d)%Q) ->
  (Qltb (vx (vel e)) 0 = true -> (d <= 0)%Q) ->
  (Qgtb (vx (vel e)) 0 = false -> Qltb (vx (vel e)) 0 = false -> (d == 0)%Q) ->
  overlaps_none
    (rect (check_collisions_x tl (set_rect e (add_x (rect e) d)))) tl = true.
Proof using Hgrid.
  intros Hw Hh Hfree Hlo Hhi Hpos Hneg Hzero.
  rewrite overlaps_none_spec in Hfree.
  rewrite check_collisions_x_first.
  cbn [rect set_rect].
  set (x1 := round_coord (inject_Z (x (rect e)) + d)).
  change (add_x (rect e) d) with (set_x (rect e) x1).
  destruct (find (fun tile => colliderect (set_x (rect e) x1) tile) tl)
    as [t|] eqn:F.
  - apply find_some in F. destruct F as [Hin Hc].
    unfold check_collisions_x_step. cbn [rect set_rect vel].
    rewrite Hc.
    destruct (Qgtb (vx (vel e)) 0) eqn:G; [|destruct (Qltb (vx (vel e)) 0) eqn:L];
      cbn [rect set_rect set_vel];
      apply overlaps_none_spec; intros t' Hin'.
    + assert (Hx : x (rect e) + 0 <= x1 <= x (rect e) + 32).
      { apply round_coord_between; auto. }
      apply snap_right_free; auto using grid_in. lia.
    + assert (Hx : x (rect e) + -32 <= x1 <= x (rect e) + 0).
      { apply round_coord_between; auto. }
      apply snap_left_free; auto using grid_in. lia.
    + assert (Hx : x (rect e) + 0 <= x1 <= x (rect e) + 0).
      { apply round_coord_between; rewrite (Hzero eq_refl eq_refl); apply Qle_refl. }
      assert (E : set_x (rect e) x1 = rect e).
      { destruct (rect e). unfold set_x. cbn in *. f_equal. lia. }
      rewrite E in Hc. rewrite (Hfree t Hin) in Hc. discriminate.
  - cbn [rect]. apply overlaps_none_spec. intros t Hin.
    exact (find_none _ _ F t Hin).
Qed.

End SweepsKeepFree.

(** [load_tiles] only makes lattice tiles. *)
Section LoadTilesGrid.

Import KoopaHDR1_07.

Lemma load_cell_grid (cy : Z) acc cell :
  grid_acc acc -> grid_acc (load_cell TILE_SIZE cy acc cell).
Proof.
  destruct acc as [[tl cl] kl], cell as [cx c]. unfold grid_acc, load_cell.
  intro H. simpl in H.
  destruct (Ascii.eqb c chr_hash); [|destruct (Ascii.eqb c chr_C);
    [|destruct (Ascii.eqb c chr_K)]]; simpl; try assumption.
  apply Forall_app. split; [assumption|].
  constructor; [|constructor].
  apply grid_tile_spec. unfold TILE_SIZE. simpl.
  rewrite !Z.mod_mul by lia. repeat split.
Qed.

Lemma load_row_grid acc r :
  grid_acc acc -> grid_acc (load_row TILE_SIZE acc r).
Proof.
  unfold load_row. generalize (enumerate_string 0 (snd r)). intro cells.
  revert acc. induction cells as [|c cells IH]; intros acc H; simpl; [assumption|].
  apply IH. apply load_cell_grid. assumption.
Qed.

Lemma load_tiles_grid (d : list string) (tm : TileMap) :
  TileMap_init d = Ok tm ->
  forallb grid_tile (tiles (load_tiles tm)) = true.
Proof.
  intro Hinit. destruct d as [|row0 d']; [discriminate|].
  injection Hinit as <-.
  unfold load_tiles. cbn [tile_size data].
  assert (H : forall rows acc, grid_acc acc ->
              grid_acc (fold_left (load_row TILE_SIZE) rows acc)).
  { induction rows as [|r rows IH]; intros acc Ha; simpl; [assumption|].
    apply IH. apply load_row_grid. assumption. }
  specialize (H (enumerate 0 (row0 :: d')) ([], [], []) (Forall_nil _)).
  destruct (fold_left (load_row TILE_SIZE) (enumerate 0 (row0 :: d')) ([], [], []))
    as [[tl cl] kl].
  cbn [tiles]. unfold grid_acc in H. simpl in H.
  apply forallb_forall. rewrite Forall_forall in H. exact H.
Qed.

End LoadTilesGrid.

Section PlayerHorizontalFree.

Import KoopaHDR1_07.

(** The displacement of [Player_horizontal_sweep]. *)
Lemma Player_horizontal_sweep_free (tl : list Rect) (p : Player) :
  forallb grid_tile tl = true ->
  0 < width (p_rect p) -> 0 < height (p_rect p) ->
  overlaps_none (p_rect p) tl = true ->
  0 <= dash_speed p ->
  (inject_Z (-32) <= p_vx p + inject_Z (dash_speed p * sign3 (p_vx p)))%Q ->
  (p_vx p + inject_Z (dash_speed p * sign3 (p_vx p)) <= inject_Z 32)%Q ->
  overlaps_none (p_rect (Player_horizontal_sweep tl p)) tl = true.
Proof.
  intros Hgrid Hw Hh Hfree Hdash Hlo Hhi.
  unfold Player_horizontal_sweep, p_rect at 1. cbn [p_ent p_set_ent].
  apply horizontal_check_free; try assumption.
  - intro G. unfold sign3. unfold p_vx in G. fold (p_vx p) in G. rewrite G.
    apply Qgtb_true in G. rewrite Z.mul_1_r.
    change 0%Q with (0 + 0)%Q. apply Qplus_le_compat.
    + apply Qlt_le_weak. exact G.
    + unfold Qle. simpl. lia.
  - intro L. unfold sign3.
    destruct (Qgtb (p_vx p) 0) eqn:G.
    + apply Qgtb_true in G. apply Qltb_true in L.
      exfalso. exact (Qlt_irrefl _ (Qlt_trans _ _ _ G L)).
    + unfold p_vx in L. fold (p_vx p) in L. rewrite L.
      apply Qltb_true in L.
      change 0%Q with (0 + 0)%Q. apply Qplus_le_compat.
      * apply Qlt_le_weak. exact L.
      * unfold Qle. simpl. lia.
  - intros G L. unfold sign3. unfold p_vx in G, L. fold (p_vx p) in G, L.
    rewrite G, L. rewrite Z.mul_0_r.
    destruct (Qcmp_cases (p_vx p)) as [(G' & _)|[(_ & L' & _)|(_ & _ & Hq)]];
      try congruence.
    rewrite Hq. reflexivity.
Qed.

End PlayerHorizontalFree.

(** The vertical sweeps of [koopahdr.py], through the specification's
    sweep. *)
Lemma old_player_vertical_free (tm : Koopahdr.TileMap) (p : Koopahdr.Player) :
  forallb grid_tile (Koopahdr.tiles tm) = true ->
  0 < width (Koopahdr.p_rect p) -> 0 < height (Koopahdr.p_rect p) ->
  overlaps_none (Koopahdr.p_rect p) (Koopahdr.tiles tm) = true ->
  (inject_Z (-32) <= Koopahdr.p_vy p)%Q -> (Koopahdr.p_vy p <= inject_Z 32)%Q ->
  overlaps_none (Koopahdr.p_rect (Koopahdr.Player_vertical_sweep tm p))
                (Koopahdr.tiles tm) = true.
Proof.
  intros Hgrid Hw Hh Hfree Hlo Hhi.
  destruct (player_vertical_sweep_agrees tm p) as (Hr & _).
  rewrite Hr.
  change (body_of_player p)
    with (body_of_entity (KoopaHDR1_07.mkEntity (Koopahdr.p_rect p)
                            (Koopahdr.p_vel p) (Koopahdr.on_ground p))).
  rewrite <- vertical_sweep_refines.
  apply (vertical_sweep_free _ Hgrid); assumption.
Qed.

Lemma old_koopa_vertical_free (tm : Koopahdr.TileMap) (k : Koopahdr.Koopa) :
  forallb grid_tile (Koopahdr.tiles tm) = true ->
  0 < width (Koopahdr.k_rect k) -> 0 < height (Koopahdr.k_rect k) ->
  overlaps_none (Koopahdr.k_rect k) (Koopahdr.tiles tm) = true ->
  (0 <= Koopahdr.k_vy k)%Q -> (Koopahdr.k_vy k <= inject_Z 32)%Q ->
  overlaps_none (Koopahdr.k_rect (Koopahdr.Koopa_vertical_sweep tm k))
                (Koopahdr.tiles tm) = true.
Proof.
  intros Hgrid Hw Hh Hfree Hlo Hhi.
  assert (Hnr : Qltb (Koopahdr.k_vy k) 0 = false).
  { destruct (Qltb (Koopahdr.k_vy k) 0) eqn:L; [|reflexivity].
    apply Qltb_true in L. exfalso. exact (Qlt_not_le _ _ L Hlo). }
  pose proof (old_koopa_vertical_sweep_cases tm k false) as H.
  rewrite Hnr in H. destruct H as (Hr & _).
  rewrite Hr.
  change (body_of_koopa k false)
    with (body_of_entity (KoopaHDR1_07.mkEntity (Koopahdr.k_rect k)
                            (Koopahdr.k_vel k) false)).
  rewrite <- vertical_sweep_refines.
  apply (vertical_sweep_free _ Hgrid); try assumption.
  apply Qle_trans with (y := 0%Q); [|assumption].
  unfold Qle. simpl. lia.
Qed.

(** C2 (as amended).  Let the solids be lattice tiles as [load_tiles] makes
    them and let the body's box, of positive size, overlap none of them
    before a sweep.  In [KoopaHDR1.07.31.251.0X.py] the box overlaps none
    of them after the vertical sweep when velocity.y is within one tile
    (32) in absolute value, and the player's box overlaps none of them
    after the horizontal sweep when the displacement is within one tile
    and the dash speed is not negative.  In [koopahdr.py] the same holds
    for the vertical sweep of the player and, when it is not rising, of the
    enemy.  A body that already overlaps a solid is not covered. *)
Theorem C2_sweeps_keep_free :
  (forall (tl : list Rect) (e : KoopaHDR1_07.Entity),
      forallb grid_tile tl = true ->
      0 < width (KoopaHDR1_07.rect e) -> 0 < height (KoopaHDR1_07.rect e) ->
      overlaps_none (KoopaHDR1_07.rect e) tl = true ->
      (inject_Z (-32) <= vy (KoopaHDR1_07.vel e))%Q ->
      (vy (KoopaHDR1_07.vel e) <= inject_Z 32)%Q ->
      overlaps_none (KoopaHDR1_07.rect (KoopaHDR1_07.vertical_sweep tl e)) tl = true)
  /\ (forall (tl : list Rect) (p : KoopaHDR1_07.Player),
         forallb grid_tile tl = true ->
         0 < width (KoopaHDR1_07.p_rect p) -> 0 < height (KoopaHDR1_07.p_rect p) ->
         overlaps_none (KoopaHDR1_07.p_rect p) tl = true ->
         0 <= KoopaHDR1_07.dash_speed p ->
         (inject_Z (-32) <= KoopaHDR1_07.p_vx p
            + inject_Z (KoopaHDR1_07.dash_speed p
                        * KoopaHDR1_07.sign3 (KoopaHDR1_07.p_vx p)))%Q ->
         (KoopaHDR1_07.p_vx p
            + inject_Z (KoopaHDR1_07.dash_speed p
                        * KoopaHDR1_07.sign3 (KoopaHDR1_07.p_vx p))
          <= inject_Z 32)%Q ->
         overlaps_none
           (KoopaHDR1_07.p_rect (KoopaHDR1_07.Player_horizontal_sweep tl p)) tl
         = true)
  /\ (forall (tm : Koopahdr.TileMap) (p : Koopahdr.Player),
         forallb grid_tile (Koopahdr.tiles tm) = true ->
         0 < width (Koopahdr.p_rect p) -> 0 < height (Koopahdr.p_rect p) ->
         overlaps_none (Koopahdr.p_rect p) (Koopahdr.tiles tm) = true ->
         (inject_Z (-32) <= Koopahdr.p_vy p)%Q ->
         (Koopahdr.p_vy p <= inject_Z 32)%Q ->
         overlaps_none (Koopahdr.p_rect (Koopahdr.Player_vertical_sweep tm p))
                       (Koopahdr.tiles tm) = true)
  /\ (forall (tm : Koopahdr.TileMap) (k : Koopahdr.Koopa),
         forallb grid_tile (Koopahdr.tiles tm) = true ->
         0 < width (Koopahdr.k_rect k) -> 0 < height (Koopahdr.k_rect k) ->
         overlaps_none (Koopahdr.k_rect k) (Koopahdr.tiles tm) = true ->
         (0 <= Koopahdr.k_vy k)%Q -> (Koopahdr.k_vy k <= inject_Z 32)%Q ->
         overlaps_none (Koopahdr.k_rect (Koopahdr.Koopa_vertical_sweep tm k))
                       (Koopahdr.tiles tm) = true).
Proof.
  repeat apply conj.
  - intros tl e Hgrid. apply (vertical_sweep_free tl Hgrid).
  - exact Player_horizontal_sweep_free.
  - exact old_player_vertical_free.
  - exact old_koopa_vertical_free.
Qed.

(** The first level of the game: the player one pixel above the floor and
    falling at terminal speed lands on it; dashing right next to nothing it
    stays free. *)
Lemma C2_sweeps_keep_free_witness :
  let tl := KoopaHDR1_07.tiles (hdr_tile_map_of KoopaHDR1_07.LEVEL_1_1) in
  let e := KoopaHDR1_07.mkEntity (mkRect 100 191 32 32) (mkVec 0 (inject_Z 10)) false in
  let p := KoopaHDR1_07.mkPlayer
             (KoopaHDR1_07.mkEntity (mkRect 100 200 32 24) (mkVec (72 # 10) 0) true)
             true 100 12 in
  overlaps_none (KoopaHDR1_07.rect (KoopaHDR1_07.vertical_sweep tl e)) tl = true
  /\ bottom (KoopaHDR1_07.rect (KoopaHDR1_07.vertical_sweep tl e)) = 224
  /\ overlaps_none
       (KoopaHDR1_07.p_rect (KoopaHDR1_07.Player_horizontal_sweep tl p)) tl = true.
Proof.
  intros tl e p.
  split; [|split].
  - apply (proj1 C2_sweeps_keep_free tl e); try reflexivity;
      unfold Qle; simpl; lia.
  - reflexivity.
  - apply (proj1 (proj2 C2_sweeps_keep_free) tl p); try reflexivity;
      try (unfold Qle; simpl; lia); simpl; lia.
Defined.

(** C2 fails as stated.  In [KoopaHDR1.07.31.251.0X.py], a player that
    [load_level] puts at [(100, 100)] inside a block of solids has no
    horizontal velocity: the horizontal sweep leaves it where it is, and
    the vertical sweep lifts it onto the lower tiles, into the upper ones.
    In [koopahdr.py] the same happens in the placeholder worlds. *)
Lemma C2_counterexample :
  let tm := hdr_tile_map_of blocked_spawn_level in
  let p0 := KoopaHDR1_07.Player_init 100 100 in
  let p1 := KoopaHDR1_07.Player_update tm hdr_no_keys p0 in
  let tm' := tile_map_of placeholder_level in
  let q0 := Koopahdr.Player_init 200 64 in
  let q1 := Koopahdr.Player_update tm' old_no_keys q0 in
  KoopaHDR1_07.tiles tm
  = [mkRect 96 64 32 32; mkRect 128 64 32 32; mkRect 96 96 32 32; mkRect 128 96 32 32]
  /\ overlaps_none
       (KoopaHDR1_07.p_rect
          (KoopaHDR1_07.Player_horizontal_sweep (KoopaHDR1_07.tiles tm) p0))
       (KoopaHDR1_07.tiles tm) = false
  /\ KoopaHDR1_07.p_rect p1 = mkRect 100 64 32 32
  /\ colliderect (KoopaHDR1_07.p_rect p1) (mkRect 96 64 32 32) = true
  /\ overlaps_none (KoopaHDR1_07.p_rect p1) (KoopaHDR1_07.tiles tm) = false
  /\ Koopahdr.p_rect q1 = mkRect 200 32 32 32
  /\ In (mkRect 192 32 32 32) (Koopahdr.tiles tm')
  /\ colliderect (Koopahdr.p_rect q1) (mkRect 192 32 32 32) = true
  /\ overlaps_none (Koopahdr.p_rect q1) (Koopahdr.tiles tm') = false.
Proof.
  vm_compute. repeat split.
  do 86 right. left. reflexivity.
Qed.

(** ** C4: the stomp *)

Lemma stomp_test_true (p : KoopaHDR1_07.Player) (k : KoopaHDR1_07.Koopa) :
  KoopaHDR1_07.stomp_test p k = true <->
  (0 < KoopaHDR1_07.p_vy p)%Q
  /\ bottom (KoopaHDR1_07.p_rect p) < centery (KoopaHDR1_07.k_rect k).
Proof.
  unfold KoopaHDR1_07.stomp_test.
  rewrite andb_true_iff, Qgtb_true, Z.ltb_lt. tauto.
Qed.

(** With boxes of positive size, the stomp-from-above test of the
    specification implies the feet test of [koopahdr.py]. *)
Lemma feet_test_of_stomp_test (p : Koopahdr.Player) (k : Koopahdr.Koopa) :
  0 < width (Koopahdr.p_rect p) -> 0 < height (Koopahdr.p_rect p) ->
  0 < width (Koopahdr.k_rect k) -> 0 < height (Koopahdr.k_rect k) ->
  colliderect (Koopahdr.p_rect p) (Koopahdr.k_rect k) = true ->
  bottom (Koopahdr.p_rect p) < centery (Koopahdr.k_rect k) ->
  colliderect (Koopahdr.k_rect k) (Koopahdr.player_feet p) = true.
Proof.
  intros Hpw Hph Hkw Hkh Hc Hb.
  apply colliderect_pos in Hc; try assumption.
  apply colliderect_pos; try assumption;
    unfold Koopahdr.player_feet; cbn [x y width height]; try lia.
  unfold bottom, centery in *.
  assert (Hq : height (Koopahdr.k_rect k) / 2 <= height (Koopahdr.k_rect k)).
  { apply Z.div_le_upper_bound; lia. }
  lia.
Qed.

(** C4 (as amended).  The encounter loop judges each enemy against the
    player as the loop has left it so far.  In
    [KoopaHDR1.07.31.251.0X.py], when the loop reaches an enemy that
    collided with the player and the player then moves down with its bottom
    edge above the enemy's centre, the enemy enters its shell (timer 180,
    velocity.x zero), the player's velocity.y becomes JUMP_STRENGTH times
    0.7, which is negative, the score grows by 100 and the loop goes on with
    the remaining enemies.  In [koopahdr.py], under the same conditions on
    boxes of positive size, the enemy is removed from the game instead, the
    player's velocity.y becomes JUMP_STRENGTH times 0.8 and the score grows
    by 100. *)
Theorem C4_stomp :
  (forall (pr0 : Rect) (k : KoopaHDR1_07.Koopa) (ks : list KoopaHDR1_07.Koopa)
          (s : KoopaHDR1_07.Enc),
      colliderect pr0 (KoopaHDR1_07.k_rect k) = true ->
      (0 < KoopaHDR1_07.p_vy (KoopaHDR1_07.e_player s))%Q ->
      bottom (KoopaHDR1_07.p_rect (KoopaHDR1_07.e_player s))
        < centery (KoopaHDR1_07.k_rect k) ->
      let bounce := (inject_Z KoopaHDR1_07.JUMP_STRENGTH * (7 # 10))%Q in
      let s1 := KoopaHDR1_07.mkEnc
                  (KoopaHDR1_07.p_set_vy (KoopaHDR1_07.e_player s) bounce)
                  (KoopaHDR1_07.e_score s + 100) (KoopaHDR1_07.e_lives s) in
      KoopaHDR1_07.enemy_loop pr0 (k :: ks) s
      = (let '(ks2, s2, stop2) := KoopaHDR1_07.enemy_loop pr0 ks s1 in
         (KoopaHDR1_07.stomp k :: ks2, s2, stop2))
      /\ KoopaHDR1_07.shell (KoopaHDR1_07.stomp k) = true
      /\ KoopaHDR1_07.k_shell_timer (KoopaHDR1_07.stomp k) = 180
      /\ KoopaHDR1_07.k_vx (KoopaHDR1_07.stomp k) = 0%Q
      /\ KoopaHDR1_07.p_vy (KoopaHDR1_07.e_player s1) = bounce
      /\ (bounce == -84 # 10)%Q /\ (bounce < 0)%Q
      /\ KoopaHDR1_07.e_score s1 - KoopaHDR1_07.e_score s = 100)
  /\ (forall (sp : Koopahdr.Sprite) (l : list Koopahdr.Sprite) (s : Koopahdr.Enc),
         let p := Koopahdr.e_player s in
         let k := Koopahdr.obj sp in
         Koopahdr.in_enemies sp = true ->
         0 < width (Koopahdr.p_rect p) -> 0 < height (Koopahdr.p_rect p) ->
         0 < width (Koopahdr.k_rect k) -> 0 < height (Koopahdr.k_rect k) ->
         colliderect (Koopahdr.p_rect p) (Koopahdr.k_rect k) = true ->
         (0 < Koopahdr.p_vy p)%Q ->
         bottom (Koopahdr.p_rect p) < centery (Koopahdr.k_rect k) ->
         let bounce := (inject_Z Koopahdr.JUMP_STRENGTH * (8 # 10))%Q in
         let s1 := Koopahdr.mkEnc
                     (Koopahdr.p_set_vel p (set_vy (Koopahdr.p_vel p) bounce))
                     (Koopahdr.e_score s + 100) (Koopahdr.e_lives s) in
         Koopahdr.enemy_loop (Koopahdr.player_feet p) (sp :: l) s
         = Koopahdr.enemy_loop (Koopahdr.player_feet p) l s1
         /\ (bounce == -8 # 1)%Q /\ (bounce < 0)%Q
         /\ Koopahdr.e_score s1 - Koopahdr.e_score s = 100).
Proof.
  split.
  - intros pr0 k ks s Hc Hv Hb bounce s1.
    assert (Ht : KoopaHDR1_07.stomp_test (KoopaHDR1_07.e_player s) k = true)
      by (apply stomp_test_true; split; assumption).
    repeat split; try reflexivity.
    + cbn [KoopaHDR1_07.enemy_loop]. rewrite Hc.
      unfold KoopaHDR1_07.encounter. rewrite Ht. reflexivity.
    + cbn [KoopaHDR1_07.e_score s1]. lia.
  - intros sp l s p k Hin Hpw Hph Hkw Hkh Hc Hv Hb bounce s1.
    repeat split; try reflexivity.
    + cbn [Koopahdr.enemy_loop]. rewrite Hin.
      unfold Koopahdr.encounter. fold k. fold p.
      rewrite (feet_test_of_stomp_test p k) by assumption.
      apply Qgtb_true in Hv. rewrite Hv. reflexivity.
    + cbn [Koopahdr.e_score s1]. lia.
Qed.

Lemma C4_stomp_witness :
  let s := KoopaHDR1_07.mkEnc stomping_player 0 3 in
  fst (fst (KoopaHDR1_07.enemy_loop (mkRect 100 160 32 32) [koopa_at 100 180] s))
  = [KoopaHDR1_07.stomp (koopa_at 100 180)]
  /\ KoopaHDR1_07.e_score
       (snd (fst (KoopaHDR1_07.enemy_loop (mkRect 100 160 32 32) [koopa_at 100 180] s)))
     = 100
  /\ fst (fst (Koopahdr.enemy_loop (Koopahdr.player_feet old_stomping_player)
                 [Koopahdr.mkSprite (old_koopa_at 100 180) true true]
                 (Koopahdr.mkEnc old_stomping_player 0 3)))
     = [].
Proof.
  intro s.
  destruct (proj1 C4_stomp (mkRect 100 160 32 32) (koopa_at 100 180) [] s)
    as (H & _); [reflexivity|reflexivity|reflexivity|].
  destruct (proj2 C4_stomp (Koopahdr.mkSprite (old_koopa_at 100 180) true true) []
              (Koopahdr.mkEnc old_stomping_player 0 3))
    as (H' & _); try reflexivity.
  cbn [Koopahdr.e_player] in H'.
  rewrite H, H'. repeat split.
Defined.

(** C4 fails as stated.  In [KoopaHDR1.07.31.251.0X.py] the player of the
    stomp scenario overlaps two enemies, both under its feet: the first is
    stomped, the second meets a player that already bounces, is not put in
    its shell, and costs a life.  In [koopahdr.py] the stomped enemy does
    not become a shell: it leaves the game. *)
Lemma C4_counterexample :
  let k1 := koopa_at 84 180 in
  let k2 := koopa_at 116 180 in
  let s := KoopaHDR1_07.mkEnc stomping_player 0 3 in
  let pr0 := KoopaHDR1_07.p_rect stomping_player in
  let r := KoopaHDR1_07.enemy_loop pr0 [k1; k2] s in
  colliderect pr0 (KoopaHDR1_07.k_rect k2) = true
  /\ KoopaHDR1_07.stomp_test stomping_player k2 = true
  /\ fst (fst r) = [KoopaHDR1_07.stomp k1; k2]
  /\ KoopaHDR1_07.shell k2 = false
  /\ KoopaHDR1_07.e_score (snd (fst r)) = 100
  /\ KoopaHDR1_07.e_lives (snd (fst r)) = 2
  /\ Koopahdr.enemy_loop (Koopahdr.player_feet old_stomping_player)
       [Koopahdr.mkSprite (old_koopa_at 100 180) true true]
       (Koopahdr.mkEnc old_stomping_player 0 3)
     = ([],
        Koopahdr.mkEnc
          (Koopahdr.mkPlayer (mkRect 100 160 32 32)
             (mkVec 0 (inject_Z (-10) * (8 # 10))) false false false 0)
          100 3,
        false).
Proof. vm_compute. repeat split. Qed.

(** ** C5: level completion *)

(** C5, on the code.  A [GameManager] has no attribute [current_level]:
    [__init__] leaves it unset and [update] keeps it unset.  The
    level-complete branch is entered exactly when the player's x exceeds
    the level's pixel width minus 100, and its first statement,
    [self.current_level += 1], then raises [AttributeError]: no level is
    loaded and the game is not won.  At [x = 2461] in the first level
    [update] raises; at [x = 2459] it returns [True]. *)
Theorem C5_level_complete_raises :
  (forall g p cs ks tm sc lv acw,
      let gm := KoopaHDR1_07.mkGameManager p cs ks tm sc lv None acw in
      KoopaHDR1_07.level_complete g gm
      = (g, gm,
         if x (KoopaHDR1_07.p_rect p) >? KoopaHDR1_07.tm_width tm * TILE_SIZE - 100
         then Raised AttributeError else Continue))
  /\ (forall g p cs ks tm sc lv acw keys,
         KoopaHDR1_07.attr_current_level
           (snd (fst (KoopaHDR1_07.update g
                        (KoopaHDR1_07.mkGameManager p cs ks tm sc lv None acw) keys)))
         = None)
  /\ KoopaHDR1_07.attr_current_level (snd (at_goal 2461)) = None
  /\ KoopaHDR1_07.tm_width (KoopaHDR1_07.tile_map (snd (at_goal 2461))) = 80
  /\ snd (KoopaHDR1_07.update (fst (at_goal 2461)) (snd (at_goal 2461)) hdr_no_keys)
     = Raised AttributeError
  /\ KoopaHDR1_07.current_level
       (fst (fst (KoopaHDR1_07.update (fst (at_goal 2461)) (snd (at_goal 2461))
                    hdr_no_keys)))
     = 0
  /\ snd (KoopaHDR1_07.update (fst (at_goal 2459)) (snd (at_goal 2459)) hdr_no_keys)
     = Continue.
Proof.
  split; [|split].
  - intros. subst gm. unfold KoopaHDR1_07.level_complete.
    cbn [KoopaHDR1_07.player KoopaHDR1_07.tile_map KoopaHDR1_07.attr_current_level].
    destruct (x (KoopaHDR1_07.p_rect p) >? KoopaHDR1_07.tm_width tm * TILE_SIZE - 100);
      reflexivity.
  - intros. unfold KoopaHDR1_07.update.
    cbn [KoopaHDR1_07.player KoopaHDR1_07.tile_map KoopaHDR1_07.coins
         KoopaHDR1_07.koopas KoopaHDR1_07.score KoopaHDR1_07.lives
         KoopaHDR1_07.attr_current_level KoopaHDR1_07.attr_current_world].
    destruct (KoopaHDR1_07.collect_coins _ _ _) as [cs2 sc2].
    destruct (KoopaHDR1_07.enemy_loop _ _ _) as [[ks3 s3] stop].
    destruct stop; [reflexivity|].
    unfold KoopaHDR1_07.level_complete.
    cbn [KoopaHDR1_07.player KoopaHDR1_07.tile_map KoopaHDR1_07.attr_current_level].
    destruct (_ >? _); reflexivity.
  - vm_compute. repeat split.
Qed.

(** ** C6: patrolling *)

Lemma round_coord_inject_Z (a b : Z) :
  round_coord (inject_Z a + inject_Z b) = a + b.
Proof.
  pose proof (round_coord_between a b b (inject_Z b) (Qle_refl _) (Qle_refl _)).
  lia.
Qed.

Lemma hdr_wall_loop_miss (tl : list Rect) (k : KoopaHDR1_07.Koopa) :
  snd (KoopaHDR1_07.Koopa_wall_loop tl k) = false ->
  fst (KoopaHDR1_07.Koopa_wall_loop tl k) = k.
Proof.
  induction tl as [|tile tl IH]; simpl; [reflexivity|].
  destruct (colliderect (KoopaHDR1_07.k_rect k) tile); [discriminate|exact IH].
Qed.

Lemma hdr_wall_loop_direction (tl : list Rect) (k : KoopaHDR1_07.Koopa) :
  KoopaHDR1_07.direction (fst (KoopaHDR1_07.Koopa_wall_loop tl k))
  = KoopaHDR1_07.direction k.
Proof.
  induction tl as [|tile tl IH]; simpl; [reflexivity|].
  destruct (colliderect (KoopaHDR1_07.k_rect k) tile); [|exact IH].
  simpl. destruct (Qgtb (KoopaHDR1_07.k_vx k) 0); reflexivity.
Qed.

Lemma old_wall_loop_miss (tl : list Rect) (k : Koopahdr.Koopa) :
  snd (Koopahdr.Koopa_wall_loop tl k) = false ->
  fst (Koopahdr.Koopa_wall_loop tl k) = k.
Proof.
  induction tl as [|tile tl IH]; simpl; [reflexivity|].
  destruct (colliderect (Koopahdr.k_rect k) tile); [discriminate|exact IH].
Qed.

Lemma old_wall_loop_hit (tl : list Rect) (k : Koopahdr.Koopa) :
  snd (Koopahdr.Koopa_wall_loop tl k) = true ->
  Koopahdr.direction (fst (Koopahdr.Koopa_wall_loop tl k))
  = Koopahdr.direction k * -1.
Proof.
  induction tl as [|tile tl IH]; simpl; [discriminate|].
  destruct (colliderect (Koopahdr.k_rect k) tile); [|exact IH].
  intros _. simpl. destruct (Koopahdr.direction k =? 1); reflexivity.
Qed.

Lemma old_wall_loop_vel (tl : list Rect) (k : Koopahdr.Koopa) :
  Koopahdr.k_vel (fst (Koopahdr.Koopa_wall_loop tl k)) = Koopahdr.k_vel k.
Proof.
  induction tl as [|tile tl IH]; simpl; [reflexivity|].
  destruct (colliderect (Koopahdr.k_rect k) tile); [|exact IH].
  simpl. destruct (Koopahdr.direction k =? 1); reflexivity.
Qed.

(** C6, on the code.  In [KoopaHDR1.07.31.251.0X.py] a patrolling enemy
    (not in its shell) gets velocity.x = KOOPA_SPEED times direction; when
    no tile is hit its x advances by exactly that amount and the direction
    is kept, and when a tile is hit the direction is flipped.  In
    [koopahdr.py] the velocity is set and a hit flips the direction as
    well, but when no tile is hit the x coordinate is put back to its old
    value: the enemy does not advance. *)
Theorem C6_patrol_step :
  (forall (tl : list Rect) (k : KoopaHDR1_07.Koopa),
      KoopaHDR1_07.shell k = false ->
      let k1 := KoopaHDR1_07.Koopa_set_speed k in
      let r := KoopaHDR1_07.Koopa_horizontal tl k1 in
      KoopaHDR1_07.k_vx k1
      = inject_Z (KoopaHDR1_07.KOOPA_SPEED * KoopaHDR1_07.direction k)
      /\ (snd r = false ->
          x (KoopaHDR1_07.k_rect (fst r))
          = x (KoopaHDR1_07.k_rect k)
            + KoopaHDR1_07.KOOPA_SPEED * KoopaHDR1_07.direction k
          /\ KoopaHDR1_07.direction (fst r) = KoopaHDR1_07.direction k)
      /\ (snd r = true ->
          KoopaHDR1_07.direction (fst r) = KoopaHDR1_07.direction k * -1))
  /\ (forall (tm : Koopahdr.TileMap) (k : Koopahdr.Koopa),
         let r := Koopahdr.Koopa_horizontal tm k in
         Koopahdr.k_vx (fst r)
         = inject_Z (Koopahdr.walk_speed k * Koopahdr.direction k)
         /\ (snd r = false ->
             x (Koopahdr.k_rect (fst r)) = x (Koopahdr.k_rect k)
             /\ Koopahdr.direction (fst r) = Koopahdr.direction k)
         /\ (snd r = true ->
             Koopahdr.direction (fst r) = Koopahdr.direction k * -1)).
Proof.
  split.
  - intros tl k Hs k1 r.
    assert (Hk1 : k1 = KoopaHDR1_07.k_set_vx k
                         (inject_Z (KoopaHDR1_07.KOOPA_SPEED * KoopaHDR1_07.direction k))).
    { unfold k1, KoopaHDR1_07.Koopa_set_speed. rewrite Hs. reflexivity. }
    split; [rewrite Hk1; reflexivity|].
    unfold r, KoopaHDR1_07.Koopa_horizontal.
    set (k2 := KoopaHDR1_07.k_set_ent k1 _).
    pose proof (hdr_wall_loop_miss tl k2) as Hmiss.
    pose proof (hdr_wall_loop_direction tl k2) as Hdir.
    destruct (KoopaHDR1_07.Koopa_wall_loop tl k2) as [k3 hit].
    cbn [fst snd] in *.
    split; intro Hhit; subst hit.
    + rewrite (Hmiss eq_refl). subst k2. rewrite Hk1.
      cbn. rewrite round_coord_inject_Z. split; reflexivity.
    + cbn. rewrite Hdir. subst k2. rewrite Hk1. reflexivity.
  - intros tm k r. unfold r, Koopahdr.Koopa_horizontal.
    set (k1 := Koopahdr.k_set_vel k _).
    set (k2 := Koopahdr.k_set_rect k1 _).
    pose proof (old_wall_loop_miss (Koopahdr.tiles tm) k2) as Hmiss.
    pose proof (old_wall_loop_hit (Koopahdr.tiles tm) k2) as Hhit.
    pose proof (old_wall_loop_vel (Koopahdr.tiles tm) k2) as Hvel.
    destruct (Koopahdr.Koopa_wall_loop (Koopahdr.tiles tm) k2) as [k3 c].
    cbn [fst snd] in *.
    split; [|split].
    + unfold Koopahdr.k_vx. destruct c; cbn; rewrite Hvel; reflexivity.
    + intro Hc. subst c. rewrite (Hmiss eq_refl). cbn. split; reflexivity.
    + intro Hc. subst c. cbn. rewrite (Hhit eq_refl). reflexivity.
Qed.

(** On the floor of [floor_level], nothing ahead: the enemy of
    [KoopaHDR1.07.31.251.0X.py] walks from x = 32 to x = 34, the enemy of
    [koopahdr.py] stays at x = 32 after a whole update. *)
Lemma C6_patrol_step_witness :
  let k := koopa_at 32 0 in
  let tl := KoopaHDR1_07.tiles (hdr_tile_map_of floor_level) in
  x (KoopaHDR1_07.k_rect
       (fst (KoopaHDR1_07.Koopa_horizontal tl (KoopaHDR1_07.Koopa_set_speed k))))
  = 34
  /\ x (Koopahdr.k_rect
          (fst (Koopahdr.Koopa_horizontal (tile_map_of floor_level) (old_koopa_at 32 0))))
     = 32
  /\ x (Koopahdr.k_rect (Koopahdr.Koopa_update (tile_map_of floor_level)
                           (old_koopa_at 32 0)))
     = 32.
Proof.
  intros k tl.
  destruct (proj1 C6_patrol_step tl k eq_refl) as (_ & H & _).
  destruct (proj2 C6_patrol_step (tile_map_of floor_level) (old_koopa_at 32 0))
    as (_ & H' & _).
  split; [|split].
  - rewrite (proj1 (H eq_refl)). reflexivity.
  - rewrite (proj1 (H' eq_refl)). reflexivity.
  - reflexivity.
Defined.

(** ** C7: the kick *)

Lemma hdr_kick_facts (k : KoopaHDR1_07.Koopa) (d : Z) :
  KoopaHDR1_07.direction (KoopaHDR1_07.kick k d) = d
  /\ KoopaHDR1_07.k_vx (KoopaHDR1_07.kick k d)
     = inject_Z (KoopaHDR1_07.KOOPA_SHELL_SPEED * d)
  /\ KoopaHDR1_07.k_shell_timer (KoopaHDR1_07.kick k d) = 300.
Proof. repeat split. Qed.

(** C7 (as amended).  [Koopa.kick(direction)] of
    [KoopaHDR1.07.31.251.0X.py], for an enemy in any state (a stomped one in
    particular) and any direction [d]: the enemy's direction becomes [d],
    velocity.x becomes KOOPA_SHELL_SPEED times [d], velocity.y becomes -5
    (upward), the shell timer is set to 300 and the enemy is in its shell;
    its rectangle is untouched.  [Koopa.kick()] of [koopahdr.py] takes no
    direction: the enemy's direction becomes +1 if its own velocity.x is
    negative and -1 otherwise, velocity.x becomes that direction times
    KOOPA_SHELL_SPEED, velocity.y becomes -5, the shell timer is set to 180
    and the enemy is in its shell; its rectangle is untouched. *)
Theorem C7_kick :
  (forall (k : KoopaHDR1_07.Koopa) (d : Z),
      let k' := KoopaHDR1_07.kick k d in
      KoopaHDR1_07.direction k' = d
      /\ KoopaHDR1_07.k_vx k' = inject_Z (KoopaHDR1_07.KOOPA_SHELL_SPEED * d)
      /\ KoopaHDR1_07.k_vy k' = inject_Z (-5)
      /\ (KoopaHDR1_07.k_vy k' < 0)%Q
      /\ KoopaHDR1_07.k_shell_timer k' = 300
      /\ KoopaHDR1_07.shell k' = true
      /\ KoopaHDR1_07.k_rect k' = KoopaHDR1_07.k_rect k
      /\ KoopaHDR1_07.on_ground (KoopaHDR1_07.k_ent k')
         = KoopaHDR1_07.on_ground (KoopaHDR1_07.k_ent k))
  /\ (forall k : Koopahdr.Koopa,
         let k' := Koopahdr.kick k in
         Koopahdr.direction k' = (if Qltb (Koopahdr.k_vx k) 0 then 1 else -1)
         /\ Koopahdr.k_vx k'
            = inject_Z (Koopahdr.direction k' * Koopahdr.KOOPA_SHELL_SPEED)
         /\ Koopahdr.k_vy k' = inject_Z (-5)
         /\ (Koopahdr.k_vy k' < 0)%Q
         /\ Koopahdr.k_shell_timer k' = 180
         /\ Koopahdr.shell k' = true
         /\ Koopahdr.k_rect k' = Koopahdr.k_rect k).
Proof. split; intros; repeat split. Qed.

(** C7 fails as stated on [koopahdr.py]: an enemy walking right that is
    kicked turns left, against its own velocity (the call carries no
    direction), slides at KOOPA_SHELL_SPEED 8 and gets a shell timer of
    180, not 300. *)
Lemma C7_counterexample :
  let k := Koopahdr.mkKoopa (mkRect 64 0 32 32) (mkVec (inject_Z 1) 0) 1 1 false 0 in
  let k' := Koopahdr.kick k in
  Koopahdr.direction k' = -1
  /\ Koopahdr.k_vx k' = inject_Z (-8)
  /\ Koopahdr.k_shell_timer k' = 180
  /\ Koopahdr.k_shell_timer k' <> 300.
Proof. vm_compute. repeat split. intro H. discriminate H. Qed.

(** ** C8: the direction of the kick *)

Lemma kick_direction_cases (p : KoopaHDR1_07.Player) :
  ((0 < KoopaHDR1_07.p_vx p)%Q -> KoopaHDR1_07.kick_direction p = 1)
  /\ ((KoopaHDR1_07.p_vx p < 0)%Q -> KoopaHDR1_07.kick_direction p = -1)
  /\ ((KoopaHDR1_07.p_vx p == 0)%Q -> KoopaHDR1_07.kick_direction p = -1).
Proof.
  unfold KoopaHDR1_07.kick_direction.
  destruct (Qcmp_cases (KoopaHDR1_07.p_vx p)) as [(G & Hq)|[(G & L & Hq)|(G & L & Hq)]];
    rewrite G; repeat split; try reflexivity; intro H; exfalso.
  - exact (Qlt_irrefl _ (Qlt_trans _ _ _ Hq H)).
  - rewrite H in Hq. exact (Qlt_irrefl _ Hq).
  - exact (Qlt_irrefl _ (Qlt_trans _ _ _ Hq H)).
  - rewrite Hq in H. exact (Qlt_irrefl _ H).
Qed.

(** C8 (as amended).  In [KoopaHDR1.07.31.251.0X.py], when the loop
    reaches an enemy for which the stomp test fails while the player is in
    shell mode, the enemy is kicked with direction +1 if the player's
    velocity.x is positive and -1 otherwise: a velocity.x of exactly zero
    gives -1, leftward.  The score grows by 200 and the player is
    unchanged. *)
Theorem C8_kick_direction (k : KoopaHDR1_07.Koopa) (s : KoopaHDR1_07.Enc) :
  KoopaHDR1_07.stomp_test (KoopaHDR1_07.e_player s) k = false ->
  KoopaHDR1_07.shell_state (KoopaHDR1_07.e_player s) = true ->
  let p := KoopaHDR1_07.e_player s in
  KoopaHDR1_07.encounter k s
  = (KoopaHDR1_07.kick k (KoopaHDR1_07.kick_direction p),
     KoopaHDR1_07.mkEnc p (KoopaHDR1_07.e_score s + 200) (KoopaHDR1_07.e_lives s),
     false)
  /\ ((0 < KoopaHDR1_07.p_vx p)%Q -> KoopaHDR1_07.kick_direction p = 1)
  /\ ((KoopaHDR1_07.p_vx p < 0)%Q -> KoopaHDR1_07.kick_direction p = -1)
  /\ ((KoopaHDR1_07.p_vx p == 0)%Q -> KoopaHDR1_07.kick_direction p = -1).
Proof.
  intros Ht Hs p. split.
  - unfold KoopaHDR1_07.encounter. rewrite Ht, Hs. reflexivity.
  - exact (kick_direction_cases p).
Qed.

Lemma C8_kick_direction_witness :
  let k := koopa_at 120 192 in
  let s := KoopaHDR1_07.mkEnc resting_shell_player 0 3 in
  KoopaHDR1_07.direction (fst (fst (KoopaHDR1_07.encounter k s))) = -1.
Proof.
  intros k s.
  destruct (C8_kick_direction k s eq_refl eq_refl) as (H & _ & _ & H0).
  rewrite H. cbn [fst]. 
  rewrite (proj1 (hdr_kick_facts k (KoopaHDR1_07.kick_direction (KoopaHDR1_07.e_player s)))).
  apply H0. reflexivity.
Defined.

(** C8 fails as stated: a player in shell mode that stands still
    (velocity.x exactly zero) is touched by an enemy on the same floor; the
    enemy is kicked to the left, direction -1, velocity.x -10. *)
Lemma C8_counterexample :
  let k := koopa_at 120 192 in
  let pr0 := KoopaHDR1_07.p_rect resting_shell_player in
  let r := KoopaHDR1_07.enemy_loop pr0 [k]
             (KoopaHDR1_07.mkEnc resting_shell_player 0 3) in
  KoopaHDR1_07.p_vx resting_shell_player = 0%Q
  /\ KoopaHDR1_07.shell_state resting_shell_player = true
  /\ colliderect pr0 (KoopaHDR1_07.k_rect k) = true
  /\ KoopaHDR1_07.stomp_test resting_shell_player k = false
  /\ KoopaHDR1_07.kick_direction resting_shell_player = -1
  /\ map KoopaHDR1_07.direction (fst (fst r)) = [-1]
  /\ map KoopaHDR1_07.k_vx (fst (fst r)) = [inject_Z (-10)].
Proof. vm_compute. repeat split. Qed.

(** ** C9: building the tile map *)



(** ** C10: the score never goes down *)

Section ScoreMonotone.

Import KoopaHDR1_07.

Lemma collect_coins_score (p : Player) (cs : list Coin) (sc : Z) :
  sc <= snd (collect_coins p cs sc).
Proof.
  unfold collect_coins. cbn [snd].
  generalize (filter (fun c => colliderect (p_rect p) (rect c)) cs).
  intro l. revert sc.
  induction l as [|c l IH]; intro sc; simpl; [lia|].
  specialize (IH (sc + 50)). lia.
Qed.

Lemma encounter_score (k : Koopa) (s : Enc) :
  e_score s <= e_score (snd (fst (encounter k s))).
Proof.
  unfold encounter.
  destruct (stomp_test (e_player s) k); [simpl; lia|].
  destruct (shell_state (e_player s)); [simpl; lia|].
  destruct (e_lives s - 1 <=? 0); simpl; lia.
Qed.

Lemma enemy_loop_score (pr0 : Rect) (ks : list Koopa) :
  forall s, e_score s <= e_score (snd (fst (enemy_loop pr0 ks s))).
Proof.
  induction ks as [|k ks IH]; intro s; simpl; [lia|].
  destruct (colliderect pr0 (k_rect k)).
  - pose proof (encounter_score k s) as He.
    destruct (encounter k s) as [[k1 s1] stop]. cbn [fst snd] in He.
    destruct stop; [simpl; exact He|].
    specialize (IH s1).
    destruct (enemy_loop pr0 ks s1) as [[ks2 s2] stop2]. simpl in *. lia.
  - specialize (IH s).
    destruct (enemy_loop pr0 ks s) as [[ks2 s2] stop2]. simpl in *. exact IH.
Qed.

Lemma level_complete_score (g : Globals) (gm : GameManager) :
  score (snd (fst (level_complete g gm))) = score gm.
Proof.
  unfold level_complete.
  destruct (_ >? _); [|reflexivity].
  destruct (attr_current_level gm) as [cl|]; [|reflexivity].
  cbn [attr_current_world].
  destruct (attr_current_world gm) as [cw|]; [|reflexivity].
  destruct (py_index WORLDS cw) as [world|e]; [|reflexivity].
  destruct (cl + 1 >=? len world);
    (destruct (_ >=? len WORLDS); [reflexivity|]);
    cbn [player score lives];
    unfold GameManager_load_level;
    (destruct (TileMap_init _); reflexivity).
Qed.

Lemma update_score (g : Globals) (gm : GameManager) (keys : Keys) :
  score gm <= score (snd (fst (update g gm keys))).
Proof.
  unfold update.
  pose proof (collect_coins_score (Player_update (tile_map gm) keys (player gm))
                (coins gm) (score gm)) as Hc.
  destruct (collect_coins _ _ _) as [cs2 sc2]. cbn [snd] in Hc.
  match goal with
  | |- context [enemy_loop ?r ?ks ?s] =>
      pose proof (enemy_loop_score r ks s) as Hl;
      destruct (enemy_loop r ks s) as [[ks3 s3] stop]
  end.
  cbn [fst snd e_score] in Hl.
  destruct stop.
  - cbn [fst snd score]. lia.
  - rewrite level_complete_score. cbn [score]. lia.
Qed.

End ScoreMonotone.

Lemma hdr_run_score (inputs : list KoopaHDR1_07.Keys) :
  forall g gm,
    KoopaHDR1_07.score gm <= KoopaHDR1_07.score (snd (fst (hdr_run g gm inputs))).
Proof.
  induction inputs as [|keys rest IH]; intros g gm; simpl; [lia|].
  pose proof (update_score g gm keys) as Hu.
  destruct (KoopaHDR1_07.update g gm keys) as [[g1 gm1] o]. cbn [fst snd] in Hu.
  destruct o; cbn [fst snd]; try exact Hu.
  specialize (IH g1 gm1). lia.
Qed.

Section OldScoreMonotone.

Import Koopahdr.

Lemma old_encounter_score (feet : Rect) (k : Koopa) (s : Enc) :
  e_score s <= e_score (snd (encounter feet k s)).
Proof.
  unfold encounter.
  destruct (colliderect (k_rect k) feet && Qgtb (p_vy (e_player s)) 0);
    [simpl; lia|].
  destruct (colliderect (p_rect (e_player s)) (k_rect k)); [|simpl; lia].
  destruct (shell_state (e_player s)); [simpl; lia|].
  destruct (e_lives s - 1 <=? 0); simpl; lia.
Qed.

Lemma old_enemy_loop_score (feet : Rect) (l : list Sprite) :
  forall s, e_score s <= e_score (snd (fst (enemy_loop feet l s))).
Proof.
  induction l as [|sp l IH]; intro s; simpl; [lia|].
  destruct (in_enemies sp).
  - pose proof (old_encounter_score feet (obj sp) s) as He.
    destruct (encounter feet (obj sp) s) as [[|k|k] s1]; cbn [snd] in He.
    + specialize (IH s1). lia.
    + specialize (IH s1).
      destruct (enemy_loop feet l s1) as [[l2 s2] stop]. simpl in *. lia.
    + simpl. exact He.
  - specialize (IH s).
    destruct (enemy_loop feet l s) as [[l2 s2] stop]. simpl in *. exact IH.
Qed.

Lemma old_update_score (gm : GameManager) (keys : Keys) :
  score gm <= score (fst (update gm keys)).
Proof.
  unfold update.
  match goal with
  | |- context [enemy_loop ?r ?ks ?s] =>
      pose proof (old_enemy_loop_score r ks s) as Hl;
      destruct (enemy_loop r ks s) as [[l3 s3] stop]
  end.
  cbn [fst snd e_score score] in *. exact Hl.
Qed.

End OldScoreMonotone.

Lemma old_run_score (inputs : list Koopahdr.Keys) :
  forall gm, Koopahdr.score gm <= Koopahdr.score (fst (old_run gm inputs)).
Proof.
  induction inputs as [|keys rest IH]; intros gm; simpl; [lia|].
  pose proof (old_update_score gm keys) as Hu.
  destruct (Koopahdr.update gm keys) as [gm1 o]. cbn [fst snd] in Hu.
  destruct o; cbn [fst snd]; try exact Hu.
  specialize (IH gm1). lia.
Qed.

(** C10.  In both files one [update] never lowers the score, whatever the
    session state, the keys and the way [update] ends (True, False or an
    exception); so it never goes down along a run of the main loop, and a
    session whose score starts at 0, as the one [GameManager()] builds,
    keeps a score of at least 0. *)
Theorem C10_score_never_decreases :
  (forall g gm keys,
      KoopaHDR1_07.score gm
      <= KoopaHDR1_07.score (snd (fst (KoopaHDR1_07.update g gm keys))))
  /\ (forall g gm inputs,
         KoopaHDR1_07.score gm
         <= KoopaHDR1_07.score (snd (fst (hdr_run g gm inputs))))
  /\ KoopaHDR1_07.GameManager_init KoopaHDR1_07.initial_globals = Ok hdr_start
  /\ KoopaHDR1_07.score (snd hdr_start) = 0
  /\ (forall inputs,
         0 <= KoopaHDR1_07.score
                (snd (fst (hdr_run (fst hdr_start) (snd hdr_start) inputs))))
  /\ (forall gm keys,
         Koopahdr.score gm <= Koopahdr.score (fst (Koopahdr.update gm keys)))
  /\ (forall gm inputs,
         Koopahdr.score gm <= Koopahdr.score (fst (old_run gm inputs)))
  /\ (forall p l tm lv inputs,
         0 <= Koopahdr.score
                (fst (old_run (Koopahdr.mkGameManager p l tm 0 lv) inputs))).
Proof.
  repeat apply conj.
  - exact update_score.
  - intros. apply hdr_run_score.
  - vm_compute. reflexivity.
  - vm_compute. reflexivity.
  - intro inputs.
    pose proof (hdr_run_score inputs (fst hdr_start) (snd hdr_start)) as H.
    assert (E : KoopaHDR1_07.score (snd hdr_start) = 0) by (vm_compute; reflexivity).
    lia.
  - exact old_update_score.
  - intros. apply old_run_score.
  - intros p l tm lv inputs.
    pose proof (old_run_score inputs (Koopahdr.mkGameManager p l tm 0 lv)) as H.
    cbn [Koopahdr.score] in H. exact H.
Qed.

(** * Further properties of the code *)

(** ** Level selection *)

Lemma hdr_world_len (w : Z) :
  0 <= w <= 2 -> len (nth (Z.to_nat w) KoopaHDR1_07.WORLDS []) = 3.
Proof.
  intro H. assert (C : w = 0 \/ w = 1 \/ w = 2) by lia.
  destruct C as [-> | [-> | ->]]; reflexivity.
Qed.

Lemma hdr_get_level_valid (w l c : Z) :
  0 <= w <= 2 -> 0 <= l <= 2 ->
  let lvl := KoopaHDR1_07.get_level (KoopaHDR1_07.mkGlobals w l c) in
  lvl = nth (Z.to_nat l) (nth (Z.to_nat w) KoopaHDR1_07.WORLDS []) []
  /\ In lvl (List.concat KoopaHDR1_07.WORLDS)
  /\ lvl <> KoopaHDR1_07.fallback_level.
Proof.
  intros Hw Hl.
  assert (Cw : w = 0 \/ w = 1 \/ w = 2) by lia.
  assert (Cl : l = 0 \/ l = 1 \/ l = 2) by lia.
  destruct Cw as [-> | [-> | ->]]; destruct Cl as [-> | [-> | ->]];
    (split; [reflexivity|split;
      [cbn; tauto
      |intro H; apply (f_equal (@List.length string)) in H;
       vm_compute in H; discriminate H]]).
Qed.

(** X1.  [load_level] of [KoopaHDR1.07.31.251.0X.py] clamps: whatever world
    and level are asked for, the indices it stores are valid, so
    [get_level] then returns that level of [WORLDS] and never the fallback
    level; indices that are valid to begin with are stored as they are. *)
Theorem X1_load_level_clamps (g : KoopaHDR1_07.Globals) (world level : Z) :
  let g' := KoopaHDR1_07.load_level g world level in
  let cw := KoopaHDR1_07.current_world g' in
  let cl := KoopaHDR1_07.current_level g' in
  0 <= cw < len KoopaHDR1_07.WORLDS
  /\ 0 <= cl < len (nth (Z.to_nat cw) KoopaHDR1_07.WORLDS [])
  /\ KoopaHDR1_07.get_level g'
     = nth (Z.to_nat cl) (nth (Z.to_nat cw) KoopaHDR1_07.WORLDS []) []
  /\ In (KoopaHDR1_07.get_level g') (List.concat KoopaHDR1_07.WORLDS)
  /\ KoopaHDR1_07.get_level g' <> KoopaHDR1_07.fallback_level
  /\ cw = Z.max 0 (Z.min world 2)
  /\ cl = Z.max 0 (Z.min level 2).
Proof.
  intros g' cw cl.
  assert (Ew : cw = Z.max 0 (Z.min world 2)) by reflexivity.
  assert (El : cl = Z.max 0 (Z.min level 2)).
  { unfold cl, g', KoopaHDR1_07.load_level. cbn [KoopaHDR1_07.current_level].
    rewrite hdr_world_len; [reflexivity|].
    change (len KoopaHDR1_07.WORLDS - 1) with 2. lia. }
  assert (Eg : g' = KoopaHDR1_07.mkGlobals cw cl (KoopaHDR1_07.camera_x g))
    by reflexivity.
  clearbody cw cl. clearbody g'. subst g'.
  assert (Hw : 0 <= cw <= 2) by lia.
  assert (Hl : 0 <= cl <= 2) by lia.
  destruct (hdr_get_level_valid cw cl (KoopaHDR1_07.camera_x g) Hw Hl)
    as (H1 & H2 & H3).
  cbn [KoopaHDR1_07.current_world KoopaHDR1_07.current_level].
  split; [change (len KoopaHDR1_07.WORLDS) with 3; lia|].
  split; [rewrite hdr_world_len by lia; lia|].
  repeat split; assumption.
Qed.

(** ** Gravity *)

(** X2.  [Entity.apply_gravity] adds 0.5 to velocity.y and caps it at 10:
    the new velocity.y is the smaller of [velocity.y + 0.5] and 10, never
    more than 10; nothing else of the body changes. *)
Theorem X2_apply_gravity_terminal (e : KoopaHDR1_07.Entity) :
  let e' := KoopaHDR1_07.apply_gravity e in
  (vy (KoopaHDR1_07.vel e') == Qmin (vy (KoopaHDR1_07.vel e) + (1 # 2)) 10)%Q
  /\ (vy (KoopaHDR1_07.vel e') <= 10)%Q
  /\ vx (KoopaHDR1_07.vel e') = vx (KoopaHDR1_07.vel e)
  /\ KoopaHDR1_07.rect e' = KoopaHDR1_07.rect e
  /\ KoopaHDR1_07.on_ground e' = KoopaHDR1_07.on_ground e.
Proof.
  intro e'. subst e'. unfold KoopaHDR1_07.apply_gravity.
  cbn [KoopaHDR1_07.vel KoopaHDR1_07.set_vel vy set_vy].
  unfold KoopaHDR1_07.GRAVITY.
  destruct (Qgtb (vy (KoopaHDR1_07.vel e) + (1 # 2)) 10) eqn:G.
  - apply Qgtb_true in G.
    cbn [KoopaHDR1_07.vel KoopaHDR1_07.set_vel vy vx set_vy KoopaHDR1_07.rect
         KoopaHDR1_07.on_ground KoopaHDR1_07.set_rect].
    repeat split; try reflexivity.
    + symmetry. apply Q.min_r. apply Qlt_le_weak. exact G.
    + apply Qle_refl.
  - assert (L : (vy (KoopaHDR1_07.vel e) + (1 # 2) <= 10)%Q).
    { apply Qnot_lt_le. intro H. apply Qgtb_true in H. congruence. }
    cbn [KoopaHDR1_07.vel KoopaHDR1_07.set_vel vy vx set_vy KoopaHDR1_07.rect
         KoopaHDR1_07.on_ground KoopaHDR1_07.set_rect].
    repeat split; try reflexivity.
    + symmetry. apply Q.min_l. exact L.
    + exact L.
Qed.

(** ** The player's frame *)

(** X3.  [Player.update] sets velocity.x from the keys alone: 6 times the
    horizontal intent (right minus left, so opposite keys cancel), whatever
    the velocity was before; velocity.y, the rectangle and the mode are
    not touched by this step. *)
Theorem X3_player_movement (p : KoopaHDR1_07.Player) (keys : KoopaHDR1_07.Keys) :
  let p' := KoopaHDR1_07.Player_movement p keys in
  KoopaHDR1_07.p_vx p' = inject_Z (KoopaHDR1_07.PLAYER_SPEED * axis keys)
  /\ KoopaHDR1_07.p_vy p' = KoopaHDR1_07.p_vy p
  /\ KoopaHDR1_07.p_rect p' = KoopaHDR1_07.p_rect p
  /\ KoopaHDR1_07.on_ground (KoopaHDR1_07.p_ent p')
     = KoopaHDR1_07.on_ground (KoopaHDR1_07.p_ent p)
  /\ p_mode p' = p_mode p.
Proof.
  unfold KoopaHDR1_07.Player_movement, axis.
  destruct (KoopaHDR1_07.K_LEFT keys || KoopaHDR1_07.K_a keys);
    destruct (KoopaHDR1_07.K_RIGHT keys || KoopaHDR1_07.K_d keys);
    repeat split.
Qed.

Lemma apply_gravity_keeps (e : KoopaHDR1_07.Entity) :
  KoopaHDR1_07.rect (KoopaHDR1_07.apply_gravity e) = KoopaHDR1_07.rect e
  /\ KoopaHDR1_07.on_ground (KoopaHDR1_07.apply_gravity e) = KoopaHDR1_07.on_ground e
  /\ vx (KoopaHDR1_07.vel (KoopaHDR1_07.apply_gravity e)) = vx (KoopaHDR1_07.vel e).
Proof.
  unfold KoopaHDR1_07.apply_gravity.
  destruct (Qgtb _ 10); repeat split.
Qed.

(** Gravity, movement and jump leave the mode, the rectangle and the
    grounded flag alone. *)
Lemma hdr_jump_stage_keeps (p : KoopaHDR1_07.Player) (keys : KoopaHDR1_07.Keys) :
  let p3 := KoopaHDR1_07.Player_jump
              (KoopaHDR1_07.Player_movement
                 (KoopaHDR1_07.p_set_ent p
                    (KoopaHDR1_07.apply_gravity (KoopaHDR1_07.p_ent p))) keys) keys in
  p_mode p3 = p_mode p
  /\ width (KoopaHDR1_07.p_rect p3) = width (KoopaHDR1_07.p_rect p)
  /\ height (KoopaHDR1_07.p_rect p3) = height (KoopaHDR1_07.p_rect p).
Proof.
  destruct (apply_gravity_keeps (KoopaHDR1_07.p_ent p)) as (Hr & Hg & _).
  revert Hr Hg. generalize (KoopaHDR1_07.apply_gravity (KoopaHDR1_07.p_ent p)).
  intros e1 Hr Hg.
  unfold KoopaHDR1_07.Player_jump, KoopaHDR1_07.Player_movement.
  destruct p as [[r v g] ss st ds], e1 as [r1 v1 g1]. cbn in Hr, Hg. subst r1 g1.
  destruct (KoopaHDR1_07.K_LEFT keys || KoopaHDR1_07.K_a keys);
    destruct (KoopaHDR1_07.K_RIGHT keys || KoopaHDR1_07.K_d keys);
    destruct (KoopaHDR1_07.K_SPACE keys || KoopaHDR1_07.K_w keys);
    destruct g; repeat split.
Qed.

(** What entering and ticking the shell do to mode and size depends on
    mode and size only. *)
Lemma hdr_shell_stage_congr (p q : KoopaHDR1_07.Player) (keys : KoopaHDR1_07.Keys) :
  p_mode p = p_mode q ->
  width (KoopaHDR1_07.p_rect p) = width (KoopaHDR1_07.p_rect q) ->
  height (KoopaHDR1_07.p_rect p) = height (KoopaHDR1_07.p_rect q) ->
  let p5 := KoopaHDR1_07.Player_shell_tick (KoopaHDR1_07.Player_enter_shell p keys) in
  let q5 := KoopaHDR1_07.Player_shell_tick (KoopaHDR1_07.Player_enter_shell q keys) in
  p_mode p5 = p_mode q5
  /\ width (KoopaHDR1_07.p_rect p5) = width (KoopaHDR1_07.p_rect q5)
  /\ height (KoopaHDR1_07.p_rect p5) = height (KoopaHDR1_07.p_rect q5).
Proof.
  destruct p as [[rp vp gp] ss st ds], q as [[rq vq gq] ss' st' ds'].
  unfold p_mode. cbn. intros Hm Hw Hh. injection Hm as -> -> ->.
  unfold KoopaHDR1_07.Player_shell_tick, KoopaHDR1_07.Player_enter_shell.
  cbn.
  destruct (KoopaHDR1_07.K_x keys), ss'; cbn;
    try (destruct (st' - 1 <=? 0)); cbn; repeat split; assumption.
Qed.

Lemma hdr_update_mode (tm : KoopaHDR1_07.TileMap) (keys : KoopaHDR1_07.Keys)
    (p : KoopaHDR1_07.Player) :
  p_mode (KoopaHDR1_07.Player_update tm keys p)
  = p_mode (KoopaHDR1_07.Player_shell_tick (KoopaHDR1_07.Player_enter_shell p keys))
  /\ width (KoopaHDR1_07.p_rect (KoopaHDR1_07.Player_update tm keys p))
     = width (KoopaHDR1_07.p_rect
                (KoopaHDR1_07.Player_shell_tick (KoopaHDR1_07.Player_enter_shell p keys)))
  /\ height (KoopaHDR1_07.p_rect (KoopaHDR1_07.Player_update tm keys p))
     = height (KoopaHDR1_07.p_rect
                 (KoopaHDR1_07.Player_shell_tick (KoopaHDR1_07.Player_enter_shell p keys))).
Proof.
  unfold KoopaHDR1_07.Player_update, KoopaHDR1_07.Player_horizontal_sweep.
  set (p3 := KoopaHDR1_07.Player_jump _ keys).
  assert (H3 : p_mode p3 = p_mode p
               /\ width (KoopaHDR1_07.p_rect p3) = width (KoopaHDR1_07.p_rect p)
               /\ height (KoopaHDR1_07.p_rect p3) = height (KoopaHDR1_07.p_rect p)).
  { unfold p3. apply hdr_jump_stage_keeps. }
  clearbody p3. destruct H3 as (Hm & Hw & Hh).
  set (p5 := KoopaHDR1_07.Player_shell_tick (KoopaHDR1_07.Player_enter_shell p3 keys)).
  set (q5 := KoopaHDR1_07.Player_shell_tick (KoopaHDR1_07.Player_enter_shell p keys)).
  assert (H5 : p_mode p5 = p_mode q5
               /\ width (KoopaHDR1_07.p_rect p5) = width (KoopaHDR1_07.p_rect q5)
               /\ height (KoopaHDR1_07.p_rect p5) = height (KoopaHDR1_07.p_rect q5)).
  { unfold p5, q5. apply hdr_shell_stage_congr; assumption. }
  clearbody p5 q5. destruct H5 as (Hm5 & Hw5 & Hh5).
  cbn [KoopaHDR1_07.p_ent KoopaHDR1_07.p_set_ent].
  rewrite <- Hm5, <- Hw5, <- Hh5.
  unfold KoopaHDR1_07.p_rect. cbn [KoopaHDR1_07.p_ent KoopaHDR1_07.p_set_ent].
  unfold KoopaHDR1_07.vertical_sweep.
  rewrite check_collisions_y_first, check_collisions_x_first.
  cbn [KoopaHDR1_07.rect KoopaHDR1_07.set_rect].
  split; [reflexivity|].
  repeat match goal with
  | |- context [find ?f ?l] => destruct (find f l)
  end;
  unfold KoopaHDR1_07.check_collisions_y_step, KoopaHDR1_07.check_collisions_x_step;
  cbn [KoopaHDR1_07.rect KoopaHDR1_07.set_rect KoopaHDR1_07.set_on_ground
       KoopaHDR1_07.set_vel KoopaHDR1_07.vel];
  repeat match goal with
  | |- context [if ?c then _ else _] => destruct c
  end; split; reflexivity.
Qed.

Lemma hdr_movement_on_ground (q : KoopaHDR1_07.Player) (keys : KoopaHDR1_07.Keys) :
  KoopaHDR1_07.on_ground (KoopaHDR1_07.p_ent (KoopaHDR1_07.Player_movement q keys))
  = KoopaHDR1_07.on_ground (KoopaHDR1_07.p_ent q).
Proof.
  unfold KoopaHDR1_07.Player_movement.
  destruct (KoopaHDR1_07.K_LEFT keys || KoopaHDR1_07.K_a keys);
    destruct (KoopaHDR1_07.K_RIGHT keys || KoopaHDR1_07.K_d keys); reflexivity.
Qed.

(** X4.  A jump needs the ground: for a player whose [on_ground] is false
    when the frame starts, [Player.update] does the same with and without
    the jump keys. *)
Theorem X4_no_jump_in_the_air (tm : KoopaHDR1_07.TileMap)
    (keys : KoopaHDR1_07.Keys) (p : KoopaHDR1_07.Player) :
  KoopaHDR1_07.on_ground (KoopaHDR1_07.p_ent p) = false ->
  KoopaHDR1_07.Player_update tm keys p
  = KoopaHDR1_07.Player_update tm (release_jump keys) p.
Proof.
  intro Hg. unfold KoopaHDR1_07.Player_update.
  set (p1 := KoopaHDR1_07.p_set_ent p _).
  assert (Hm : KoopaHDR1_07.Player_movement p1 (release_jump keys)
               = KoopaHDR1_07.Player_movement p1 keys) by reflexivity.
  rewrite Hm.
  assert (Hg2 : KoopaHDR1_07.on_ground
                  (KoopaHDR1_07.p_ent (KoopaHDR1_07.Player_movement p1 keys)) = false).
  { rewrite hdr_movement_on_ground. unfold p1. cbn [KoopaHDR1_07.p_ent KoopaHDR1_07.p_set_ent].
    rewrite (proj1 (proj2 (apply_gravity_keeps (KoopaHDR1_07.p_ent p)))). exact Hg. }
  assert (Hj : forall ks, KoopaHDR1_07.Player_jump (KoopaHDR1_07.Player_movement p1 keys) ks
                          = KoopaHDR1_07.Player_movement p1 keys).
  { intro ks. unfold KoopaHDR1_07.Player_jump. rewrite Hg2, andb_false_r. reflexivity. }
  rewrite !Hj. reflexivity.
Qed.

Lemma X4_no_jump_in_the_air_witness :
  let tm := hdr_tile_map_of floor_level in
  let p := KoopaHDR1_07.Player_init 32 (-40) in
  let jump := KoopaHDR1_07.mkKeys false false false false true true false in
  KoopaHDR1_07.Player_update tm jump p = KoopaHDR1_07.Player_update tm hdr_no_keys p.
Proof.
  intros tm p jump.
  exact (X4_no_jump_in_the_air tm jump p eq_refl).
Defined.

(** The mode after a frame, from the mode before and the dash key. *)
Lemma hdr_mode_step (tm : KoopaHDR1_07.TileMap) (keys : KoopaHDR1_07.Keys)
    (p : KoopaHDR1_07.Player) :
  p_mode (KoopaHDR1_07.Player_update tm keys p)
  = let '(ss, st, ds) := p_mode p in
    if KoopaHDR1_07.K_x keys && negb ss then (true, 299, 12)
    else if ss then (if st - 1 <=? 0 then (false, st - 1, 0) else (true, st - 1, ds))
    else (false, st, ds).
Proof.
  rewrite (proj1 (hdr_update_mode tm keys p)).
  destruct p as [e ss st ds].
  unfold p_mode, KoopaHDR1_07.Player_shell_tick, KoopaHDR1_07.Player_enter_shell.
  cbn.
  destruct (KoopaHDR1_07.K_x keys), ss; cbn; try reflexivity;
    destruct (st - 1 <=? 0); reflexivity.
Qed.

Lemma hdr_shell_run (tm : KoopaHDR1_07.TileMap) (inputs : list KoopaHDR1_07.Keys) :
  forall (p : KoopaHDR1_07.Player) (t ds : Z),
    p_mode p = (true, t, ds) ->
    Z.of_nat (List.length inputs) < t ->
    p_mode (hdr_player_run tm inputs p) = (true, t - Z.of_nat (List.length inputs), ds).
Proof.
  unfold hdr_player_run.
  induction inputs as [|keys rest IH]; intros p t ds Hm Hlen.
  - cbn. rewrite Hm. f_equal. f_equal. lia.
  - cbn [fold_left List.length] in *.
    rewrite (IH _ (t - 1) ds).
    + f_equal. f_equal. lia.
    + rewrite hdr_mode_step, Hm. rewrite andb_false_r.
      destruct (Z.leb_spec (t - 1) 0); [lia|reflexivity].
    + lia.
Qed.

(** X5.  Shell mode is timed.  A player outside shell mode that presses
    the dash key is in shell mode, with dash speed 12, for that frame and
    the 298 frames after it, whatever keys are held and whatever the tiles
    are; the 300th frame ends shell mode and clears the dash speed. *)
Theorem X5_player_shell_lasts_300_frames (tm : KoopaHDR1_07.TileMap)
    (p : KoopaHDR1_07.Player) (k1 : KoopaHDR1_07.Keys)
    (rest : list KoopaHDR1_07.Keys) :
  KoopaHDR1_07.shell_state p = false ->
  KoopaHDR1_07.K_x k1 = true ->
  let q := hdr_player_run tm (k1 :: rest) p in
  (Z.of_nat (List.length rest) < 299 ->
   KoopaHDR1_07.shell_state q = true
   /\ KoopaHDR1_07.shell_timer q = 299 - Z.of_nat (List.length rest)
   /\ KoopaHDR1_07.dash_speed q = 12)
  /\ (List.length rest = 299%nat ->
      KoopaHDR1_07.shell_state q = false /\ KoopaHDR1_07.dash_speed q = 0).
Proof.
  intros Hs Hx q.
  assert (H1 : p_mode (KoopaHDR1_07.Player_update tm k1 p) = (true, 299, 12)).
  { rewrite hdr_mode_step. unfold p_mode. rewrite Hs, Hx. reflexivity. }
  split.
  - intro Hlen.
    pose proof (hdr_shell_run tm rest _ 299 12 H1 Hlen) as H.
    unfold p_mode in H. injection H as Ha Hb Hc. repeat split; assumption.
  - intro Hlen.
    assert (Hne : rest <> []) by (intro E; subst rest; discriminate Hlen).
    destruct (exists_last Hne) as (l & k & ->).
    rewrite length_app in Hlen. cbn in Hlen.
    assert (Hl : Z.of_nat (List.length l) < 299) by lia.
    pose proof (hdr_shell_run tm l _ 299 12 H1 Hl) as H.
    assert (Hq : q = KoopaHDR1_07.Player_update tm k
                       (hdr_player_run tm l (KoopaHDR1_07.Player_update tm k1 p))).
    { unfold q, hdr_player_run. cbn [fold_left]. rewrite fold_left_app. reflexivity. }
    assert (Hm : p_mode q = (false, 0, 0)).
    { rewrite Hq, hdr_mode_step, H. rewrite andb_false_r.
      replace (299 - Z.of_nat (List.length l)) with 1 by lia. reflexivity. }
    unfold p_mode in Hm. injection Hm as Ha Hb Hc. split; assumption.
Qed.

Lemma X5_player_shell_lasts_300_frames_witness :
  let tm := hdr_tile_map_of floor_level in
  let dash := KoopaHDR1_07.mkKeys false false false false false false true in
  let p := KoopaHDR1_07.Player_init 32 0 in
  KoopaHDR1_07.shell_state (hdr_player_run tm (dash :: repeat dash 298) p) = true
  /\ KoopaHDR1_07.shell_state (hdr_player_run tm (dash :: repeat dash 299) p) = false.
Proof.
  intros tm dash p.
  split.
  - apply (proj1 (X5_player_shell_lasts_300_frames tm p dash (repeat dash 298)
                    eq_refl eq_refl)).
    vm_compute. reflexivity.
  - apply (proj2 (X5_player_shell_lasts_300_frames tm p dash (repeat dash 299)
                    eq_refl eq_refl)).
    vm_compute. reflexivity.
Defined.

Lemma player_shape_congr (p q : KoopaHDR1_07.Player) :
  p_mode p = p_mode q ->
  width (KoopaHDR1_07.p_rect p) = width (KoopaHDR1_07.p_rect q) ->
  height (KoopaHDR1_07.p_rect p) = height (KoopaHDR1_07.p_rect q) ->
  player_shape q -> player_shape p.
Proof.
  unfold p_mode, player_shape. intros Hm Hw Hh. injection Hm as -> -> ->.
  rewrite Hw, Hh. tauto.
Qed.

Lemma player_shape_shell_stage (p : KoopaHDR1_07.Player) (keys : KoopaHDR1_07.Keys) :
  player_shape p ->
  player_shape (KoopaHDR1_07.Player_shell_tick (KoopaHDR1_07.Player_enter_shell p keys)).
Proof.
  destruct p as [[r v g] ss st ds]. unfold player_shape. cbn.
  intros (Hw & [(-> & Hh & -> & Ht)|(-> & Hh & ->)]);
    unfold KoopaHDR1_07.Player_shell_tick, KoopaHDR1_07.Player_enter_shell,
      KoopaHDR1_07.p_rect, KoopaHDR1_07.set_rect, set_y, set_height; cbn.
  - rewrite andb_false_r. cbn.
    destruct (Z.leb_spec (st - 1) 0); cbn; split; try assumption.
    + right. repeat split.
    + left. repeat split; try assumption. lia.
  - destruct (KoopaHDR1_07.K_x keys); cbn; split; try assumption.
    + left. repeat split; lia.
    + right. repeat split. assumption.
Qed.

Lemma player_shape_update (tm : KoopaHDR1_07.TileMap) (keys : KoopaHDR1_07.Keys)
    (p : KoopaHDR1_07.Player) :
  player_shape p -> player_shape (KoopaHDR1_07.Player_update tm keys p).
Proof.
  intro H. destruct (hdr_update_mode tm keys p) as (Hm & Hw & Hh).
  apply (player_shape_congr _ _ Hm Hw Hh).
  apply player_shape_shell_stage. exact H.
Qed.

Lemma player_shape_enemy_loop (pr0 : Rect) (ks : list KoopaHDR1_07.Koopa) :
  forall s : KoopaHDR1_07.Enc,
    player_shape (KoopaHDR1_07.e_player s) ->
    player_shape (KoopaHDR1_07.e_player (snd (fst (KoopaHDR1_07.enemy_loop pr0 ks s)))).
Proof.
  induction ks as [|k ks IH]; intros s H; cbn [KoopaHDR1_07.enemy_loop]; [exact H|].
  destruct (colliderect pr0 (KoopaHDR1_07.k_rect k)).
  - assert (H1 : player_shape
                   (KoopaHDR1_07.e_player (snd (fst (KoopaHDR1_07.encounter k s))))).
    { unfold KoopaHDR1_07.encounter.
      destruct (KoopaHDR1_07.stomp_test _ k); [exact H|].
      destruct (KoopaHDR1_07.shell_state _); [exact H|].
      destruct (_ <=? 0); exact H. }
    destruct (KoopaHDR1_07.encounter k s) as [[k1 s1] stop]. cbn [fst snd] in H1.
    destruct stop; [exact H1|].
    specialize (IH s1 H1).
    destruct (KoopaHDR1_07.enemy_loop pr0 ks s1) as [[ks2 s2] stop2]. exact IH.
  - specialize (IH s H).
    destruct (KoopaHDR1_07.enemy_loop pr0 ks s) as [[ks2 s2] stop2]. exact IH.
Qed.

(** X6.  The player's silhouette goes with its mode, in every frame: if
    the box is 32 wide and is either 24 high in shell mode (dash speed 12,
    timer at least 1) or 32 high outside it (dash speed 0), the same holds
    after [GameManager.update], whatever happens in it (dash, expiry,
    collisions, stomp, kick, loss of a life, level change); the player
    [GameManager()] creates starts that way. *)
Theorem X6_player_shape_invariant :
  player_shape (KoopaHDR1_07.Player_init 100 100)
  /\ (forall tm keys p,
         player_shape p -> player_shape (KoopaHDR1_07.Player_update tm keys p))
  /\ (forall g gm keys,
         player_shape (KoopaHDR1_07.player gm) ->
         player_shape
           (KoopaHDR1_07.player (snd (fst (KoopaHDR1_07.update g gm keys))))).
Proof.
  split; [|split].
  - unfold player_shape. cbn. split; [reflexivity|]. right. repeat split.
  - exact player_shape_update.
  - intros g gm keys H. unfold KoopaHDR1_07.update.
    destruct (KoopaHDR1_07.collect_coins _ _ _) as [cs2 sc2].
    pose proof (player_shape_enemy_loop
                  (KoopaHDR1_07.p_rect
                     (KoopaHDR1_07.Player_update (KoopaHDR1_07.tile_map gm) keys
                        (KoopaHDR1_07.player gm)))
                  (map (KoopaHDR1_07.Koopa_update (KoopaHDR1_07.tile_map gm))
                     (KoopaHDR1_07.koopas gm))
                  (KoopaHDR1_07.mkEnc
                     (KoopaHDR1_07.Player_update (KoopaHDR1_07.tile_map gm) keys
                        (KoopaHDR1_07.player gm)) sc2 (KoopaHDR1_07.lives gm))
                  (player_shape_update _ _ _ H)) as Hl.
    destruct (KoopaHDR1_07.enemy_loop _ _ _) as [[ks3 s3] stop].
    cbn [fst snd] in Hl.
    destruct stop; [exact Hl|].
    unfold KoopaHDR1_07.level_complete.
    cbn [KoopaHDR1_07.player KoopaHDR1_07.tile_map KoopaHDR1_07.attr_current_level
         KoopaHDR1_07.attr_current_world KoopaHDR1_07.score KoopaHDR1_07.lives].
    destruct (_ >? _); [|exact Hl].
    destruct (KoopaHDR1_07.attr_current_level gm) as [cl|]; [|exact Hl].
    destruct (KoopaHDR1_07.attr_current_world gm) as [cw|]; [|exact Hl].
    destruct (py_index KoopaHDR1_07.WORLDS cw) as [world|e]; [|exact Hl].
    destruct (cl + 1 >=? len world);
      (destruct (_ >=? len KoopaHDR1_07.WORLDS); [exact Hl|]);
      unfold KoopaHDR1_07.GameManager_load_level;
      (destruct (KoopaHDR1_07.TileMap_init _); [|exact Hl]);
      cbn [fst snd KoopaHDR1_07.player];
      unfold player_shape in *; exact Hl.
Qed.

Lemma X6_player_shape_invariant_witness :
  player_shape
    (KoopaHDR1_07.player
       (snd (fst (KoopaHDR1_07.update (fst hdr_start) (snd hdr_start)
                    (KoopaHDR1_07.mkKeys false false true false true false true))))).
Proof.
  apply (proj2 (proj2 X6_player_shape_invariant)).
  vm_compute. split; [reflexivity|]. right. repeat split.
Defined.

(** ** The enemy's frame *)

Lemma vertical_sweep_keeps (tl : list Rect) (e : KoopaHDR1_07.Entity) :
  let e' := KoopaHDR1_07.vertical_sweep tl e in
  vx (KoopaHDR1_07.vel e') = vx (KoopaHDR1_07.vel e)
  /\ x (KoopaHDR1_07.rect e') = x (KoopaHDR1_07.rect e)
  /\ width (KoopaHDR1_07.rect e') = width (KoopaHDR1_07.rect e)
  /\ height (KoopaHDR1_07.rect e') = height (KoopaHDR1_07.rect e).
Proof.
  unfold KoopaHDR1_07.vertical_sweep. rewrite check_collisions_y_first.
  cbn [KoopaHDR1_07.rect KoopaHDR1_07.set_rect].
  destruct (find _ tl); [|repeat split].
  unfold KoopaHDR1_07.check_collisions_y_step.
  cbn [KoopaHDR1_07.rect KoopaHDR1_07.set_rect KoopaHDR1_07.set_on_ground
       KoopaHDR1_07.set_vel KoopaHDR1_07.vel].
  repeat match goal with
  | |- context [if ?c then _ else _] => destruct c
  end; repeat split.
Qed.

Lemma hdr_koopa_update_fields (tm : KoopaHDR1_07.TileMap) (k : KoopaHDR1_07.Koopa) :
  let k' := KoopaHDR1_07.Koopa_update tm k in
  KoopaHDR1_07.k_vx k'
  = inject_Z ((if KoopaHDR1_07.shell k then KoopaHDR1_07.KOOPA_SHELL_SPEED
               else KoopaHDR1_07.KOOPA_SPEED) * KoopaHDR1_07.direction k)
  /\ (KoopaHDR1_07.shell k', KoopaHDR1_07.k_shell_timer k')
     = (if KoopaHDR1_07.shell k
        then (if KoopaHDR1_07.k_shell_timer k - 1 <=? 0
              then (false, KoopaHDR1_07.k_shell_timer k - 1)
              else (true, KoopaHDR1_07.k_shell_timer k - 1))
        else (false, KoopaHDR1_07.k_shell_timer k))
  /\ width (KoopaHDR1_07.k_rect k') = width (KoopaHDR1_07.k_rect k)
  /\ height (KoopaHDR1_07.k_rect k') = height (KoopaHDR1_07.k_rect k)
  /\ (KoopaHDR1_07.direction k' = KoopaHDR1_07.direction k
      \/ KoopaHDR1_07.direction k' = KoopaHDR1_07.direction k * -1).
Proof.
  unfold KoopaHDR1_07.Koopa_update.
  destruct (apply_gravity_keeps (KoopaHDR1_07.k_ent k)) as (Hr & _ & Hvx).
  set (k1 := KoopaHDR1_07.k_set_ent k _).
  set (k2 := KoopaHDR1_07.Koopa_set_speed k1).
  assert (H2 : KoopaHDR1_07.k_vx k2
               = inject_Z ((if KoopaHDR1_07.shell k then KoopaHDR1_07.KOOPA_SHELL_SPEED
                            else KoopaHDR1_07.KOOPA_SPEED) * KoopaHDR1_07.direction k)
               /\ KoopaHDR1_07.shell k2 = KoopaHDR1_07.shell k
               /\ KoopaHDR1_07.k_shell_timer k2 = KoopaHDR1_07.k_shell_timer k
               /\ KoopaHDR1_07.direction k2 = KoopaHDR1_07.direction k
               /\ width (KoopaHDR1_07.k_rect k2) = width (KoopaHDR1_07.k_rect k)
               /\ height (KoopaHDR1_07.k_rect k2) = height (KoopaHDR1_07.k_rect k)).
  { unfold k2, KoopaHDR1_07.Koopa_set_speed, k1. cbn [KoopaHDR1_07.shell KoopaHDR1_07.k_set_ent].
    unfold KoopaHDR1_07.k_rect.
    destruct (KoopaHDR1_07.shell k) eqn:Es; cbn; rewrite Hr, ?Es; repeat split. }
  clearbody k2. clear k1. destruct H2 as (Hv2 & Hs2 & Ht2 & Hd2 & Hw2 & Hh2).
  set (k3 := fst (KoopaHDR1_07.Koopa_horizontal (KoopaHDR1_07.tiles tm) k2)).
  assert (H3 : KoopaHDR1_07.k_vx k3 = KoopaHDR1_07.k_vx k2
               /\ KoopaHDR1_07.shell k3 = KoopaHDR1_07.shell k2
               /\ KoopaHDR1_07.k_shell_timer k3 = KoopaHDR1_07.k_shell_timer k2
               /\ (KoopaHDR1_07.direction k3 = KoopaHDR1_07.direction k2
                   \/ KoopaHDR1_07.direction k3 = KoopaHDR1_07.direction k2 * -1)
               /\ width (KoopaHDR1_07.k_rect k3) = width (KoopaHDR1_07.k_rect k2)
               /\ height (KoopaHDR1_07.k_rect k3) = height (KoopaHDR1_07.k_rect k2)).
  { unfold k3, KoopaHDR1_07.Koopa_horizontal.
    set (km := KoopaHDR1_07.k_set_ent k2 _).
    assert (Hloop : forall tl,
               let r := KoopaHDR1_07.Koopa_wall_loop tl km in
               KoopaHDR1_07.k_vx (fst r) = KoopaHDR1_07.k_vx km
               /\ KoopaHDR1_07.shell (fst r) = KoopaHDR1_07.shell km
               /\ KoopaHDR1_07.k_shell_timer (fst r) = KoopaHDR1_07.k_shell_timer km
               /\ KoopaHDR1_07.direction (fst r) = KoopaHDR1_07.direction km
               /\ width (KoopaHDR1_07.k_rect (fst r)) = width (KoopaHDR1_07.k_rect km)
               /\ height (KoopaHDR1_07.k_rect (fst r)) = height (KoopaHDR1_07.k_rect km)).
    { induction tl as [|tile tl IH]; cbn [KoopaHDR1_07.Koopa_wall_loop];
        [repeat split|].
      destruct (colliderect (KoopaHDR1_07.k_rect km) tile); [|exact IH].
      cbn [fst]. destruct (Qgtb (KoopaHDR1_07.k_vx km) 0); repeat split. }
    specialize (Hloop (KoopaHDR1_07.tiles tm)).
    destruct (KoopaHDR1_07.Koopa_wall_loop (KoopaHDR1_07.tiles tm) km) as [kw hit].
    cbn [fst] in Hloop. destruct Hloop as (A & B & C & D & E & F).
    assert (Hkm : KoopaHDR1_07.k_vx km = KoopaHDR1_07.k_vx k2
                  /\ KoopaHDR1_07.shell km = KoopaHDR1_07.shell k2
                  /\ KoopaHDR1_07.k_shell_timer km = KoopaHDR1_07.k_shell_timer k2
                  /\ KoopaHDR1_07.direction km = KoopaHDR1_07.direction k2
                  /\ width (KoopaHDR1_07.k_rect km) = width (KoopaHDR1_07.k_rect k2)
                  /\ height (KoopaHDR1_07.k_rect km) = height (KoopaHDR1_07.k_rect k2))
      by (unfold km; repeat split).
    destruct Hkm as (A' & B' & C' & D' & E' & F').
    destruct hit; cbn [fst]; unfold KoopaHDR1_07.k_vx, KoopaHDR1_07.k_rect in *;
      cbn [KoopaHDR1_07.k_set_direction KoopaHDR1_07.k_ent KoopaHDR1_07.shell
           KoopaHDR1_07.k_shell_timer KoopaHDR1_07.direction];
      repeat split; try congruence.
    - right. congruence.
    - left. congruence. }
  clearbody k3. destruct H3 as (Hv3 & Hs3 & Ht3 & Hd3 & Hw3 & Hh3).
  set (k4 := KoopaHDR1_07.Koopa_edge (KoopaHDR1_07.tiles tm) k3).
  assert (H4 : KoopaHDR1_07.k_ent k4 = KoopaHDR1_07.k_ent k3
               /\ KoopaHDR1_07.shell k4 = KoopaHDR1_07.shell k3
               /\ KoopaHDR1_07.k_shell_timer k4 = KoopaHDR1_07.k_shell_timer k3
               /\ (KoopaHDR1_07.direction k4 = KoopaHDR1_07.direction k3
                   \/ KoopaHDR1_07.direction k4 = KoopaHDR1_07.direction k3 * -1)).
  { unfold k4, KoopaHDR1_07.Koopa_edge.
    destruct (KoopaHDR1_07.on_ground (KoopaHDR1_07.k_ent k3)); [|repeat split; left; reflexivity].
    destruct (negb _); repeat split; [right|left]; reflexivity. }
  clearbody k4. destruct H4 as (He4 & Hs4 & Ht4 & Hd4).
  destruct (vertical_sweep_keeps (KoopaHDR1_07.tiles tm) (KoopaHDR1_07.k_ent k4))
    as (Hvx5 & _ & Hw5 & Hh5).
  assert (Hs : KoopaHDR1_07.shell k4 = KoopaHDR1_07.shell k) by congruence.
  assert (Ht : KoopaHDR1_07.k_shell_timer k4 = KoopaHDR1_07.k_shell_timer k)
    by congruence.
  assert (Hdir : KoopaHDR1_07.direction k4 = KoopaHDR1_07.direction k
                 \/ KoopaHDR1_07.direction k4 = KoopaHDR1_07.direction k * -1).
  { destruct Hd3 as [Hd3|Hd3], Hd4 as [Hd4|Hd4]; rewrite Hd4, Hd3, Hd2;
      [left|right|right|left]; lia. }
  unfold KoopaHDR1_07.k_vx, KoopaHDR1_07.k_rect in *.
  assert (Hv : vx (KoopaHDR1_07.vel
                     (KoopaHDR1_07.vertical_sweep (KoopaHDR1_07.tiles tm)
                        (KoopaHDR1_07.k_ent k4)))
               = inject_Z ((if KoopaHDR1_07.shell k then KoopaHDR1_07.KOOPA_SHELL_SPEED
                            else KoopaHDR1_07.KOOPA_SPEED) * KoopaHDR1_07.direction k))
    by congruence.
  assert (Hw : width (KoopaHDR1_07.rect
                        (KoopaHDR1_07.vertical_sweep (KoopaHDR1_07.tiles tm)
                           (KoopaHDR1_07.k_ent k4)))
               = width (KoopaHDR1_07.rect (KoopaHDR1_07.k_ent k))) by congruence.
  assert (Hh : height (KoopaHDR1_07.rect
                         (KoopaHDR1_07.vertical_sweep (KoopaHDR1_07.tiles tm)
                            (KoopaHDR1_07.k_ent k4)))
               = height (KoopaHDR1_07.rect (KoopaHDR1_07.k_ent k))) by congruence.
  revert Hv Hw Hh.
  generalize (KoopaHDR1_07.vertical_sweep (KoopaHDR1_07.tiles tm) (KoopaHDR1_07.k_ent k4)).
  intros e5 Hv Hw Hh.
  unfold KoopaHDR1_07.Koopa_shell_tick.
  cbn [KoopaHDR1_07.shell KoopaHDR1_07.k_set_ent KoopaHDR1_07.k_shell_timer
       KoopaHDR1_07.direction KoopaHDR1_07.k_ent].
  rewrite Hs, Ht.
  destruct (KoopaHDR1_07.shell k);
    [destruct (KoopaHDR1_07.k_shell_timer k - 1 <=? 0)|];
    cbn [KoopaHDR1_07.shell KoopaHDR1_07.k_set_ent KoopaHDR1_07.k_shell_timer
         KoopaHDR1_07.direction KoopaHDR1_07.k_ent];
    repeat split; try assumption; congruence.
Qed.

(** X7.  [Koopa.update] sets the enemy's velocity.x afresh in every frame:
    2 times its direction when it walks, 10 times its direction when it is
    in its shell, with the direction it had when the frame started.  So an
    enemy that [stomp] has just stopped (velocity.x 0) slides at shell
    speed from the next frame on; its box keeps its size and its direction
    is at most reversed. *)
Theorem X7_koopa_speed_each_frame (tm : KoopaHDR1_07.TileMap) (k : KoopaHDR1_07.Koopa) :
  KoopaHDR1_07.k_vx (KoopaHDR1_07.Koopa_update tm k)
  = inject_Z ((if KoopaHDR1_07.shell k then 10 else 2) * KoopaHDR1_07.direction k)
  /\ KoopaHDR1_07.k_vx (KoopaHDR1_07.stomp k) = 0%Q
  /\ KoopaHDR1_07.k_vx (KoopaHDR1_07.Koopa_update tm (KoopaHDR1_07.stomp k))
     = inject_Z (10 * KoopaHDR1_07.direction k)
  /\ width (KoopaHDR1_07.k_rect (KoopaHDR1_07.Koopa_update tm k))
     = width (KoopaHDR1_07.k_rect k)
  /\ height (KoopaHDR1_07.k_rect (KoopaHDR1_07.Koopa_update tm k))
     = height (KoopaHDR1_07.k_rect k)
  /\ (KoopaHDR1_07.direction (KoopaHDR1_07.Koopa_update tm k) = KoopaHDR1_07.direction k
      \/ KoopaHDR1_07.direction (KoopaHDR1_07.Koopa_update tm k)
         = KoopaHDR1_07.direction k * -1).
Proof.
  destruct (hdr_koopa_update_fields tm k) as (Hv & _ & Hw & Hh & Hd).
  destruct (hdr_koopa_update_fields tm (KoopaHDR1_07.stomp k)) as (Hv' & _).
  repeat split; try assumption.
Qed.

Lemma hdr_koopa_shell_run (tm : KoopaHDR1_07.TileMap) (n : nat) :
  forall (k : KoopaHDR1_07.Koopa),
    KoopaHDR1_07.shell k = true ->
    Z.of_nat n < KoopaHDR1_07.k_shell_timer k ->
    KoopaHDR1_07.shell (hdr_koopa_run tm n k) = true
    /\ KoopaHDR1_07.k_shell_timer (hdr_koopa_run tm n k)
       = KoopaHDR1_07.k_shell_timer k - Z.of_nat n.
Proof.
  unfold hdr_koopa_run.
  induction n as [|n IH]; intros k Hs Ht.
  - cbn. split; [assumption|lia].
  - destruct (IH k Hs) as (Hs' & Ht'); [lia|].
    cbn [Nat.iter nat_rect].
    destruct (hdr_koopa_update_fields tm (Nat.iter n (KoopaHDR1_07.Koopa_update tm) k))
      as (_ & Hm & _).
    rewrite Hs', Ht' in Hm.
    destruct (Z.leb_spec (KoopaHDR1_07.k_shell_timer k - Z.of_nat n - 1) 0); [lia|].
    injection Hm as Ha Hb. split; [exact Ha|].
    etransitivity; [exact Hb|lia].
Qed.

Lemma hdr_koopa_shell_ends (tm : KoopaHDR1_07.TileMap) (n : nat)
    (k : KoopaHDR1_07.Koopa) :
  KoopaHDR1_07.shell k = true ->
  KoopaHDR1_07.k_shell_timer k = Z.of_nat (S n) ->
  KoopaHDR1_07.shell (hdr_koopa_run tm (S n) k) = false.
Proof.
  intros Hs Ht.
  destruct (hdr_koopa_shell_run tm n k Hs) as (Hs' & Ht'); [lia|].
  unfold hdr_koopa_run in *. cbn [Nat.iter nat_rect].
  destruct (hdr_koopa_update_fields tm (Nat.iter n (KoopaHDR1_07.Koopa_update tm) k))
    as (_ & Hm & _).
  rewrite Hs', Ht' in Hm.
  destruct (Z.leb_spec (KoopaHDR1_07.k_shell_timer k - Z.of_nat n - 1) 0); [|lia].
  injection Hm as Ha Hb. exact Ha.
Qed.

Lemma hdr_koopa_walks_on (tm : KoopaHDR1_07.TileMap) (n : nat)
    (k : KoopaHDR1_07.Koopa) :
  KoopaHDR1_07.shell k = false ->
  KoopaHDR1_07.shell (hdr_koopa_run tm n k) = false.
Proof.
  intro Hs. unfold hdr_koopa_run.
  induction n as [|n IH]; [exact Hs|].
  cbn [Nat.iter nat_rect].
  destruct (hdr_koopa_update_fields tm (Nat.iter n (KoopaHDR1_07.Koopa_update tm) k))
    as (_ & Hm & _).
  rewrite IH in Hm. injection Hm as Ha Hb. exact Ha.
Qed.

(** X8.  The enemy's shell is timed by [Koopa.update] alone.  After
    [stomp] the enemy is in its shell for the next 179 updates and out of it
    after the 180th; after [kick] for 299 updates and out after the 300th;
    an enemy that is not in its shell stays out of it, whatever the tiles
    are. *)
Theorem X8_koopa_shell_duration (tm : KoopaHDR1_07.TileMap)
    (k : KoopaHDR1_07.Koopa) (d : Z) (n : nat) :
  ((n < 180)%nat ->
   KoopaHDR1_07.shell (hdr_koopa_run tm n (KoopaHDR1_07.stomp k)) = true)
  /\ KoopaHDR1_07.shell (hdr_koopa_run tm 180 (KoopaHDR1_07.stomp k)) = false
  /\ ((n < 300)%nat ->
      KoopaHDR1_07.shell (hdr_koopa_run tm n (KoopaHDR1_07.kick k d)) = true)
  /\ KoopaHDR1_07.shell (hdr_koopa_run tm 300 (KoopaHDR1_07.kick k d)) = false
  /\ (KoopaHDR1_07.shell k = false ->
      KoopaHDR1_07.shell (hdr_koopa_run tm n k) = false).
Proof.
  repeat split.
  - intro Hn. apply hdr_koopa_shell_run; [reflexivity|].
    change (KoopaHDR1_07.k_shell_timer (KoopaHDR1_07.stomp k)) with 180. lia.
  - apply (hdr_koopa_shell_ends tm 179); reflexivity.
  - intro Hn. apply hdr_koopa_shell_run; [reflexivity|].
    change (KoopaHDR1_07.k_shell_timer (KoopaHDR1_07.kick k d)) with 300. lia.
  - apply (hdr_koopa_shell_ends tm 299); reflexivity.
  - apply hdr_koopa_walks_on.
Qed.

Lemma X8_koopa_shell_duration_witness :
  let tm := hdr_tile_map_of floor_level in
  let k := koopa_at 32 0 in
  KoopaHDR1_07.shell (hdr_koopa_run tm 179 (KoopaHDR1_07.stomp k)) = true
  /\ KoopaHDR1_07.shell (hdr_koopa_run tm 299 (KoopaHDR1_07.kick k 1)) = true
  /\ KoopaHDR1_07.shell (hdr_koopa_run tm 5 k) = false.
Proof.
  intros tm k.
  destruct (X8_koopa_shell_duration tm k 1 179) as (H1 & _ & _ & _ & _).
  destruct (X8_koopa_shell_duration tm k 1 299) as (_ & _ & H2 & _ & _).
  destruct (X8_koopa_shell_duration tm k 1 5) as (_ & _ & _ & _ & H3).
  split; [apply H1; vm_compute; lia|].
  split; [apply H2; vm_compute; lia|].
  apply H3. reflexivity.
Defined.

(** ** Grounding *)

Lemma set_y_same (r : Rect) : set_y r (y r) = r.
Proof. destruct r. reflexivity. Qed.

Lemma set_x_same (r : Rect) : set_x r (x r) = r.
Proof. destruct r. reflexivity. Qed.

Lemma find_none_of_free (r : Rect) (tl : list Rect) :
  overlaps_none r tl = true -> find (fun t => colliderect r t) tl = None.
Proof.
  intro H. rewrite overlaps_none_spec in H.
  destruct (find (fun t => colliderect r t) tl) as [t|] eqn:F; [|reflexivity].
  apply find_some in F. destruct F as [Hin Hc].
  rewrite (H t Hin) in Hc. discriminate.
Qed.

Lemma find_some_of_overlap (r : Rect) (tl : list Rect) :
  overlaps_none r tl = false ->
  exists t, find (fun t => colliderect r t) tl = Some t.
Proof.
  intro H.
  destruct (find (fun t => colliderect r t) tl) as [t|] eqn:F; [eexists; reflexivity|].
  exfalso. assert (Hn : overlaps_none r tl = true).
  { apply overlaps_none_spec. intros t Hin. exact (find_none _ _ F t Hin). }
  congruence.
Qed.

(** X9.  A body whose velocity.y is exactly zero is not moved by the
    vertical sweep and comes out of it with [on_ground] false, whatever
    tiles are under it or overlap it: grounding needs a downward
    velocity. *)
Theorem X9_zero_velocity_never_grounded (tl : list Rect) (e : KoopaHDR1_07.Entity) :
  (vy (KoopaHDR1_07.vel e) == 0)%Q ->
  KoopaHDR1_07.vertical_sweep tl e = KoopaHDR1_07.set_on_ground e false.
Proof.
  intro Hq. unfold KoopaHDR1_07.vertical_sweep.
  assert (Hy : round_coord (inject_Z (y (KoopaHDR1_07.rect e)) + vy (KoopaHDR1_07.vel e))
               = y (KoopaHDR1_07.rect e)).
  { assert (A : (inject_Z 0 <= vy (KoopaHDR1_07.vel e))%Q)
      by (rewrite Hq; apply Qle_refl).
    assert (B : (vy (KoopaHDR1_07.vel e) <= inject_Z 0)%Q)
      by (rewrite Hq; apply Qle_refl).
    pose proof (round_coord_between (y (KoopaHDR1_07.rect e)) 0 0 _ A B) as H. lia. }
  unfold add_y. rewrite Hy, set_y_same.
  replace (KoopaHDR1_07.set_rect e (KoopaHDR1_07.rect e)) with e by (destruct e; reflexivity).
  unfold KoopaHDR1_07.check_collisions_y.
  apply check_collisions_y_idle; cbn [KoopaHDR1_07.vel KoopaHDR1_07.set_on_ground];
    destruct (Qcmp_cases (vy (KoopaHDR1_07.vel e))) as [(G & H)|[(G & L & H)|(G & L & H)]];
    try assumption; exfalso; rewrite Hq in H; exact (Qlt_irrefl _ H).
Qed.

Lemma X9_zero_velocity_never_grounded_witness :
  let tl := KoopaHDR1_07.tiles (hdr_tile_map_of floor_level) in
  let e := KoopaHDR1_07.mkEntity (mkRect 32 0 32 32) (mkVec 0 0) true in
  KoopaHDR1_07.on_ground (KoopaHDR1_07.vertical_sweep tl e) = false.
Proof.
  intros tl e.
  rewrite (X9_zero_velocity_never_grounded tl e); [reflexivity|].
  reflexivity.
Defined.

(** A frame without keys, outside shell mode, in the open: only gravity and
    the vertical sweep act, and velocity.x is zero. *)
Lemma hdr_idle_frame (tm : KoopaHDR1_07.TileMap) (r : Rect) (v : Vector2)
    (g : bool) (st ds : Z) :
  overlaps_none r (KoopaHDR1_07.tiles tm) = true ->
  let e1 := KoopaHDR1_07.apply_gravity (KoopaHDR1_07.mkEntity r v g) in
  KoopaHDR1_07.Player_update tm hdr_no_keys
    (KoopaHDR1_07.mkPlayer (KoopaHDR1_07.mkEntity r v g) false st ds)
  = KoopaHDR1_07.mkPlayer
      (KoopaHDR1_07.vertical_sweep (KoopaHDR1_07.tiles tm)
         (KoopaHDR1_07.mkEntity r (mkVec 0 (vy (KoopaHDR1_07.vel e1))) g))
      false st ds.
Proof.
  intros Hfree e1.
  destruct (apply_gravity_keeps (KoopaHDR1_07.mkEntity r v g)) as (Hr & Hg & _).
  fold e1 in Hr, Hg. cbn [KoopaHDR1_07.rect KoopaHDR1_07.on_ground] in Hr, Hg.
  unfold KoopaHDR1_07.Player_update.
  cbn [KoopaHDR1_07.p_ent KoopaHDR1_07.p_set_ent]. fold e1.
  clearbody e1. destruct e1 as [r1 [vx1 vy1] g1]. cbn in Hr, Hg. subst r1 g1.
  unfold KoopaHDR1_07.Player_movement, KoopaHDR1_07.Player_jump,
    KoopaHDR1_07.Player_enter_shell, KoopaHDR1_07.Player_shell_tick, hdr_no_keys,
    KoopaHDR1_07.Player_horizontal_sweep.
  cbn -[KoopaHDR1_07.check_collisions_x KoopaHDR1_07.vertical_sweep add_x Z.mul Qplus].
  rewrite Z.mul_0_r.
  assert (Hx : add_x r (0 + inject_Z 0) = r).
  { unfold add_x. change (0 + inject_Z 0)%Q with (inject_Z 0).
    rewrite round_coord_inject_Z, Z.add_0_r. apply set_x_same. }
  rewrite Hx, check_collisions_x_first.
  unfold KoopaHDR1_07.set_rect, KoopaHDR1_07.set_vel, KoopaHDR1_07.p_set_vx,
    KoopaHDR1_07.p_set_ent, set_vx.
  cbn [KoopaHDR1_07.rect KoopaHDR1_07.vel KoopaHDR1_07.on_ground vx vy
       KoopaHDR1_07.p_ent KoopaHDR1_07.shell_state KoopaHDR1_07.shell_timer
       KoopaHDR1_07.dash_speed].
  rewrite (find_none_of_free r _ Hfree). reflexivity.
Qed.

Lemma round_coord_half (z : Z) :
  0 <= z -> round_coord (inject_Z z + (0 + (1 # 2))) = z + 1.
Proof.
  intro H. unfold round_coord.
  assert (E : Qle_bool 0 (inject_Z z + (0 + (1 # 2))) = true).
  { apply Qle_bool_iff. unfold Qle. cbn. lia. }
  rewrite E.
  rewrite (Qfloor_comp _ (inject_Z (z + 1))); [apply Qfloor_Z|].
  unfold Qeq. cbn. lia.
Qed.

Lemma round_coord_one (z : Z) :
  round_coord (inject_Z z + (0 + (1 # 2) + (1 # 2))) = z + 1.
Proof.
  assert (A : (inject_Z 1 <= 0 + (1 # 2) + (1 # 2))%Q) by (unfold Qle; cbn; lia).
  assert (B : (0 + (1 # 2) + (1 # 2) <= inject_Z 1)%Q) by (unfold Qle; cbn; lia).
  pose proof (round_coord_between z 1 1 _ A B). lia.
Qed.

(** One frame of a player resting on a tile. *)
Lemma hdr_resting_frame (tm : KoopaHDR1_07.TileMap) (r : Rect) (vx0 : Q)
    (g : bool) (st ds : Z) :
  forallb grid_tile (KoopaHDR1_07.tiles tm) = true ->
  0 < width r -> 0 < height r -> 0 <= y r ->
  overlaps_none r (KoopaHDR1_07.tiles tm) = true ->
  overlaps_none (set_y r (y r + 1)) (KoopaHDR1_07.tiles tm) = false ->
  KoopaHDR1_07.Player_update tm hdr_no_keys
    (KoopaHDR1_07.mkPlayer (KoopaHDR1_07.mkEntity r (mkVec vx0 0) g) false st ds)
  = KoopaHDR1_07.mkPlayer (KoopaHDR1_07.mkEntity r (mkVec 0 0) true) false st ds.
Proof.
  intros Hgrid Hw Hh Hy Hfree Hsup.
  rewrite hdr_idle_frame by exact Hfree.
  f_equal.
  change (vy (KoopaHDR1_07.vel (KoopaHDR1_07.apply_gravity
               (KoopaHDR1_07.mkEntity r (mkVec vx0 0) g))))
    with (0 + (1 # 2))%Q.
  unfold KoopaHDR1_07.vertical_sweep, add_y, KoopaHDR1_07.set_rect.
  cbn [KoopaHDR1_07.rect KoopaHDR1_07.vel vy KoopaHDR1_07.on_ground].
  rewrite round_coord_half by exact Hy.
  rewrite check_collisions_y_first. cbn [KoopaHDR1_07.rect].
  destruct (find_some_of_overlap _ _ Hsup) as [t Ft].
  rewrite Ft. apply find_some in Ft. destruct Ft as [Hin Hc].
  unfold KoopaHDR1_07.check_collisions_y_step.
  cbn [KoopaHDR1_07.rect KoopaHDR1_07.set_on_ground KoopaHDR1_07.vel vy
       KoopaHDR1_07.set_rect KoopaHDR1_07.set_vel set_vy vx].
  rewrite Hc.
  replace (Qgtb (0 + (1 # 2)) 0) with true by reflexivity.
  cbn [KoopaHDR1_07.set_on_ground KoopaHDR1_07.rect KoopaHDR1_07.vel].
  f_equal.
  assert (Hgt : grid_tile t = true).
  { rewrite forallb_forall in Hgrid. exact (Hgrid t Hin). }
  assert (Hft : colliderect r t = false).
  { rewrite overlaps_none_spec in Hfree. exact (Hfree t Hin). }
  destruct r as [x0 y0 w0 h0], t as [tx ty tw th].
  rect_simpl. overlap_facts. rect_simpl.
  destruct Hgt as (-> & -> & _ & _).
  unfold KoopaHDR1_07.set_on_ground, KoopaHDR1_07.set_vel, KoopaHDR1_07.set_rect,
    set_vy.
  cbn [KoopaHDR1_07.rect KoopaHDR1_07.vel KoopaHDR1_07.on_ground vx vy
       x y width height].
  assert (Ety : ty - h0 = y0) by lia.
  rewrite Ety. reflexivity.
Qed.

(** X10.  A player that rests on a tile (velocity.y zero, no keys, not in
    shell mode, box free, at y >= 0 and with a solid right under it) is
    reported grounded after every frame.  Gravity gives velocity.y = 0.5,
    the move of half a pixel is rounded to one pixel down, into the tile,
    which snaps the box back, zeroes velocity.y and sets [on_ground].  The
    player is then where it was, with zero velocity, so this repeats in
    every later frame. *)
Theorem X10_resting_player_stays_grounded (tm : KoopaHDR1_07.TileMap)
    (p : KoopaHDR1_07.Player) :
  forallb grid_tile (KoopaHDR1_07.tiles tm) = true ->
  KoopaHDR1_07.shell_state p = false ->
  0 < width (KoopaHDR1_07.p_rect p) -> 0 < height (KoopaHDR1_07.p_rect p) ->
  0 <= y (KoopaHDR1_07.p_rect p) ->
  KoopaHDR1_07.p_vy p = 0%Q ->
  overlaps_none (KoopaHDR1_07.p_rect p) (KoopaHDR1_07.tiles tm) = true ->
  overlaps_none (set_y (KoopaHDR1_07.p_rect p) (y (KoopaHDR1_07.p_rect p) + 1))
                (KoopaHDR1_07.tiles tm) = false ->
  forall n : nat,
    let pn := Nat.iter (S n) (KoopaHDR1_07.Player_update tm hdr_no_keys) p in
    KoopaHDR1_07.p_rect pn = KoopaHDR1_07.p_rect p
    /\ KoopaHDR1_07.on_ground (KoopaHDR1_07.p_ent pn) = true
    /\ KoopaHDR1_07.p_vy pn = 0%Q
    /\ KoopaHDR1_07.p_vx pn = 0%Q
    /\ p_mode pn = p_mode p.
Proof.
  intros Hgrid Hs Hw Hh Hy Hv Hfree Hsup n.
  destruct p as [[r [vx0 vy0] g] ss st ds].
  unfold KoopaHDR1_07.p_rect, KoopaHDR1_07.p_vy, KoopaHDR1_07.p_vx, p_mode in *.
  cbn [KoopaHDR1_07.p_ent KoopaHDR1_07.rect KoopaHDR1_07.vel vy
       KoopaHDR1_07.shell_state] in Hs, Hw, Hh, Hy, Hv, Hfree, Hsup.
  subst ss vy0.
  assert (E : Nat.iter (S n) (KoopaHDR1_07.Player_update tm hdr_no_keys)
                (KoopaHDR1_07.mkPlayer (KoopaHDR1_07.mkEntity r (mkVec vx0 0) g)
                   false st ds)
              = KoopaHDR1_07.mkPlayer (KoopaHDR1_07.mkEntity r (mkVec 0 0) true)
                  false st ds).
  { induction n as [|n IH].
    - cbn [Nat.iter nat_rect]. apply hdr_resting_frame; assumption.
    - change (Nat.iter (S (S n)) (KoopaHDR1_07.Player_update tm hdr_no_keys)
                (KoopaHDR1_07.mkPlayer (KoopaHDR1_07.mkEntity r (mkVec vx0 0) g)
                   false st ds))
        with (KoopaHDR1_07.Player_update tm hdr_no_keys
                (Nat.iter (S n) (KoopaHDR1_07.Player_update tm hdr_no_keys)
                   (KoopaHDR1_07.mkPlayer (KoopaHDR1_07.mkEntity r (mkVec vx0 0) g)
                      false st ds))).
      rewrite IH. apply hdr_resting_frame; assumption. }
  cbv zeta. rewrite E. cbn. repeat split.
Qed.

(** A player on the floor of [floor_level], after one and after two
    frames. *)
Lemma X10_resting_player_stays_grounded_witness :
  let tm := hdr_tile_map_of floor_level in
  let p := KoopaHDR1_07.mkPlayer
             (KoopaHDR1_07.mkEntity (mkRect 40 0 32 32) (mkVec 0 0) true) false 0 0 in
  KoopaHDR1_07.on_ground
    (KoopaHDR1_07.p_ent (KoopaHDR1_07.Player_update tm hdr_no_keys p)) = true
  /\ KoopaHDR1_07.on_ground
       (KoopaHDR1_07.p_ent
          (KoopaHDR1_07.Player_update tm hdr_no_keys
             (KoopaHDR1_07.Player_update tm hdr_no_keys p))) = true.
Proof.
  intros tm p.
  assert (H : forallb grid_tile (KoopaHDR1_07.tiles tm) = true) by reflexivity.
  pose proof (X10_resting_player_stays_grounded tm p H eq_refl eq_refl eq_refl
                (Z.le_refl 0) eq_refl eq_refl eq_refl) as R.
  split; [exact (proj1 (proj2 (R 0%nat)))|exact (proj1 (proj2 (R 1%nat)))].
Defined.

(** ** Coins *)

Lemma fold_add_50 {A : Type} (l : list A) :
  forall sc : Z, fold_left (fun acc _ => acc + 50) l sc = sc + 50 * len l.
Proof.
  unfold len. induction l as [|a l IH]; intro sc; cbn [fold_left List.length].
  - lia.
  - rewrite IH. lia.
Qed.

Lemma filter_neg_twice {A : Type} (f : A -> bool) (l : list A) :
  filter f (filter (fun a => negb (f a)) l) = []
  /\ filter (fun a => negb (f a)) (filter (fun a => negb (f a)) l)
     = filter (fun a => negb (f a)) l.
Proof.
  induction l as [|a l [IH1 IH2]]; cbn; [split; reflexivity|].
  destruct (f a) eqn:E; cbn; [split; assumption|].
  rewrite E. cbn. split; [assumption|f_equal; assumption].
Qed.

Lemma filter_split_length {A : Type} (f : A -> bool) (l : list A) :
  (List.length (filter (fun a => negb (f a)) l) + List.length (filter f l))%nat
  = List.length l.
Proof.
  induction l as [|a l IH]; cbn; [reflexivity|].
  destruct (f a); cbn; lia.
Qed.

(** X11.  Coins are collected exactly once.  The coin step of
    [GameManager.update] adds 50 for every coin whose box collides with the
    player's, removes those coins and keeps the others in order; no coin
    that is left collides with the player, so running the step again for
    the same player removes nothing and adds nothing. *)
Theorem X11_coins_collected_once (p : KoopaHDR1_07.Player)
    (cs : list KoopaHDR1_07.Coin) (sc sc' : Z) :
  let hit := fun c => colliderect (KoopaHDR1_07.p_rect p) (KoopaHDR1_07.rect c) in
  let r := KoopaHDR1_07.collect_coins p cs sc in
  snd r = sc + 50 * len (filter hit cs)
  /\ fst r = filter (fun c => negb (hit c)) cs
  /\ len (fst r) + len (filter hit cs) = len cs
  /\ forallb (fun c => negb (hit c)) (fst r) = true
  /\ KoopaHDR1_07.collect_coins p (fst r) sc' = (fst r, sc').
Proof.
  intros hit r. unfold r, KoopaHDR1_07.collect_coins. cbn [fst snd]. fold hit.
  split; [apply fold_add_50|].
  split; [reflexivity|].
  split.
  - unfold len. rewrite <- Nat2Z.inj_add. f_equal.
    exact (filter_split_length hit cs).
  - split.
    + apply forallb_forall. intros c Hc. apply filter_In in Hc. tauto.
    + destruct (filter_neg_twice hit cs) as [H1 H2].
      unfold KoopaHDR1_07.collect_coins, hit in *. cbn beta in *.
      rewrite H1, H2. reflexivity.
Qed.

(** ** Enemies and lives *)


Lemma hdr_encounter_keeps (k : KoopaHDR1_07.Koopa) (s : KoopaHDR1_07.Enc) :
  let r := KoopaHDR1_07.encounter k s in
  KoopaHDR1_07.k_rect (fst (fst r)) = KoopaHDR1_07.k_rect k
  /\ KoopaHDR1_07.e_lives (snd (fst r)) <= KoopaHDR1_07.e_lives s
  /\ (snd r = true -> KoopaHDR1_07.e_lives (snd (fst r)) <= 0).
Proof.
  unfold KoopaHDR1_07.encounter.
  destruct (KoopaHDR1_07.stomp_test _ k); [cbn; repeat split; try lia; discriminate|].
  destruct (KoopaHDR1_07.shell_state _); [cbn; repeat split; try lia; discriminate|].
  destruct (Z.leb_spec (KoopaHDR1_07.e_lives s - 1) 0); cbn; repeat split;
    try lia; discriminate.
Qed.

Lemma hdr_enemy_loop_keeps (pr0 : Rect) (ks : list KoopaHDR1_07.Koopa) :
  forall s : KoopaHDR1_07.Enc,
    let r := KoopaHDR1_07.enemy_loop pr0 ks s in
    map KoopaHDR1_07.k_rect (fst (fst r)) = map KoopaHDR1_07.k_rect ks
    /\ KoopaHDR1_07.e_lives (snd (fst r)) <= KoopaHDR1_07.e_lives s
    /\ (snd r = true -> KoopaHDR1_07.e_lives (snd (fst r)) <= 0).
Proof.
  induction ks as [|k ks IH]; intro s; cbn [KoopaHDR1_07.enemy_loop].
  - cbn. repeat split; try lia; try discriminate.
  - destruct (colliderect pr0 (KoopaHDR1_07.k_rect k)).
    + destruct (hdr_encounter_keeps k s) as (Hr & Hl & Hs).
      destruct (KoopaHDR1_07.encounter k s) as [[k1 s1] stop].
      cbn [fst snd] in Hr, Hl, Hs.
      destruct stop.
      * cbn. repeat split; [f_equal; assumption|assumption|intros _; auto].
      * destruct (IH s1) as (Hr' & Hl' & Hs').
        destruct (KoopaHDR1_07.enemy_loop pr0 ks s1) as [[ks2 s2] stop2].
        cbn [fst snd map] in *. repeat split; [congruence|lia|assumption].
    + destruct (IH s) as (Hr' & Hl' & Hs').
      destruct (KoopaHDR1_07.enemy_loop pr0 ks s) as [[ks2 s2] stop2].
      cbn [fst snd map] in *. repeat split; [congruence|lia|assumption].
Qed.

(** X12.  The encounter loop of [KoopaHDR1.07.31.251.0X.py] never removes
    an enemy and never moves one (the boxes of the enemies are the same,
    in the same order, after the loop), never gives a life back, and ends
    [update] early (return False) only with no life left. *)
Theorem X12_enemy_loop_keeps_enemies (pr0 : Rect) (ks : list KoopaHDR1_07.Koopa)
    (s : KoopaHDR1_07.Enc) :
  let r := KoopaHDR1_07.enemy_loop pr0 ks s in
  map KoopaHDR1_07.k_rect (fst (fst r)) = map KoopaHDR1_07.k_rect ks
  /\ List.length (fst (fst r)) = List.length ks
  /\ KoopaHDR1_07.e_lives (snd (fst r)) <= KoopaHDR1_07.e_lives s
  /\ (snd r = true -> KoopaHDR1_07.e_lives (snd (fst r)) <= 0).
Proof.
  intro r. destruct (hdr_enemy_loop_keeps pr0 ks s) as (Hr & Hl & Hs).
  fold r in Hr, Hl, Hs.
  repeat split; try assumption.
  rewrite <- (length_map KoopaHDR1_07.k_rect (fst (fst r))), Hr.
  apply length_map.
Qed.

Lemma X12_enemy_loop_keeps_enemies_witness :
  let p := KoopaHDR1_07.Player_init 100 192 in
  let r := KoopaHDR1_07.enemy_loop (KoopaHDR1_07.p_rect p) [koopa_at 110 192]
             (KoopaHDR1_07.mkEnc p 0 1) in
  snd r = true /\ KoopaHDR1_07.e_lives (snd (fst r)) <= 0.
Proof.
  intros p r.
  destruct (X12_enemy_loop_keeps_enemies (KoopaHDR1_07.p_rect p) [koopa_at 110 192]
              (KoopaHDR1_07.mkEnc p 0 1)) as (_ & _ & _ & H).
  split; [reflexivity|]. apply H. reflexivity.
Defined.





(** ** Loading a level *)

Lemma old_load_cell_grid (cy : Z) acc cell :
  old_grid_acc acc -> old_grid_acc (Koopahdr.load_cell TILE_SIZE cy acc cell).
Proof.
  destruct acc as [[tl cl] kl], cell as [cx c]. unfold old_grid_acc, Koopahdr.load_cell.
  intro H. simpl in H.
  destruct (Ascii.eqb c chr_hash); [|destruct (Ascii.eqb c chr_C);
    [|destruct (Ascii.eqb c chr_K)]]; simpl; try assumption.
  apply Forall_app. split; [assumption|].
  constructor; [|constructor].
  apply grid_tile_spec. unfold TILE_SIZE. simpl.
  rewrite !Z.mod_mul by lia. repeat split.
Qed.

Lemma old_load_tiles_grid (d : list string) (tm : Koopahdr.TileMap) :
  Koopahdr.TileMap_init d = Ok tm ->
  forallb grid_tile (Koopahdr.tiles (Koopahdr.load_tiles tm)) = true.
Proof.
  intro Hinit. destruct d as [|row0 d']; [discriminate|].
  injection Hinit as <-.
  unfold Koopahdr.load_tiles. cbn [Koopahdr.tile_size Koopahdr.data].
  assert (Hrow : forall cells cy acc, old_grid_acc acc ->
                   old_grid_acc (fold_left (Koopahdr.load_cell TILE_SIZE cy) cells acc)).
  { induction cells as [|c cells IH]; intros cy acc Ha; simpl; [assumption|].
    apply IH. apply old_load_cell_grid. assumption. }
  assert (H : forall rows acc, old_grid_acc acc ->
                old_grid_acc (fold_left (Koopahdr.load_row TILE_SIZE) rows acc)).
  { induction rows as [|r rows IH]; intros acc Ha; simpl; [assumption|].
    apply IH. unfold Koopahdr.load_row. apply Hrow. assumption. }
  specialize (H (enumerate 0 (row0 :: d')) ([], [], []) (Forall_nil _)).
  destruct (fold_left (Koopahdr.load_row TILE_SIZE) (enumerate 0 (row0 :: d')) ([], [], []))
    as [[tl cl] kl].
  cbn [Koopahdr.tiles]. unfold old_grid_acc in H. simpl in H.
  apply forallb_forall. rewrite Forall_forall in H. exact H.
Qed.

(** X14.  In both files every solid [load_tiles] makes is a 32 by 32
    square whose corner lies on the 32-pixel lattice, for any rows
    (rectangular or not), and calling [load_tiles] again gives the same
    tile map: the lists are rebuilt, not extended. *)
Theorem X14_load_tiles_lattice :
  (forall d tm,
      KoopaHDR1_07.TileMap_init d = Ok tm ->
      forallb grid_tile (KoopaHDR1_07.tiles (KoopaHDR1_07.load_tiles tm)) = true
      /\ KoopaHDR1_07.load_tiles (KoopaHDR1_07.load_tiles tm)
         = KoopaHDR1_07.load_tiles tm)
  /\ (forall d tm,
         Koopahdr.TileMap_init d = Ok tm ->
         forallb grid_tile (Koopahdr.tiles (Koopahdr.load_tiles tm)) = true
         /\ Koopahdr.load_tiles (Koopahdr.load_tiles tm) = Koopahdr.load_tiles tm).
Proof.
  split; intros d tm H.
  - split; [exact (load_tiles_grid d tm H)|].
    destruct tm as [dt ts w h tl cl kl].
    unfold KoopaHDR1_07.load_tiles at 2 3.
    cbn [KoopaHDR1_07.data KoopaHDR1_07.tile_size].
    remember (fold_left (KoopaHDR1_07.load_row ts) (enumerate 0 dt) ([], [], []))
      as F eqn:EF.
    destruct F as [[a b] c]. unfold KoopaHDR1_07.load_tiles.
    cbn [KoopaHDR1_07.data KoopaHDR1_07.tile_size KoopaHDR1_07.tm_width
         KoopaHDR1_07.tm_height].
    rewrite <- EF. reflexivity.
  - split; [exact (old_load_tiles_grid d tm H)|].
    destruct tm as [dt ts w h tl cl kl].
    unfold Koopahdr.load_tiles at 2 3.
    cbn [Koopahdr.data Koopahdr.tile_size].
    remember (fold_left (Koopahdr.load_row ts) (enumerate 0 dt) ([], [], []))
      as F eqn:EF.
    destruct F as [[a b] c]. unfold Koopahdr.load_tiles.
    cbn [Koopahdr.data Koopahdr.tile_size Koopahdr.tm_width Koopahdr.tm_height].
    rewrite <- EF. reflexivity.
Qed.

Lemma X14_load_tiles_lattice_witness :
  forallb grid_tile (KoopaHDR1_07.tiles (hdr_tile_map_of KoopaHDR1_07.LEVEL_1_2)) = true
  /\ forallb grid_tile (Koopahdr.tiles (tile_map_of placeholder_level)) = true.
Proof.
  split.
  - exact (proj1 (proj1 X14_load_tiles_lattice KoopaHDR1_07.LEVEL_1_2 _ eq_refl)).
  - exact (proj1 (proj2 X14_load_tiles_lattice placeholder_level _ eq_refl)).
Defined.







(** ** Enemies stay out of the tiles *)

Lemma vertical_sweep_vy (tl : list Rect) (e : KoopaHDR1_07.Entity) :
  vy (KoopaHDR1_07.vel (KoopaHDR1_07.vertical_sweep tl e)) = vy (KoopaHDR1_07.vel e)
  \/ vy (KoopaHDR1_07.vel (KoopaHDR1_07.vertical_sweep tl e)) = 0%Q.
Proof.
  unfold KoopaHDR1_07.vertical_sweep. rewrite check_collisions_y_first.
  destruct (find _ tl); [|left; reflexivity].
  unfold KoopaHDR1_07.check_collisions_y_step.
  cbn [KoopaHDR1_07.rect KoopaHDR1_07.set_rect KoopaHDR1_07.set_on_ground
       KoopaHDR1_07.set_vel KoopaHDR1_07.vel].
  repeat match goal with
  | |- context [if ?c then _ else _] => destruct c
  end; cbn; auto.
Qed.

(** The horizontal part of [Koopa.update] keeps a free enemy free. *)
Lemma hdr_koopa_horizontal_free (tl : list Rect) (k : KoopaHDR1_07.Koopa) (v : Z) :
  forallb grid_tile tl = true ->
  0 < width (KoopaHDR1_07.k_rect k) -> 0 < height (KoopaHDR1_07.k_rect k) ->
  overlaps_none (KoopaHDR1_07.k_rect k) tl = true ->
  KoopaHDR1_07.k_vx k = inject_Z v -> v <> 0 -> -32 <= v <= 32 ->
  overlaps_none
    (KoopaHDR1_07.k_rect (fst (KoopaHDR1_07.Koopa_horizontal tl k))) tl = true.
Proof.
  intros Hgrid Hw Hh Hfree Hv Hv0 Hvb.
  unfold KoopaHDR1_07.Koopa_horizontal. rewrite hdr_wall_loop_first.
  unfold KoopaHDR1_07.k_rect, KoopaHDR1_07.k_vx in *.
  cbn [KoopaHDR1_07.k_ent KoopaHDR1_07.k_set_ent KoopaHDR1_07.rect
       KoopaHDR1_07.set_rect KoopaHDR1_07.vel].
  unfold add_x. rewrite Hv, round_coord_inject_Z.
  set (r := KoopaHDR1_07.rect (KoopaHDR1_07.k_ent k)) in *.
  assert (Hin : forall t, In t tl -> grid_tile t = true).
  { intros t Ht. rewrite forallb_forall in Hgrid. auto. }
  pose proof Hfree as Hfree'. rewrite overlaps_none_spec in Hfree'.
  destruct (find (fun t => colliderect (set_x r (x r + v)) t) tl) as [t|] eqn:F.
  - apply find_some in F. destruct F as [Ht Hc].
    assert (G : Qgtb (inject_Z v) 0 = true <-> 0 < v).
    { rewrite Qgtb_true. unfold Qlt. cbn. lia. }
    destruct (Qgtb (inject_Z v) 0) eqn:E;
      cbn [fst KoopaHDR1_07.k_set_direction KoopaHDR1_07.k_ent
           KoopaHDR1_07.k_set_ent KoopaHDR1_07.rect KoopaHDR1_07.set_rect];
      apply overlaps_none_spec; intros t' Ht'.
    + apply snap_right_free; auto. assert (0 < v) by (apply G; reflexivity). lia.
    + apply snap_left_free; auto.
      assert (~ 0 < v) by (intro H0; apply G in H0; discriminate). lia.
  - cbn [fst KoopaHDR1_07.k_ent KoopaHDR1_07.k_set_ent KoopaHDR1_07.rect
         KoopaHDR1_07.set_rect].
    apply overlaps_none_spec. intros t Ht. exact (find_none _ _ F t Ht).
Qed.

Lemma koopa_ok_of_parts (tl : list Rect) (r : Rect) (v : Vector2) (g : bool)
    (d : Z) (sh : bool) (t : Z) :
  0 < width r -> 0 < height r -> (d = 1 \/ d = -1) ->
  (inject_Z (-32) <= vy v)%Q -> (vy v <= 10)%Q ->
  overlaps_none r tl = true ->
  koopa_ok tl (KoopaHDR1_07.mkKoopa (KoopaHDR1_07.mkEntity r v g) d sh t).
Proof. unfold koopa_ok. cbn. tauto. Qed.

Lemma koopa_ok_update (tm : KoopaHDR1_07.TileMap) (k : KoopaHDR1_07.Koopa) :
  forallb grid_tile (KoopaHDR1_07.tiles tm) = true ->
  koopa_ok (KoopaHDR1_07.tiles tm) k ->
  koopa_ok (KoopaHDR1_07.tiles tm) (KoopaHDR1_07.Koopa_update tm k).
Proof.
  intros Hgrid (Hw & Hh & Hd & Hlo & Hhi & Hfree).
  set (tl := KoopaHDR1_07.tiles tm) in *.
  unfold KoopaHDR1_07.Koopa_update. fold tl.
  (* gravity *)
  set (e1 := KoopaHDR1_07.apply_gravity (KoopaHDR1_07.k_ent k)).
  assert (He1 : KoopaHDR1_07.rect e1 = KoopaHDR1_07.k_rect k
                /\ (inject_Z (-32) <= vy (KoopaHDR1_07.vel e1))%Q
                /\ (vy (KoopaHDR1_07.vel e1) <= 10)%Q).
  { unfold e1, KoopaHDR1_07.apply_gravity, KoopaHDR1_07.k_vy, KoopaHDR1_07.k_rect in *.
    cbn [KoopaHDR1_07.vel KoopaHDR1_07.set_vel vy set_vy].
    destruct (Qgtb (vy (KoopaHDR1_07.vel (KoopaHDR1_07.k_ent k)) + KoopaHDR1_07.GRAVITY) 10)
      eqn:G; cbn [KoopaHDR1_07.vel KoopaHDR1_07.set_vel vy set_vy KoopaHDR1_07.rect].
    - repeat split; [unfold Qle; cbn; lia|apply Qle_refl].
    - repeat split.
      + apply Qle_trans with (y := vy (KoopaHDR1_07.vel (KoopaHDR1_07.k_ent k))); [assumption|].
        rewrite <- (Qplus_0_r (vy (KoopaHDR1_07.vel (KoopaHDR1_07.k_ent k)))) at 1.
        apply Qplus_le_compat; [apply Qle_refl|unfold Qle; cbn; lia].
      + apply Qnot_lt_le. intro H. apply Qgtb_true in H. congruence. }
  clearbody e1. destruct He1 as (Hr1 & Hlo1 & Hhi1).
  destruct e1 as [r1 [vx1 vy1] g1]. cbn in Hr1, Hlo1, Hhi1.
  destruct k as [e d sh t]. unfold KoopaHDR1_07.k_rect in *.
  cbn [KoopaHDR1_07.k_ent KoopaHDR1_07.direction] in *. subst r1.
  set (r := KoopaHDR1_07.rect e) in *.
  (* speed *)
  set (s := if sh then KoopaHDR1_07.KOOPA_SHELL_SPEED else KoopaHDR1_07.KOOPA_SPEED).
  assert (Hs : s = 10 \/ s = 2) by (unfold s; destruct sh; auto).
  set (k2 := KoopaHDR1_07.mkKoopa
               (KoopaHDR1_07.mkEntity r (mkVec (inject_Z (s * d)) vy1) g1) d sh t).
  assert (E2 : KoopaHDR1_07.Koopa_set_speed
                 (KoopaHDR1_07.k_set_ent (KoopaHDR1_07.mkKoopa e d sh t)
                    (KoopaHDR1_07.mkEntity r (mkVec vx1 vy1) g1)) = k2).
  { unfold KoopaHDR1_07.Koopa_set_speed, k2, s. destruct sh; reflexivity. }
  rewrite E2.
  (* horizontal *)
  assert (H3free := hdr_koopa_horizontal_free tl k2 (s * d) Hgrid Hw Hh Hfree eq_refl).
  assert (Hv0 : s * d <> 0) by (destruct Hs, Hd; subst; lia).
  assert (Hvb : -32 <= s * d <= 32) by (destruct Hs, Hd; subst; lia).
  specialize (H3free Hv0 Hvb).
  assert (H3 : exists r3 d3,
             fst (KoopaHDR1_07.Koopa_horizontal tl k2)
             = KoopaHDR1_07.mkKoopa
                 (KoopaHDR1_07.mkEntity r3 (mkVec (inject_Z (s * d)) vy1) g1) d3 sh t
             /\ width r3 = width r /\ height r3 = height r
             /\ (d3 = 1 \/ d3 = -1)).
  { unfold KoopaHDR1_07.Koopa_horizontal. rewrite hdr_wall_loop_first.
    destruct (find _ tl) as [tile|].
    - destruct (Qgtb _ 0); cbn; eexists; eexists;
        (split; [reflexivity|]); repeat split; lia.
    - cbn. eexists; eexists; (split; [reflexivity|]); repeat split; assumption. }
  destruct H3 as (r3 & d3 & E3 & Hw3 & Hh3 & Hd3).
  rewrite E3 in *. unfold KoopaHDR1_07.k_rect in H3free. cbn in H3free.
  (* edge *)
  assert (H4 : exists d4,
             KoopaHDR1_07.Koopa_edge tl
               (KoopaHDR1_07.mkKoopa
                  (KoopaHDR1_07.mkEntity r3 (mkVec (inject_Z (s * d)) vy1) g1) d3 sh t)
             = KoopaHDR1_07.mkKoopa
                 (KoopaHDR1_07.mkEntity r3 (mkVec (inject_Z (s * d)) vy1) g1) d4 sh t
             /\ (d4 = 1 \/ d4 = -1)).
  { unfold KoopaHDR1_07.Koopa_edge. cbn [KoopaHDR1_07.k_ent KoopaHDR1_07.on_ground].
    destruct g1; [destruct (negb _)|]; cbn; eexists; (split; [reflexivity|]);
      try assumption; lia. }
  destruct H4 as (d4 & E4 & Hd4). rewrite E4.
  cbn [KoopaHDR1_07.k_ent KoopaHDR1_07.k_set_ent].
  (* vertical *)
  set (e4 := KoopaHDR1_07.mkEntity r3 (mkVec (inject_Z (s * d)) vy1) g1).
  assert (H5free : overlaps_none (KoopaHDR1_07.rect (KoopaHDR1_07.vertical_sweep tl e4)) tl
                   = true).
  { apply (vertical_sweep_free tl Hgrid); cbn; try lia; try assumption.
    apply Qle_trans with (y := 10%Q); [assumption|unfold Qle; cbn; lia]. }
  destruct (vertical_sweep_keeps tl e4) as (_ & _ & Hw5 & Hh5).
  pose proof (vertical_sweep_vy tl e4) as Hvy5.
  revert H5free Hw5 Hh5 Hvy5.
  generalize (KoopaHDR1_07.vertical_sweep tl e4). intros [r5 v5 g5].
  cbn. intros H5free Hw5 Hh5 Hvy5.
  unfold KoopaHDR1_07.Koopa_shell_tick. cbn [KoopaHDR1_07.shell].
  assert (Hb5 : (inject_Z (-32) <= vy v5)%Q /\ (vy v5 <= 10)%Q).
  { destruct Hvy5 as [->| ->]; [split; assumption|].
    split; unfold Qle; cbn; lia. }
  destruct Hb5 as [Hlo5 Hhi5].
  destruct sh; [cbn; destruct (_ <=? 0)|];
    apply koopa_ok_of_parts; try assumption; lia.
Qed.

Lemma koopa_ok_encounter (tl : list Rect) (k : KoopaHDR1_07.Koopa)
    (s : KoopaHDR1_07.Enc) :
  koopa_ok tl k -> koopa_ok tl (fst (fst (KoopaHDR1_07.encounter k s))).
Proof.
  intros (Hw & Hh & Hd & Hlo & Hhi & Hfree).
  unfold KoopaHDR1_07.encounter.
  destruct (KoopaHDR1_07.stomp_test _ k).
  - cbn [fst]. unfold koopa_ok. cbn. repeat split; assumption.
  - destruct (KoopaHDR1_07.shell_state _).
    + cbn [fst]. unfold koopa_ok, KoopaHDR1_07.kick_direction. cbn.
      repeat split; try assumption.
      * destruct (Qgtb _ 0); auto.
      * unfold Qle. cbn. lia.
      * unfold Qle. cbn. lia.
    + destruct (_ <=? 0); cbn [fst]; repeat split; assumption.
Qed.

Lemma koopa_ok_enemy_loop (tl : list Rect) (pr0 : Rect)
    (ks : list KoopaHDR1_07.Koopa) :
  forall s : KoopaHDR1_07.Enc,
    Forall (koopa_ok tl) ks ->
    Forall (koopa_ok tl) (fst (fst (KoopaHDR1_07.enemy_loop pr0 ks s))).
Proof.
  induction ks as [|k ks IH]; intros s H; cbn [KoopaHDR1_07.enemy_loop];
    [constructor|].
  inversion H as [|k' ks' Hk Hks]; subst.
  destruct (colliderect pr0 (KoopaHDR1_07.k_rect k)).
  - pose proof (koopa_ok_encounter tl k s Hk) as Hk1.
    destruct (KoopaHDR1_07.encounter k s) as [[k1 s1] stop]. cbn [fst] in Hk1.
    destruct stop; [constructor; assumption|].
    specialize (IH s1 Hks).
    destruct (KoopaHDR1_07.enemy_loop pr0 ks s1) as [[ks2 s2] stop2].
    constructor; assumption.
  - specialize (IH s Hks).
    destruct (KoopaHDR1_07.enemy_loop pr0 ks s) as [[ks2 s2] stop2].
    constructor; assumption.
Qed.

(** One [update] of a session whose object has no [current_level]
    attribute: the tile map stays, the attribute stays unset, well-placed
    enemies stay well placed. *)
Lemma hdr_update_keeps_enemies_ok (g : KoopaHDR1_07.Globals)
    (gm : KoopaHDR1_07.GameManager) (keys : KoopaHDR1_07.Keys) :
  KoopaHDR1_07.attr_current_level gm = None ->
  forallb grid_tile (KoopaHDR1_07.tiles (KoopaHDR1_07.tile_map gm)) = true ->
  Forall (koopa_ok (KoopaHDR1_07.tiles (KoopaHDR1_07.tile_map gm)))
         (KoopaHDR1_07.koopas gm) ->
  let gm' := snd (fst (KoopaHDR1_07.update g gm keys)) in
  KoopaHDR1_07.attr_current_level gm' = None
  /\ KoopaHDR1_07.tile_map gm' = KoopaHDR1_07.tile_map gm
  /\ Forall (koopa_ok (KoopaHDR1_07.tiles (KoopaHDR1_07.tile_map gm)))
            (KoopaHDR1_07.koopas gm').
Proof.
  intros Hattr Hgrid Hok gm'. subst gm'. unfold KoopaHDR1_07.update.
  destruct (KoopaHDR1_07.collect_coins _ _ _) as [cs2 sc2].
  assert (Hks1 : Forall (koopa_ok (KoopaHDR1_07.tiles (KoopaHDR1_07.tile_map gm)))
                   (map (KoopaHDR1_07.Koopa_update (KoopaHDR1_07.tile_map gm))
                      (KoopaHDR1_07.koopas gm))).
  { rewrite Forall_forall in *. intros k Hk. apply in_map_iff in Hk.
    destruct Hk as (k0 & <- & Hk0). apply koopa_ok_update; auto. }
  match goal with
  | |- context [KoopaHDR1_07.enemy_loop ?r ?ks ?s] =>
      pose proof (koopa_ok_enemy_loop _ r ks s Hks1) as Hl;
      destruct (KoopaHDR1_07.enemy_loop r ks s) as [[ks3 s3] stop]
  end.
  cbn [fst] in Hl. rewrite Hattr.
  destruct stop; [cbn; repeat split; assumption|].
  unfold KoopaHDR1_07.level_complete.
  cbn [KoopaHDR1_07.player KoopaHDR1_07.tile_map KoopaHDR1_07.attr_current_level].
  destruct (_ >? _); cbn; repeat split; assumption.
Qed.

Lemma hdr_run_keeps_enemies_ok (inputs : list KoopaHDR1_07.Keys) :
  forall (g : KoopaHDR1_07.Globals) (gm : KoopaHDR1_07.GameManager),
    KoopaHDR1_07.attr_current_level gm = None ->
    forallb grid_tile (KoopaHDR1_07.tiles (KoopaHDR1_07.tile_map gm)) = true ->
    Forall (koopa_ok (KoopaHDR1_07.tiles (KoopaHDR1_07.tile_map gm)))
           (KoopaHDR1_07.koopas gm) ->
    let gm' := snd (fst (hdr_run g gm inputs)) in
    KoopaHDR1_07.tile_map gm' = KoopaHDR1_07.tile_map gm
    /\ Forall (koopa_ok (KoopaHDR1_07.tiles (KoopaHDR1_07.tile_map gm)))
              (KoopaHDR1_07.koopas gm').
Proof.
  induction inputs as [|keys rest IH]; intros g gm Hattr Hgrid Hok; cbn [hdr_run].
  - cbn. split; [reflexivity|assumption].
  - destruct (hdr_update_keeps_enemies_ok g gm keys Hattr Hgrid Hok) as (Ha & Ht & Hk).
    destruct (KoopaHDR1_07.update g gm keys) as [[g1 gm1] o]. cbn [fst snd] in Ha, Ht, Hk.
    destruct o; cbn [fst snd]; try (split; assumption).
    rewrite <- Ht in Hgrid, Hk.
    destruct (IH g1 gm1 Ha Hgrid Hk) as (Ht' & Hk').
    rewrite Ht in Ht', Hk'. split; [congruence|assumption].
Qed.

(** X16.  [Koopa.update] keeps an enemy out of the tiles: if the solids
    are lattice tiles and the enemy's box (of positive size) overlaps none
    of them, its direction is +1 or -1 and its velocity.y lies between -32
    and 10, then all of this holds again after the update.  [stomp] and
    [kick] by the encounter loop keep it too. *)
Theorem X16_koopa_update_keeps_free (tm : KoopaHDR1_07.TileMap)
    (k : KoopaHDR1_07.Koopa) (s : KoopaHDR1_07.Enc) :
  forallb grid_tile (KoopaHDR1_07.tiles tm) = true ->
  koopa_ok (KoopaHDR1_07.tiles tm) k ->
  koopa_ok (KoopaHDR1_07.tiles tm) (KoopaHDR1_07.Koopa_update tm k)
  /\ koopa_ok (KoopaHDR1_07.tiles tm) (fst (fst (KoopaHDR1_07.encounter k s))).
Proof.
  intros Hgrid Hk. split.
  - apply koopa_ok_update; assumption.
  - apply koopa_ok_encounter. assumption.
Qed.

Lemma X16_koopa_update_keeps_free_witness :
  let tm := hdr_tile_map_of floor_level in
  overlaps_none
    (KoopaHDR1_07.k_rect (KoopaHDR1_07.Koopa_update tm (koopa_at 95 0)))
    (KoopaHDR1_07.tiles tm) = true.
Proof.
  intro tm.
  assert (Hk : koopa_ok (KoopaHDR1_07.tiles tm) (koopa_at 95 0)).
  { unfold koopa_ok. cbn.
    repeat split; try lia; try (left; reflexivity); unfold Qle; cbn; lia. }
  destruct (X16_koopa_update_keeps_free tm (koopa_at 95 0)
              (KoopaHDR1_07.mkEnc stomping_player 0 3) eq_refl Hk) as (H & _).
  exact (proj2 (proj2 (proj2 (proj2 (proj2 H))))).
Defined.

(** X17.  In every state the main loop can reach from the session
    [GameManager()] starts with, whatever keys are held in the successive
    frames, the tile map is still the one of the first level and no
    enemy's box overlaps a solid (each enemy also keeps a direction of +1
    or -1 and a velocity.y between -32 and 10). *)
Theorem X17_enemies_never_in_tiles (inputs : list KoopaHDR1_07.Keys) :
  let start := snd hdr_start in
  let gm' := snd (fst (hdr_run (fst hdr_start) start inputs)) in
  KoopaHDR1_07.data (KoopaHDR1_07.tile_map start) = KoopaHDR1_07.LEVEL_1_1
  /\ List.length (KoopaHDR1_07.koopas start) = 2%nat
  /\ KoopaHDR1_07.tile_map gm' = KoopaHDR1_07.tile_map start
  /\ Forall (koopa_ok (KoopaHDR1_07.tiles (KoopaHDR1_07.tile_map start)))
            (KoopaHDR1_07.koopas gm').
Proof.
  intros start gm'.
  split; [reflexivity|]. split; [reflexivity|].
  apply hdr_run_keeps_enemies_ok.
  - reflexivity.
  - reflexivity.
  - assert (E : KoopaHDR1_07.koopas start
                = [KoopaHDR1_07.Koopa_init (2144, 64); KoopaHDR1_07.Koopa_init (256, 192)])
      by reflexivity.
    rewrite E.
    assert (F1 : overlaps_none (mkRect 2144 64 32 32)
                   (KoopaHDR1_07.tiles (KoopaHDR1_07.tile_map start)) = true)
      by (vm_compute; reflexivity).
    assert (F2 : overlaps_none (mkRect 256 192 32 32)
                   (KoopaHDR1_07.tiles (KoopaHDR1_07.tile_map start)) = true)
      by (vm_compute; reflexivity).
    repeat constructor; unfold koopa_ok, KoopaHDR1_07.Koopa_init, KoopaHDR1_07.Entity_init;
      unfold KoopaHDR1_07.k_rect, KoopaHDR1_07.k_vy;
      cbn [KoopaHDR1_07.k_ent KoopaHDR1_07.rect KoopaHDR1_07.vel KoopaHDR1_07.direction
           fst snd width height vy];
      repeat split; try lia; try (left; reflexivity); try assumption;
      unfold Qle; cbn; lia.
Qed.

(** ** koopahdr.py: lives, enemies and the grounded flag *)

Lemma old_encounter_lives (feet : Rect) (k : Koopahdr.Koopa) (s : Koopahdr.Enc) :
  Koopahdr.e_lives (snd (Koopahdr.encounter feet k s)) <= Koopahdr.e_lives s
  /\ (forall k', fst (Koopahdr.encounter feet k s) = Koopahdr.Returned k' ->
                 Koopahdr.e_lives (snd (Koopahdr.encounter feet k s)) <= 0).
Proof.
  unfold Koopahdr.encounter.
  destruct (colliderect (Koopahdr.k_rect k) feet && Qgtb _ 0);
    [cbn; split; [lia|discriminate]|].
  destruct (colliderect _ (Koopahdr.k_rect k)); [|cbn; split; [lia|discriminate]].
  destruct (Koopahdr.shell_state _); [cbn; split; [lia|discriminate]|].
  destruct (Z.leb_spec (Koopahdr.e_lives s - 1) 0); cbn; split;
    try lia; try discriminate; intros; lia.
Qed.

Lemma old_enemy_loop_lives (feet : Rect) (l : list Koopahdr.Sprite) :
  forall s : Koopahdr.Enc,
    let r := Koopahdr.enemy_loop feet l s in
    Koopahdr.e_lives (snd (fst r)) <= Koopahdr.e_lives s
    /\ (List.length (fst (fst r)) <= List.length l)%nat
    /\ (snd r = true -> Koopahdr.e_lives (snd (fst r)) <= 0).
Proof.
  induction l as [|sp l IH]; intro s; cbn [Koopahdr.enemy_loop].
  - cbn. repeat split; try lia; try discriminate.
  - destruct (Koopahdr.in_enemies sp).
    + destruct (old_encounter_lives feet (Koopahdr.obj sp) s) as (Hl & Hr).
      destruct (Koopahdr.encounter feet (Koopahdr.obj sp) s) as [[|k|k] s1];
        cbn [fst snd] in Hl, Hr.
      * destruct (IH s1) as (A & B & C). cbn [List.length].
        repeat split; [lia|lia|assumption].
      * destruct (IH s1) as (A & B & C).
        destruct (Koopahdr.enemy_loop feet l s1) as [[l2 s2] stop].
        cbn [fst snd List.length] in *. repeat split; [lia|lia|assumption].
      * cbn [fst snd List.length]. repeat split; [assumption|lia|].
        intros _. exact (Hr k eq_refl).
    + destruct (IH s) as (A & B & C).
      destruct (Koopahdr.enemy_loop feet l s) as [[l2 s2] stop].
      cbn [fst snd List.length] in *. repeat split; [lia|lia|assumption].
Qed.

(** X18.  [GameManager.update] of [koopahdr.py] never gives a life back and
    never adds an enemy (a stomp removes one, nothing creates one); it
    returns [False] only when no life is left, and otherwise returns
    [True]: it raises nothing. *)
Theorem X18_old_update_lives (gm : Koopahdr.GameManager) (keys : Koopahdr.Keys) :
  let r := Koopahdr.update gm keys in
  Koopahdr.lives (fst r) <= Koopahdr.lives gm
  /\ (List.length (Koopahdr.all_sprites (fst r))
      <= List.length (Koopahdr.all_sprites gm))%nat
  /\ (snd r = Stop -> Koopahdr.lives (fst r) <= 0)
  /\ (snd r = Continue \/ snd r = Stop)
  /\ Koopahdr.tile_map (fst r) = Koopahdr.tile_map gm.
Proof.
  unfold Koopahdr.update.
  match goal with
  | |- context [Koopahdr.enemy_loop ?f ?l ?s] =>
      destruct (old_enemy_loop_lives f l s) as (A & B & C);
      destruct (Koopahdr.enemy_loop f l s) as [[l3 s3] stop]
  end.
  cbn [fst snd Koopahdr.e_lives Koopahdr.lives Koopahdr.all_sprites
       Koopahdr.tile_map] in *.
  rewrite !length_map in B.
  repeat split; try assumption.
  - destruct stop; [intros _; auto|discriminate].
  - destruct stop; auto.
Qed.

(** An enemy walks into the player, who has one life left. *)
Lemma X18_old_update_lives_witness :
  let gm := Koopahdr.mkGameManager
              (Koopahdr.mkPlayer (mkRect 40 0 32 32) (mkVec 0 (1 # 2))
                 false false false 0)
              [Koopahdr.mkSprite (old_koopa_at 40 0) true true]
              (tile_map_of floor_level) 0 1 in
  snd (Koopahdr.update gm old_no_keys) = Stop
  /\ Koopahdr.lives (fst (Koopahdr.update gm old_no_keys)) <= 0.
Proof.
  intro gm.
  destruct (X18_old_update_lives gm old_no_keys) as (_ & _ & H & _).
  split; [reflexivity|]. apply H. reflexivity.
Defined.

Lemma old_check_step_grounded (d : Koopahdr.Direction) (p : Koopahdr.Player)
    (t : Rect) :
  Koopahdr.on_ground p = true ->
  Koopahdr.on_ground (Koopahdr.check_collisions_step d p t) = true.
Proof.
  intro H. unfold Koopahdr.check_collisions_step.
  destruct (colliderect (Koopahdr.p_rect p) t); [|exact H].
  destruct d.
  - destruct (Qgtb (Koopahdr.p_vx p) 0); [exact H|].
    destruct (Qltb (Koopahdr.p_vx p) 0); exact H.
  - destruct (Qgtb (Koopahdr.p_vy p) 0); [reflexivity|].
    destruct (Qltb (Koopahdr.p_vy p) 0); exact H.
Qed.

Lemma old_check_grounded (tm : Koopahdr.TileMap) (d : Koopahdr.Direction) :
  forall p : Koopahdr.Player,
    Koopahdr.on_ground p = true ->
    Koopahdr.on_ground (Koopahdr.check_collisions tm d p) = true.
Proof.
  unfold Koopahdr.check_collisions. generalize (Koopahdr.tiles tm). intro tl.
  induction tl as [|t tl IH]; intros p H; cbn [fold_left]; [exact H|].
  apply IH. apply old_check_step_grounded. exact H.
Qed.

(** X19.  In [koopahdr.py] the grounded flag is sticky: once [on_ground]
    is true it stays true through [Player.update] as long as the jump key
    is not pressed, whatever the tiles are, also when the player has
    walked off a ledge and is falling. *)
Theorem X19_old_grounded_is_sticky (tm : Koopahdr.TileMap) (keys : Koopahdr.Keys)
    (p : Koopahdr.Player) :
  Koopahdr.on_ground p = true ->
  Koopahdr.K_SPACE keys = false ->
  Koopahdr.on_ground (Koopahdr.Player_update tm keys p) = true.
Proof.
  intros Hg Hk. unfold Koopahdr.Player_update.
  assert (H3 : Koopahdr.on_ground
                 (Koopahdr.Player_jump
                    (Koopahdr.Player_movement (Koopahdr.Player_gravity p) keys) keys)
               = true).
  { unfold Koopahdr.Player_jump. rewrite Hk. cbn [andb].
    unfold Koopahdr.Player_movement, Koopahdr.Player_gravity.
    destruct (Koopahdr.K_LEFT keys); [|destruct (Koopahdr.K_RIGHT keys)];
      destruct (Qgtb _ 5); exact Hg. }
  set (p3 := Koopahdr.Player_jump _ keys) in *. clearbody p3.
  unfold Koopahdr.Player_shell_tick, Koopahdr.Player_vertical_sweep,
    Koopahdr.Player_horizontal_sweep.
  assert (H5 : Koopahdr.on_ground
                 (Koopahdr.check_collisions tm Koopahdr.vertical
                    (Koopahdr.p_set_rect
                       (Koopahdr.check_collisions tm Koopahdr.horizontal
                          (Koopahdr.p_set_rect p3
                             (add_x (Koopahdr.p_rect p3) (Koopahdr.p_vx p3))))
                       (add_y
                          (Koopahdr.p_rect
                             (Koopahdr.check_collisions tm Koopahdr.horizontal
                                (Koopahdr.p_set_rect p3
                                   (add_x (Koopahdr.p_rect p3) (Koopahdr.p_vx p3)))))
                          (Koopahdr.p_vy
                             (Koopahdr.check_collisions tm Koopahdr.horizontal
                                (Koopahdr.p_set_rect p3
                                   (add_x (Koopahdr.p_rect p3) (Koopahdr.p_vx p3))))))))
               = true).
  { apply old_check_grounded. cbn [Koopahdr.on_ground Koopahdr.p_set_rect].
    apply old_check_grounded. exact H3. }
  revert H5. generalize (Koopahdr.check_collisions tm Koopahdr.vertical
    (Koopahdr.p_set_rect
       (Koopahdr.check_collisions tm Koopahdr.horizontal
          (Koopahdr.p_set_rect p3 (add_x (Koopahdr.p_rect p3) (Koopahdr.p_vx p3))))
       (add_y
          (Koopahdr.p_rect
             (Koopahdr.check_collisions tm Koopahdr.horizontal
                (Koopahdr.p_set_rect p3 (add_x (Koopahdr.p_rect p3) (Koopahdr.p_vx p3)))))
          (Koopahdr.p_vy
             (Koopahdr.check_collisions tm Koopahdr.horizontal
                (Koopahdr.p_set_rect p3 (add_x (Koopahdr.p_rect p3) (Koopahdr.p_vx p3)))))))).
  intros p5 H5.
  destruct (Koopahdr.shell_state p5); [|exact H5].
  cbn. destruct (_ <=? 0); exact H5.
Qed.

(** A player that landed earlier falls through a map without tiles and
    is still reported grounded. *)
Lemma X19_old_grounded_is_sticky_witness :
  Koopahdr.on_ground
    (Koopahdr.Player_update (tile_map_of ["."%string]) old_no_keys airborne_player)
  = true.
Proof.
  exact (X19_old_grounded_is_sticky (tile_map_of ["."%string]) old_no_keys
           airborne_player eq_refl eq_refl).
Defined.

(** ** The player stays out of the tiles *)

(** The player as gravity, the keys and the jump leave it, before the
    shell steps and the sweeps. *)
Lemma hdr_pre_shell_form (p : KoopaHDR1_07.Player) (keys : KoopaHDR1_07.Keys) :
  exists (a : Z) (vy3 : Q),
    (a = -1 \/ a = 0 \/ a = 1)
    /\ KoopaHDR1_07.Player_jump
         (KoopaHDR1_07.Player_movement
            (KoopaHDR1_07.p_set_ent p
               (KoopaHDR1_07.apply_gravity (KoopaHDR1_07.p_ent p))) keys) keys
       = KoopaHDR1_07.mkPlayer
           (KoopaHDR1_07.mkEntity (KoopaHDR1_07.p_rect p)
              (mkVec (inject_Z (6 * a)) vy3)
              (KoopaHDR1_07.on_ground (KoopaHDR1_07.p_ent p)))
           (KoopaHDR1_07.shell_state p) (KoopaHDR1_07.shell_timer p)
           (KoopaHDR1_07.dash_speed p)
    /\ ((inject_Z (-32) <= KoopaHDR1_07.p_vy p)%Q ->
        (inject_Z (-32) <= vy3)%Q /\ (vy3 <= inject_Z 32)%Q).
Proof.
  destruct p as [[r [vx0 vy0] g] ss st ds].
  unfold KoopaHDR1_07.p_rect, KoopaHDR1_07.p_vy.
  cbn [KoopaHDR1_07.p_ent KoopaHDR1_07.rect KoopaHDR1_07.vel vy
       KoopaHDR1_07.on_ground KoopaHDR1_07.shell_state KoopaHDR1_07.shell_timer
       KoopaHDR1_07.dash_speed].
  assert (Hg : exists vy1,
             KoopaHDR1_07.apply_gravity (KoopaHDR1_07.mkEntity r (mkVec vx0 vy0) g)
             = KoopaHDR1_07.mkEntity r (mkVec vx0 vy1) g
             /\ ((inject_Z (-32) <= vy0)%Q ->
                 (inject_Z (-32) <= vy1)%Q /\ (vy1 <= inject_Z 32)%Q)).
  { unfold KoopaHDR1_07.apply_gravity.
    cbn [KoopaHDR1_07.vel KoopaHDR1_07.set_vel vy set_vy].
    destruct (Qgtb (vy0 + KoopaHDR1_07.GRAVITY) 10) eqn:G.
    - eexists. split; [reflexivity|]. intros _. split; unfold Qle; cbn; lia.
    - eexists. split; [reflexivity|]. intro Hlo. split.
      + apply Qle_trans with (y := vy0); [assumption|].
        rewrite <- (Qplus_0_r vy0) at 1.
        apply Qplus_le_compat; [apply Qle_refl|unfold Qle; cbn; lia].
      + apply Qle_trans with (y := 10%Q); [|unfold Qle; cbn; lia].
        apply Qnot_lt_le. intro H. apply Qgtb_true in H. congruence. }
  destruct Hg as (vy1 & -> & Hb).
  exists (axis keys),
    (if (KoopaHDR1_07.K_SPACE keys || KoopaHDR1_07.K_w keys) && g
     then inject_Z KoopaHDR1_07.JUMP_STRENGTH else vy1).
  unfold axis, KoopaHDR1_07.Player_jump, KoopaHDR1_07.Player_movement.
  split; [|split].
  - destruct (KoopaHDR1_07.K_LEFT keys || KoopaHDR1_07.K_a keys);
      destruct (KoopaHDR1_07.K_RIGHT keys || KoopaHDR1_07.K_d keys); lia.
  - destruct (KoopaHDR1_07.K_LEFT keys || KoopaHDR1_07.K_a keys);
      destruct (KoopaHDR1_07.K_RIGHT keys || KoopaHDR1_07.K_d keys);
      destruct (KoopaHDR1_07.K_SPACE keys || KoopaHDR1_07.K_w keys);
      destruct g; reflexivity.
  - intro H. destruct (Hb H) as [H1 H2].
    destruct ((KoopaHDR1_07.K_SPACE keys || KoopaHDR1_07.K_w keys) && g);
      [split; unfold Qle; cbn; lia|split; assumption].
Qed.

(** The two sweeps keep a free player free. *)
Lemma hdr_sweeps_free (tl : list Rect) (p : KoopaHDR1_07.Player) :
  forallb grid_tile tl = true ->
  0 < width (KoopaHDR1_07.p_rect p) -> 0 < height (KoopaHDR1_07.p_rect p) ->
  overlaps_none (KoopaHDR1_07.p_rect p) tl = true ->
  0 <= KoopaHDR1_07.dash_speed p ->
  (inject_Z (-32) <= KoopaHDR1_07.p_vx p
     + inject_Z (KoopaHDR1_07.dash_speed p * KoopaHDR1_07.sign3 (KoopaHDR1_07.p_vx p)))%Q ->
  (KoopaHDR1_07.p_vx p
     + inject_Z (KoopaHDR1_07.dash_speed p * KoopaHDR1_07.sign3 (KoopaHDR1_07.p_vx p))
   <= inject_Z 32)%Q ->
  (inject_Z (-32) <= KoopaHDR1_07.p_vy p)%Q ->
  (KoopaHDR1_07.p_vy p <= inject_Z 32)%Q ->
  let p6 := KoopaHDR1_07.Player_horizontal_sweep tl p in
  overlaps_none
    (KoopaHDR1_07.rect (KoopaHDR1_07.vertical_sweep tl (KoopaHDR1_07.p_ent p6))) tl
  = true.
Proof.
  intros Hgrid Hw Hh Hfree Hdash Hlo Hhi Hvlo Hvhi p6.
  pose proof (Player_horizontal_sweep_free tl p Hgrid Hw Hh Hfree Hdash Hlo Hhi) as H6.
  fold p6 in H6.
  assert (Hk : width (KoopaHDR1_07.p_rect p6) = width (KoopaHDR1_07.p_rect p)
               /\ height (KoopaHDR1_07.p_rect p6) = height (KoopaHDR1_07.p_rect p)
               /\ KoopaHDR1_07.p_vy p6 = KoopaHDR1_07.p_vy p).
  { unfold p6, KoopaHDR1_07.Player_horizontal_sweep, KoopaHDR1_07.p_rect,
      KoopaHDR1_07.p_vy.
    cbn [KoopaHDR1_07.p_ent KoopaHDR1_07.p_set_ent].
    rewrite check_collisions_x_first.
    destruct (find _ tl); [|repeat split].
    unfold KoopaHDR1_07.check_collisions_x_step.
    cbn [KoopaHDR1_07.rect KoopaHDR1_07.set_rect KoopaHDR1_07.vel].
    repeat match goal with
    | |- context [if ?c then _ else _] => destruct c
    end; repeat split. }
  destruct Hk as (Hw6 & Hh6 & Hv6).
  unfold KoopaHDR1_07.p_rect, KoopaHDR1_07.p_vy in *.
  apply (vertical_sweep_free tl Hgrid); try assumption; try lia;
    rewrite Hv6; assumption.
Qed.

Lemma shrunk_box_free (r : Rect) (tl : list Rect) :
  forallb grid_tile tl = true ->
  0 < width r -> height r = 32 ->
  overlaps_none r tl = true ->
  overlaps_none (set_y (set_height r 24) (y (set_height r 24) + 8)) tl = true.
Proof.
  intros Hgrid Hw Hh Hfree.
  rewrite overlaps_none_spec in *. intros t Ht.
  specialize (Hfree t Ht).
  assert (Hg : grid_tile t = true) by (rewrite forallb_forall in Hgrid; auto).
  destruct r as [x0 y0 w0 h0], t as [tx ty tw th].
  unfold set_y, set_height in *. rect_simpl. subst h0.
  overlap_facts. overlap_goal. rect_simpl.
  destruct Hg as (-> & -> & _ & _). lia.
Qed.


(** X20 ([Player.update], newer file).  On a tile map whose tiles are
    cells of the 32-pixel lattice, a player of the regular silhouette
    whose box overlaps no tile, and which does not rise faster than one
    tile per frame, overlaps no tile after [Player.update], whatever the
    keys, provided the frame is not the one in which its shell runs out
    (the box then grows back upwards by 8 pixels without any check). *)
Theorem X20_player_update_keeps_free
    (tm : KoopaHDR1_07.TileMap) (keys : KoopaHDR1_07.Keys)
    (p : KoopaHDR1_07.Player) :
  forallb grid_tile (KoopaHDR1_07.tiles tm) = true ->
  player_shape p ->
  overlaps_none (KoopaHDR1_07.p_rect p) (KoopaHDR1_07.tiles tm) = true ->
  (inject_Z (-32) <= KoopaHDR1_07.p_vy p)%Q ->
  (KoopaHDR1_07.shell_state p = true -> 1 < KoopaHDR1_07.shell_timer p) ->
  overlaps_none (KoopaHDR1_07.p_rect (KoopaHDR1_07.Player_update tm keys p))
                (KoopaHDR1_07.tiles tm) = true.
Proof.
  intros Hgrid Hshape Hfree Hvy Htimer.
  unfold KoopaHDR1_07.Player_update. cbv zeta.
  destruct (hdr_pre_shell_form p keys) as (a & vy3 & Ha & -> & Hb).
  destruct (Hb Hvy) as [Hlo Hhi]. clear Hb Hvy.
  destruct p as [[r v g] ss st ds].
  unfold player_shape, KoopaHDR1_07.p_rect in Hshape, Hfree, Htimer.
  cbn [KoopaHDR1_07.p_ent KoopaHDR1_07.rect KoopaHDR1_07.shell_state
       KoopaHDR1_07.shell_timer KoopaHDR1_07.dash_speed KoopaHDR1_07.on_ground]
    in Hshape, Hfree, Htimer.
  unfold KoopaHDR1_07.p_rect.
  cbn [KoopaHDR1_07.p_ent KoopaHDR1_07.rect KoopaHDR1_07.shell_state
       KoopaHDR1_07.shell_timer KoopaHDR1_07.dash_speed KoopaHDR1_07.on_ground
       KoopaHDR1_07.p_set_ent].
  destruct Hshape as [Hw [(-> & Hh & -> & Hst)|(-> & Hh & ->)]].
  - (* already in shell mode *)
    specialize (Htimer eq_refl).
    unfold KoopaHDR1_07.Player_enter_shell, KoopaHDR1_07.Player_shell_tick.
    cbn [KoopaHDR1_07.shell_state negb].
    rewrite andb_false_r.
    cbn [KoopaHDR1_07.shell_state KoopaHDR1_07.shell_timer KoopaHDR1_07.p_set_vx
         KoopaHDR1_07.p_set_ent KoopaHDR1_07.p_ent KoopaHDR1_07.dash_speed].
    destruct (Z.leb_spec (st - 1) 0) as [Hc|_]; [lia|].
    apply hdr_sweeps_free; try assumption;
      unfold KoopaHDR1_07.p_rect, KoopaHDR1_07.p_vx, KoopaHDR1_07.p_vy;
      cbn [KoopaHDR1_07.p_ent KoopaHDR1_07.rect KoopaHDR1_07.vel
           KoopaHDR1_07.set_vel KoopaHDR1_07.dash_speed vx vy set_vx];
      try assumption; try lia;
      destruct Ha as [-> | [-> | ->]]; vm_compute; discriminate.
  - destruct (KoopaHDR1_07.K_x keys) eqn:Kx.
    + (* the shell is entered in this frame *)
      unfold KoopaHDR1_07.Player_enter_shell, KoopaHDR1_07.Player_shell_tick.
      cbn [KoopaHDR1_07.shell_state negb]. rewrite Kx.
      cbn [andb KoopaHDR1_07.shell_state KoopaHDR1_07.shell_timer
           KoopaHDR1_07.p_set_vx KoopaHDR1_07.p_set_ent KoopaHDR1_07.p_ent
           KoopaHDR1_07.dash_speed].
      change (300 - 1 <=? 0) with false. cbv iota.
      pose proof (shrunk_box_free r (KoopaHDR1_07.tiles tm) Hgrid
                    ltac:(lia) Hh Hfree) as Hs.
      apply hdr_sweeps_free; try assumption;
        unfold KoopaHDR1_07.p_rect, KoopaHDR1_07.p_vx, KoopaHDR1_07.p_vy;
        cbn [KoopaHDR1_07.p_ent KoopaHDR1_07.rect KoopaHDR1_07.vel
             KoopaHDR1_07.set_vel KoopaHDR1_07.set_rect KoopaHDR1_07.dash_speed
             vx vy set_vx];
        try assumption;
        try (destruct r; unfold set_y, set_height; cbn [x y width height] in *; lia);
        try (vm_compute; discriminate);
        destruct Ha as [-> | [-> | ->]]; vm_compute; discriminate.
    + (* the regular mode *)
      unfold KoopaHDR1_07.Player_enter_shell, KoopaHDR1_07.Player_shell_tick.
      cbn [KoopaHDR1_07.shell_state negb]. rewrite Kx.
      cbn [andb KoopaHDR1_07.shell_state].
      apply hdr_sweeps_free; try assumption;
        unfold KoopaHDR1_07.p_rect, KoopaHDR1_07.p_vx, KoopaHDR1_07.p_vy;
        cbn [KoopaHDR1_07.p_ent KoopaHDR1_07.rect KoopaHDR1_07.vel
             KoopaHDR1_07.dash_speed vx vy];
        try assumption; try lia;
        destruct Ha as [-> | [-> | ->]]; vm_compute; discriminate.
Qed.


Lemma X20_player_update_keeps_free_witness :
  let tm := hdr_tile_map_of floor_level in
  overlaps_none
    (KoopaHDR1_07.p_rect
       (KoopaHDR1_07.Player_update tm
          (KoopaHDR1_07.mkKeys false false true false true false true)
          (KoopaHDR1_07.mkPlayer
             (KoopaHDR1_07.mkEntity (mkRect 40 0 32 32) (mkVec 0 0) true)
             false 0 0)))
    (KoopaHDR1_07.tiles tm) = true.
Proof.
  intro tm.
  apply (X20_player_update_keeps_free tm).
  - vm_compute. reflexivity.
  - unfold player_shape. split; [reflexivity|].
    right. repeat split; reflexivity.
  - vm_compute. reflexivity.
  - vm_compute. discriminate.
  - intro H. discriminate H.
Defined.
